(** * Paradrop: configuration daemon and chute container glue

    A shallow embedding of the parts of Paradrop that render daemon
    configuration (dnsmasq, hostapd), allocate chute network interfaces
    and drive the container engine, together with the properties the
    specification states about them.

    Python values are embedded as follows: [str] as [string], [int] as [Z],
    [None]-able attributes as [option], [dict]s used as maps as [gmap],
    exceptions as the [Raise] branch of [result], and the file system, the
    log and spawned processes as an explicit [world] threaded through the
    effectful functions. *)

From Stdlib Require Import ZArith Ascii String List DecimalString DecimalPos Lia.
From stdpp Require Import base option list gmap strings.

Open Scope string_scope.
Open Scope list_scope.
Open Scope Z_scope.

(** ** Exceptions and the state-and-error monad *)

Inductive exn : Type :=
| Exception (msg : string)
| TypeError (msg : string)
| AttributeError (msg : string)
| AddressValueError (msg : string)
| NetmaskValueError (msg : string)
| LookupFailure (msg : string)
| KeyError (msg : string)
| StopIteration
| OSError (msg : string).

Inductive result (A : Type) : Type :=
| Ok (a : A)
| Raise (e : exn).
Arguments Ok {A} a.
Arguments Raise {A} e.

(** What the process can touch on the host: derived files (a path maps to
    the chunks written to it since it was last opened for writing), the
    paths that exist but cannot be opened for reading, the warning/info
    log, and every child process spawned, as its argv and the [PATH] of
    the environment it was given. *)
Record world : Type := World {
  files : gmap string (list string);
  unreadable : gset string;
  log : list string;
  spawned : list (list string * string)
}.

(** Computations over a state [S] that may raise; the state survives an
    exception, as mutations made before a [raise] do in Python. *)
Definition St (S A : Type) : Type := S -> result A * S.

(** Computations over the host alone. *)
Definition M (A : Type) : Type := St world A.

Definition ret {S A} (a : A) : St S A := fun s => (Ok a, s).
Definition raise {S A} (e : exn) : St S A := fun s => (Raise e, s).
Definition bind {S A B} (m : St S A) (k : A -> St S B) : St S B :=
  fun s => match m s with
           | (Ok a, s') => k a s'
           | (Raise e, s') => (Raise e, s')
           end.

Notation "x <- m ;; k" := (bind m (fun x => k))
  (at level 100, m at next level, right associativity).
Notation "m ;;; k" := (bind m (fun _ => k))
  (at level 100, right associativity).

(** [open(path, "w")]: the file is created or truncated. *)
Definition open_w (path : string) : M unit :=
  fun w => (Ok tt, World (<[path := []]> (files w)) (unreadable w)
                         (log w) (spawned w)).

(** [output.write(chunk)] on a file opened by [open_w]. *)
Definition write (path chunk : string) : M unit :=
  fun w => (Ok tt,
            World (<[path := default [] (files w !! path) ++ [chunk]]> (files w))
                  (unreadable w) (log w) (spawned w)).

(** [out.warn(msg)] and [out.info(msg)]. *)
Definition out_warn (msg : string) : M unit :=
  fun w => (Ok tt, World (files w) (unreadable w)
                         (log w ++ ["WARN: " +:+ msg]) (spawned w)).
Definition out_info (msg : string) : M unit :=
  fun w => (Ok tt, World (files w) (unreadable w)
                         (log w ++ ["INFO: " +:+ msg]) (spawned w)).

(** [open(path, "r")] followed by [read()]: the whole content, or [None]
    when the open fails because the file is absent or unreadable. *)
Definition read_file (w : world) (path : string) : option string :=
  if decide (path ∈ unreadable w) then None
  else (fun chunks => fold_right String.append "" chunks) <$> files w !! path.

(** A pure computation that may raise, run inside the monad. *)
Definition lift {S A} (r : result A) : St S A := fun s => (r, s).

Fixpoint write_each (path : string) (chunks : list string) : M unit :=
  match chunks with
  | [] => ret tt
  | c :: cs => write path c ;;; write_each path cs
  end.

(** ** Python built-ins used by the sources *)

Module Py.

(** The newline character, and the double quote. *)
Definition nl : string := String (ascii_of_nat 10) EmptyString.
Definition dquote : string := String (ascii_of_nat 34) EmptyString.

(** [str(x)] / [format] of an attribute that may be [None]. *)
Definition fmt_opt (x : option string) : string := default "None" x.

Definition is_digit (c : ascii) : bool :=
  let n := nat_of_ascii c in (Nat.leb 48 n && Nat.leb n 57)%bool.

Fixpoint all_chars (p : ascii -> bool) (s : string) : bool :=
  match s with
  | EmptyString => true
  | String c r => (p c && all_chars p r)%bool
  end.

(** [int(s, 10)] for a string of decimal digits, most significant
    first, given the value [acc] of the digits already read. *)
Fixpoint int_of_digits (acc : Z) (s : string) : Z :=
  match s with
  | EmptyString => acc
  | String c r => int_of_digits (10 * acc + (Z.of_nat (nat_of_ascii c) - 48)) r
  end.

(** [str(n)] for an [int]. *)
Definition str_of_int (n : Z) : string := NilZero.string_of_int (Z.to_int n).

(** [s * n] for a one-character string. *)
Fixpoint repeat_char (c : ascii) (n : nat) : string :=
  match n with
  | O => EmptyString
  | S k => String c (repeat_char c k)
  end.

(** The characters [str.strip()] removes: space, tab, newline, vertical
    tab, form feed and carriage return. *)
Definition is_space (c : ascii) : bool :=
  let n := nat_of_ascii c in
  (Nat.eqb n 32 || (Nat.leb 9 n && Nat.leb n 13))%bool.

Fixpoint lstrip (s : string) : string :=
  match s with
  | EmptyString => EmptyString
  | String c r => if is_space c then lstrip r else s
  end.

(** Removes trailing blanks: a character is kept when something
    non-blank follows it or it is not blank itself. *)
Fixpoint rstrip (s : string) : string :=
  match s with
  | EmptyString => EmptyString
  | String c r =>
      match rstrip r with
      | EmptyString => if is_space c then EmptyString else String c EmptyString
      | r' => String c r'
      end
  end.

Definition strip (s : string) : string := rstrip (lstrip s).

(** [sep.join(parts)]. *)
Fixpoint join (sep : string) (parts : list string) : string :=
  match parts with
  | [] => ""
  | [p] => p
  | p :: ps => p +:+ sep +:+ join sep ps
  end.

(** [s.split(sep)] for a one-character separator. *)
Fixpoint split_on (sep : ascii) (s : string) : list string :=
  match s with
  | EmptyString => [""]
  | String c r =>
      if Ascii.eqb c sep then "" :: split_on sep r
      else match split_on sep r with
           | [] => [String c ""]
           | p :: ps => String c p :: ps
           end
  end.

(** [s[0:n]] for any integer [n]: a negative [n] counts from the end. *)
Definition slice_to (s : string) (n : Z) : string :=
  let len := Z.of_nat (String.length s) in
  let stop := if n <? 0 then Z.max 0 (len + n) else Z.min n len in
  String.substring 0 (Z.to_nat stop) s.

(** [s.lower()] on ASCII. *)
Definition lower_char (c : ascii) : ascii :=
let n := nat_of_ascii c in
if (Nat.leb 65 n && Nat.leb n 90)%bool then ascii_of_nat (n + 32) else c.

Fixpoint lower (s : string) : string :=
match s with
| EmptyString => EmptyString
| String c r => String (lower_char c) (lower r)
end.

(** [s.startswith(p)]. *)
Definition startswith (p s : string) : bool := String.prefix p s.

End Py.

(** [sep not in s]. *)
Definition no_char (sep : ascii) (s : string) : Prop :=
Py.all_chars (fun c => negb (Ascii.eqb c sep)) s = true.

(** ** The [ipaddress] library, as far as the sources use it

    An [IPv4Address] is its integer value; constructing one outside
    [0, 2^32) raises [AddressValueError]. *)

Module ipaddress.

Definition ALL_ONES : Z := 2 ^ 32 - 1.

Definition IPv4Address (n : Z) : result Z :=
  if n <? 0 then Raise (AddressValueError "negative address")
  else if ALL_ONES <? n then Raise (AddressValueError "address too large")
  else Ok n.

(** [IPv4Address.__add__]: [addr + n] builds a new address. *)
Definition add (a n : Z) : result Z := IPv4Address (a + n).

Definition octets (a : Z) : list Z :=
  [Z.land (Z.shiftr a 24) 255; Z.land (Z.shiftr a 16) 255;
   Z.land (Z.shiftr a 8) 255; Z.land a 255].

(** [str(addr)]: the dotted quad. *)
Definition str (a : Z) : string := Py.join "." (map Py.str_of_int (octets a)).

(** [_parse_octet]: one to three decimal digits, at most 255, and no
    leading zero on a value that would read differently in octal. *)
Definition parse_octet (s : string) : option Z :=
  match s with
  | EmptyString => None
  | String c0 _ =>
      if negb (Py.all_chars Py.is_digit s) then None
      else if (3 <? String.length s)%nat then None
      else let v := Py.int_of_digits 0 s in
           if ((7 <? v) && Ascii.eqb c0 "0")%bool then None
           else if 255 <? v then None
           else Some v
  end.

(** [_ip_int_from_string]: exactly four octets separated by dots. *)
Definition ip_int_from_string (s : string) : option Z :=
  match map parse_octet (Py.split_on "." s) with
  | [Some a; Some b; Some c; Some d] =>
      Some (Z.lor (Z.shiftl a 24) (Z.lor (Z.shiftl b 16) (Z.lor (Z.shiftl c 8) d)))
  | _ => None
  end.

(** [_ip_int_from_prefix]. *)
Definition ip_int_from_prefix (prefixlen : Z) : Z :=
  Z.lxor ALL_ONES (Z.shiftr ALL_ONES prefixlen).

(** [_count_righthand_zero_bits(number, bits)]. *)
Fixpoint count_righthand_zero_bits (number : Z) (bits : nat) : Z :=
  match bits with
  | O => 0
  | S k => if Z.testbit number 0 then 0
           else 1 + count_righthand_zero_bits (Z.shiftr number 1) k
  end.

(** [_prefix_from_ip_int]: the prefix length of a netmask, [None] (a
    [ValueError]) when ones and zeroes are mixed. *)
Definition prefix_from_ip_int (ip_int : Z) : option Z :=
  let trailing_zeroes := count_righthand_zero_bits ip_int 32 in
  let prefixlen := 32 - trailing_zeroes in
  let leading_ones := Z.shiftr ip_int trailing_zeroes in
  let all_ones := Z.shiftl 1 prefixlen - 1 in
  if leading_ones =? all_ones then Some prefixlen else None.

(** [_prefix_from_prefix_string]: a decimal prefix length in [0, 32]. *)
Definition prefix_from_prefix_string (s : string) : option Z :=
  match s with
  | EmptyString => None
  | _ => if Py.all_chars Py.is_digit s
         then let v := Py.int_of_digits 0 s in
              if v <=? 32 then Some v else None
         else None
  end.

(** [_prefix_from_ip_string]: a dotted netmask, or else a dotted
    hostmask (the inverted netmask). *)
Definition prefix_from_ip_string (s : string) : option Z :=
  match ip_int_from_string s with
  | None => None
  | Some ip_int =>
      match prefix_from_ip_int ip_int with
      | Some p => Some p
      | None => prefix_from_ip_int (Z.lxor ip_int ALL_ONES)
      end
  end.

(** [_make_netmask]. *)
Definition make_netmask (arg : string) : result Z :=
  match prefix_from_prefix_string arg with
  | Some p => Ok p
  | None =>
      match prefix_from_ip_string arg with
      | Some p => Ok p
      | None => Raise (NetmaskValueError arg)
      end
  end.

Record network : Type := Network {
  network_address : Z;
  prefixlen : Z
}.

Definition netmask (n : network) : Z := ip_int_from_prefix (prefixlen n).
Definition hostmask (n : network) : Z := Z.lxor (netmask n) ALL_ONES.
Definition broadcast_address (n : network) : Z :=
  Z.lor (network_address n) (hostmask n).

(** [IPv4Network(address, strict=False)] for a textual [address]: host
    bits of the address are masked away rather than rejected. *)
Definition IPv4Network (address : string) : result network :=
  match Py.split_on "/" address with
  | [a] =>
      match ip_int_from_string a with
      | None => Raise (AddressValueError a)
      | Some ip => Ok (Network ip 32)
      end
  | [a; m] =>
      match ip_int_from_string a with
      | None => Raise (AddressValueError a)
      | Some ip =>
          match make_netmask m with
          | Raise e => Raise e
          | Ok p => Ok (Network (Z.land ip (ip_int_from_prefix p)) p)
          end
      end
  | _ => Raise (AddressValueError address)
  end.

(** [hosts()] is a generator over [network+1 .. broadcast-1]; this is
    the [k]-th address it yields, [None] once it is exhausted. *)
Definition nth_host (n : network) (k : nat) : option Z :=
  let x := network_address n + 1 + Z.of_nat k in
  if x <? broadcast_address n then Some x else None.

End ipaddress.

(** ** Command priorities

    The [Command] class lives outside the files at hand; only the names of
    its priority constants are used, so a priority is kept symbolic: a
    named band, negated for teardown. *)

Inductive prio_band : Type :=
| CREATE_IFACE | CONFIG_IFACE | CREATE_QDISC | CREATE_VLAN | ADD_LINK
| START_DAEMON.

Inductive priority : Type :=
| PRIO (b : prio_band)
| NEG_PRIO (b : prio_band).

(** ** [pdconfd/config/dhcp.py] *)

Module Dhcp.

(** The network [interface] section a dhcp section links to, with the
    three options [ConfigDhcp.commands] reads. *)
Record ConfigInterface : Type := {
  ifname : string;
  ipaddr : option string;
  netmask : option string
}.

Record ConfigDnsmasq : Type := {
  dnsmasq_interface : option (list string);
  noresolv : bool;
  server : option (list string)
}.

(** [ConfigDnsmasq.default = ConfigDnsmasq()]. *)
Definition ConfigDnsmasq_default : ConfigDnsmasq :=
  {| dnsmasq_interface := None; noresolv := false; server := None |}.

Record ConfigDhcp : Type := {
  name : string;
  source : string;
  writeDir : string;           (* self.manager.writeDir *)
  interface : string;
  leasetime : string;
  limit : Z;
  start : Z;
  dhcp_option : list string;
  pidFile : option string      (* attribute set by [commands] *)
}.

Definition set_pidFile (self : ConfigDhcp) (p : string) : ConfigDhcp :=
  {| name := name self; source := source self; writeDir := writeDir self;
     interface := interface self; leasetime := leasetime self;
     limit := limit self; start := start self;
     dhcp_option := dhcp_option self; pidFile := Some p |}.

Record AllConfigs : Type := {
  interfaces : gmap string ConfigInterface;
  dnsmasqs : gmap string ConfigDnsmasq
}.

(** Modelled from the spec: [ConfigObject.lookup], the cross-section
    lookup by type and name of the section base class, which fails
    on an unresolved reference unless the lookup opts into the type's
    default section. *)
Definition lookup_interface (allConfigs : AllConfigs) (n : string)
  : result ConfigInterface :=
  match interfaces allConfigs !! n with
  | Some i => Ok i
  | None => Raise (LookupFailure n)
  end.

Definition lookup_dnsmasq_tryDefault (allConfigs : AllConfigs) (n : string)
  : ConfigDnsmasq :=
  default ConfigDnsmasq_default (dnsmasqs allConfigs !! n).

Definition leaseFile_of (self : ConfigDhcp) : string :=
  writeDir self +:+ "/dnsmasq-" +:+ interface self +:+ ".leases".
Definition pidFile_of (self : ConfigDhcp) : string :=
  writeDir self +:+ "/dnsmasq-" +:+ interface self +:+ ".pid".
Definition outputPath_of (self : ConfigDhcp) : string :=
  writeDir self +:+ "/dnsmasq-" +:+ interface self +:+ ".conf".

(** The [dhcp-range] line for a first and last address. *)
Definition dhcp_range_line (first last : Z) (lease : string) : string :=
  "dhcp-range=" +:+ ipaddress.str first +:+ "," +:+ ipaddress.str last
    +:+ "," +:+ lease +:+ Py.nl.

(** [ConfigDhcp.commands]. Returns the commands and the section with its
    [pidFile] attribute set. *)
Definition commands (self : ConfigDhcp) (allConfigs : AllConfigs)
  : M (list (priority * list string) * ConfigDhcp) :=
  iface <- lift (lookup_interface allConfigs (interface self)) ;;
  let dnsmasq := lookup_dnsmasq_tryDefault allConfigs (interface self) in
  network <- lift (ipaddress.IPv4Network
                     (Py.fmt_opt (ipaddr iface) +:+ "/" +:+ Py.fmt_opt (netmask iface))) ;;
  firstAddress <- lift (ipaddress.add (ipaddress.network_address network) (start self)) ;;
  lastAddress <- lift (ipaddress.add firstAddress (limit self)) ;;
  let leaseFile := leaseFile_of self in
  let pidFile := pidFile_of self in
  let outputPath := outputPath_of self in
  open_w outputPath ;;;
  write outputPath (Py.repeat_char "#" 80 +:+ Py.nl) ;;;
  write outputPath ("# dnsmasq configuration file generated by pdconfd" +:+ Py.nl) ;;;
  write outputPath ("# Source: " +:+ source self +:+ Py.nl) ;;;
  write outputPath ("# Section: config dhcp " +:+ name self +:+ Py.nl) ;;;
  write outputPath (Py.repeat_char "#" 80 +:+ Py.nl) ;;;
  write outputPath ("interface=" +:+ ifname iface +:+ Py.nl) ;;;
  write outputPath (dhcp_range_line firstAddress lastAddress (leasetime self)) ;;;
  write outputPath ("dhcp-leasefile=" +:+ leaseFile +:+ Py.nl) ;;;
  write_each outputPath
    (map (fun option => "dhcp-option=" +:+ option +:+ Py.nl) (dhcp_option self)) ;;;
  (if noresolv dnsmasq then write outputPath ("no-resolv" +:+ Py.nl) else ret tt) ;;;
  write_each outputPath
    (map (fun srv => "server=" +:+ srv +:+ Py.nl) (default [] (server dnsmasq))) ;;;
  write outputPath ("except-interface=lo" +:+ Py.nl) ;;;
  write outputPath ("bind-interfaces" +:+ Py.nl) ;;;
  let cmd := ["/apps/bin/dnsmasq"; "--conf-file=" +:+ outputPath;
              "--pid-file=" +:+ pidFile] in
  ret ([(PRIO START_DAEMON, cmd)], set_pidFile self pidFile).

(** [ConfigDhcp.undoCommands]. Reading [self.pidFile] before [commands]
    has set it raises [AttributeError] inside the [try]; the handler
    reads the attribute again for its message, so that one escapes. *)
Definition undoCommands (self : ConfigDhcp) (allConfigs : AllConfigs)
  : M (list (priority * list string)) :=
  fun w =>
    match pidFile self with
    | None => (Raise (AttributeError "pidFile"), w)
    | Some path =>
        match read_file w path with
        | Some content =>
            let pid := Py.strip content in
            let cmd := ["kill"; pid] in
            (Ok [(PRIO START_DAEMON, cmd)], w)
        | None =>
            (out_warn ("File not found: " +:+ path +:+ Py.nl) ;;; ret []) w
        end
    end.

End Dhcp.

(** ** [confd/wireless.py] *)

(** A value placed in a hostapd option: a string, an integer, or [None]. *)
Inductive pyval : Type :=
| VStr (s : string)
| VInt (n : Z)
| VNone.

(** ["{}".format(v)]. *)
Definition format_val (v : pyval) : string :=
  match v with
  | VStr s => s
  | VInt n => Py.str_of_int n
  | VNone => "None"
  end.

Definition val_of_opt_int (x : option Z) : pyval :=
  match x with Some n => VInt n | None => VNone end.

Module Wireless.

(** [HOSTAPD_HWMODE]. *)
Definition HOSTAPD_HWMODE (hwmode : string) : option string :=
  if String.eqb hwmode "11b" then Some "b"
  else if String.eqb hwmode "11g" then Some "g"
  else if String.eqb hwmode "11a" then Some "a"
  else None.

Definition HT40_LOWER_CHANNELS : list Z :=
  [36; 44; 52; 60; 100; 108; 116; 124; 132; 140; 149; 157].
Definition HT40_UPPER_CHANNELS : list Z :=
  [40; 48; 56; 64; 104; 112; 120; 128; 136; 144; 153; 161].

Definition channel_in (ch : Z) (l : list Z) : bool := existsb (Z.eqb ch) l.

Fixpoint table_get (t : list (Z * Z)) (k : Z) : option Z :=
  match t with
  | [] => None
  | (k', v) :: r => if k =? k' then Some v else table_get r k
  end.

Definition VHT40_CENTER_INDEX : list (Z * Z) :=
  [(36, 38); (40, 38); (44, 46); (48, 46); (52, 54); (56, 54); (60, 62);
   (64, 62); (100, 102); (104, 102); (108, 110); (112, 110); (116, 118);
   (120, 118); (124, 126); (128, 126); (132, 134); (136, 134); (140, 142);
   (144, 142); (149, 151); (153, 151); (157, 159); (161, 159)].

Definition VHT80_CENTER_INDEX : list (Z * Z) :=
  [(36, 42); (40, 42); (44, 42); (48, 42); (52, 58); (56, 58); (60, 58);
   (64, 58); (100, 106); (104, 106); (108, 106); (112, 106); (116, 122);
   (120, 122); (124, 122); (128, 122); (132, 138); (136, 138); (140, 138);
   (144, 138); (149, 155); (153, 155); (157, 155); (161, 155)].

Definition VHT160_CENTER_INDEX : list (Z * Z) :=
  [(36, 50); (40, 50); (44, 50); (48, 50); (52, 50); (56, 50); (60, 50);
   (64, 50); (100, 114); (104, 114); (108, 114); (112, 114); (116, 114);
   (120, 114); (124, 114); (128, 114)].

(** [string.hexdigits]. *)
Definition hexdigits : string := "0123456789abcdefABCDEF".

Fixpoint char_in (c : ascii) (s : string) : bool :=
match s with
| EmptyString => false
| String c' r => (Ascii.eqb c c' || char_in c r)%bool
end.

(** [isHexString]. *)
Definition isHexString (data : string) : bool :=
Py.all_chars (fun c => char_in c hexdigits) data.

Record ConfigWifiDevice : Type := {
  dev_name : string;
  dev_type : string;
  channel : Z;
  hwmode : option string;
  txpower : option Z;
  country : option string;
  require_mode : option string;
  htmode : option string;
  beacon_int : option Z;
  frag : option Z;
  rts : option Z;
  short_gi_20 : option bool;
  short_gi_40 : option bool;
  tx_stbc : option Z;
  rx_stbc : option Z;
  dsss_cck_40 : option bool;
  short_gi_80 : option bool;
  short_gi_160 : option bool;
  tx_stbc_2by1 : option bool
}.

(** The network [interface] section a wifi-iface links to. *)
Record ConfigInterface : Type := {
  if_name : string;
  if_type : option string;
  config_ifname : string
}.

Record ConfigWifiIface : Type := {
  internalName : string;
  source : string;
  writeDir : string;              (* self.manager.writeDir *)
  device : string;
  mode : string;
  ssid : string;
  hidden : bool;
  wmm : bool;
  network : string;
  encryption : option string;
  key : option string;
  maxassoc : option Z;
  ifname : option string;
  (* attributes [apply] sets on the object *)
  isVirtual : option bool;
  _ifname : option (option string);
  pidFile : option string
}.

Definition set_isVirtual (v : bool) (s : ConfigWifiIface) : ConfigWifiIface :=
  {| internalName := internalName s; source := source s;
     writeDir := writeDir s; device := device s; mode := mode s;
     ssid := ssid s; hidden := hidden s; wmm := wmm s; network := network s;
     encryption := encryption s; key := key s; maxassoc := maxassoc s;
     ifname := ifname s; isVirtual := Some v; _ifname := _ifname s;
     pidFile := pidFile s |}.

Definition set__ifname (v : option string) (s : ConfigWifiIface)
  : ConfigWifiIface :=
  {| internalName := internalName s; source := source s;
     writeDir := writeDir s; device := device s; mode := mode s;
     ssid := ssid s; hidden := hidden s; wmm := wmm s; network := network s;
     encryption := encryption s; key := key s; maxassoc := maxassoc s;
     ifname := ifname s; isVirtual := isVirtual s; _ifname := Some v;
     pidFile := pidFile s |}.

Definition set_pidFile (v : string) (s : ConfigWifiIface) : ConfigWifiIface :=
  {| internalName := internalName s; source := source s;
     writeDir := writeDir s; device := device s; mode := mode s;
     ssid := ssid s; hidden := hidden s; wmm := wmm s; network := network s;
     encryption := encryption s; key := key s; maxassoc := maxassoc s;
     ifname := ifname s; isVirtual := isVirtual s; _ifname := _ifname s;
     pidFile := Some v |}.

(** [Command(cmd, self)] and [KillCommand(pidFile, self)], with the
    owning section by name. *)
Inductive command : Type :=
| Command (argv : list string) (owner : string)
| KillCommand (pid_file : option string) (owner : string).

Record AllConfigs : Type := {
  wifi_devices : gmap string ConfigWifiDevice;
  interfaces : gmap string ConfigInterface
}.

(** Modelled from the spec: [ConfigObject.lookup], the cross-section
    lookup by (package, type, name) of the section base class, which
    fails on an unresolved reference. *)
Definition lookup_wifi_device (allConfigs : AllConfigs) (n : string)
  : result ConfigWifiDevice :=
  match wifi_devices allConfigs !! n with
  | Some d => Ok d
  | None => Raise (LookupFailure n)
  end.

Definition lookup_interface (allConfigs : AllConfigs) (n : string)
  : result ConfigInterface :=
  match interfaces allConfigs !! n with
  | Some i => Ok i
  | None => Raise (LookupFailure n)
  end.

(** Modelled from the spec: [ConfigObject.__str__], the rendering of a
    section as its [config <type> <name>] declaration; it only reaches
    comment lines and error messages. *)
Definition section_str (typename name : string) : string :=
  "config " +:+ typename +:+ " " +:+ name.

Definition truthy_bool (b : option bool) : bool := default false b.
Definition truthy_int (n : option Z) : bool :=
  match n with Some v => negb (v =? 0) | None => false end.

Definition opt_string_eqb (x : option string) (s : string) : bool :=
  match x with Some v => String.eqb v s | None => false end.

(** *** [HostapdConfGenerator] *)

Record HostapdConfGenerator : Type := {
  wifiIface : ConfigWifiIface;
  wifiDevice : ConfigWifiDevice;
  interface : ConfigInterface;
  enable11n : bool;
  enable11ac : bool
}.

(** [__init__] with [readMode]. *)
Definition new_generator (iface : ConfigWifiIface) (dev : ConfigWifiDevice)
           (intf : ConfigInterface) : HostapdConfGenerator :=
  let '(n, ac) :=
    match htmode dev with
    | None => (false, false)
    | Some h => if Py.startswith "HT" h then (true, false)
                else if Py.startswith "VHT" h then (true, true)
                else (false, false)
    end in
  {| wifiIface := iface; wifiDevice := dev; interface := intf;
     enable11n := n; enable11ac := ac |}.

Definition options : Type := list (string * pyval).

(** Some value is given for the option [name]. *)
Definition has_option (name : string) (opts : options) : Prop :=
exists v, In (name, v) opts.

(** [options.append(x)] when [c] holds. *)
Definition when (c : bool) (l : options) : options := if c then l else [].

(** The value of [self.wifiIface._ifname], [None] included. *)
Definition ifname_val (s : ConfigWifiIface) : pyval :=
  match _ifname s with
  | Some (Some n) => VStr n
  | _ => VNone
  end.

(** [getMainOptions]. *)
Definition getMainOptions (g : HostapdConfGenerator) : result options :=
  let dev := wifiDevice g in
  let opts1 :=
    [("interface", ifname_val (wifiIface g))]
    ++ when (opt_string_eqb (if_type (interface g)) "bridge")
         [("bridge", VStr (config_ifname (interface g)))]
    ++ [("ssid", VStr (ssid (wifiIface g)))]
    ++ match country dev with
       | Some c => [("country_code", VStr c); ("ieee80211d", VInt 1)]
       | None => []
       end in
  let opts3 :=
    [("channel", VInt (channel dev))]
    ++ match beacon_int dev with
       | Some b => [("beacon_int", VInt b)]
       | None => []
       end
    ++ match maxassoc (wifiIface g) with
       | Some n => [("max_num_sta", VInt n)]
       | None => []
       end
    ++ match rts dev with
       | Some r => [("rts_threshold", VInt r)]
       | None => []
       end
    ++ match frag dev with
       | Some _ => [("fragm_threshold", val_of_opt_int (rts dev))]
       | None => []
       end
    ++ [("wmm_enabled", VInt (if wmm (wifiIface g) then 1 else 0))] in
  match hwmode dev with
  | None => Ok (opts1 ++ opts3)
  | Some h =>
      match HOSTAPD_HWMODE h with
      | Some m => Ok (opts1 ++ [("hw_mode", VStr m)] ++ opts3)
      | None => Raise (Exception ("Unrecognized hardware mode: " +:+ h))
      end
  end.

(** [x == n] and [x >= n] for an attribute that may be [None]; under
    Python 2 [None] is below every integer. *)
Definition opt_eq (x : option Z) (n : Z) : bool :=
  match x with Some v => v =? n | None => false end.
Definition opt_ge (x : option Z) (n : Z) : bool :=
  match x with Some v => n <=? v | None => false end.

(** [get11nOptions]; only called when [htmode] is set. *)
Definition get11nOptions (g : HostapdConfGenerator) : result options :=
  let dev := wifiDevice g in
  match htmode dev with
  | None => Raise (AttributeError "startswith")
  | Some h =>
      let ht1 :=
        if Py.startswith "HT40" h then "[" +:+ h +:+ "]"
        else if existsb (String.eqb h) ["VHT40"; "VHT80"; "VHT160"] then
          if channel_in (channel dev) HT40_LOWER_CHANNELS then "[HT40+]"
          else if channel_in (channel dev) HT40_UPPER_CHANNELS then "[HT40-]"
          else ""
        else "" in
      let ht_capab :=
        ht1
        +:+ (if truthy_bool (short_gi_20 dev) then "[SHORT-GI-20]" else "")
        +:+ (if truthy_bool (short_gi_40 dev) then "[SHORT-GI-40]" else "")
        +:+ (if truthy_int (tx_stbc dev) then "[TX-STBC]" else "")
        +:+ (if opt_eq (rx_stbc dev) 1 then "[RX-STBC1]"
             else if opt_eq (rx_stbc dev) 2 then "[RX-STBC12]"
             else if opt_ge (rx_stbc dev) 3 then "[RX-STBC123]"
             else "")
        +:+ (if truthy_bool (dsss_cck_40 dev) then "[DSSS_CCK-40]" else "") in
      Ok ([("ieee80211n", VInt (if enable11n g then 1 else 0))]
          ++ when (0 <? String.length ht_capab)%nat
               [("ht_capab", VStr ht_capab)]
          ++ when (opt_string_eqb (require_mode dev) "n")
               [("require_ht", VInt 1)])
  end.

Definition table_index (t : list (Z * Z)) (k : Z) : result Z :=
  match table_get t k with
  | Some v => Ok v
  | None => Raise (KeyError (Py.str_of_int k))
  end.

(** [get11acOptions]. *)
Definition get11acOptions (g : HostapdConfGenerator) : result options :=
  let dev := wifiDevice g in
  let centre : result (Z * Z) :=
    if opt_string_eqb (htmode dev) "VHT40" then
      match table_index VHT40_CENTER_INDEX (channel dev) with
      | Ok i => Ok (0, i) | Raise e => Raise e end
    else if opt_string_eqb (htmode dev) "VHT80" then
      match table_index VHT80_CENTER_INDEX (channel dev) with
      | Ok i => Ok (1, i) | Raise e => Raise e end
    else if opt_string_eqb (htmode dev) "VHT160" then
      match table_index VHT160_CENTER_INDEX (channel dev) with
      | Ok i => Ok (2, i) | Raise e => Raise e end
    else Ok (0, channel dev) in
  match centre with
  | Raise e => Raise e
  | Ok (chwidth, seg0_idx) =>
      let vht_capab :=
        (if truthy_bool (short_gi_80 dev) then "[SHORT-GI-80]" else "")
        +:+ (if truthy_bool (short_gi_160 dev) then "[SHORT-GI-160]" else "")
        +:+ (if truthy_bool (tx_stbc_2by1 dev) then "[TX-STBC-2BY1]" else "")
        +:+ (if opt_eq (rx_stbc dev) 1 then "[RX-STBC-1]"
             else if opt_eq (rx_stbc dev) 2 then "[RX-STBC-12]"
             else if opt_eq (rx_stbc dev) 3 then "[RX-STBC-123]"
             else if opt_ge (rx_stbc dev) 4 then "[RX-STBC-1234]"
             else "") in
      Ok ([("ieee80211ac", VInt (if enable11ac g then 1 else 0))]
          ++ when (opt_string_eqb (require_mode dev) "ac")
               [("require_vht", VInt 1)]
          ++ when (0 <? String.length vht_capab)%nat
               [("vht_capab", VStr vht_capab)]
          ++ [("vht_oper_chwidth", VInt chwidth);
              ("vht_oper_centr_freq_seg0_idx", VInt seg0_idx)])
  end.

(** [getSecurityOptions]. The outcome is the option list, or the
    exception together with the warning logged before it. *)
Definition getSecurityOptions (g : HostapdConfGenerator) : M options :=
  match encryption (wifiIface g) with
  | None => ret [("wpa", VInt 0)]
  | Some enc =>
      if String.eqb enc "none" then ret [("wpa", VInt 0)]
      else if String.eqb enc "psk2" then
        match key (wifiIface g) with
        | None => raise (TypeError "object of type 'NoneType' has no len()")
        | Some k =>
            let keyopt :=
              if ((String.length k =? 64)%nat && isHexString k)%bool
              then ("wpa_psk", VStr k)
              else ("wpa_passphrase", VStr k) in
            ret [("wpa", VInt 1); keyopt;
                 ("wpa_pairwise", VStr "TKIP CCMP");
                 ("rsn_pairwise", VStr "CCMP")]
        end
      else
        out_warn ("Encryption type " +:+ enc
                    +:+ " not supported (supported: none|psk2)") ;;;
        raise (Exception "Encryption type not supported")
  end.

(** [writeHeader]. *)
Definition writeHeader (g : HostapdConfGenerator) (path : string) : M unit :=
  write path (Py.repeat_char "#" 80 +:+ Py.nl) ;;;
  write path ("# hostapd configuration file generated by pdconf" +:+ Py.nl) ;;;
  write path ("# Source: " +:+ source (wifiIface g) +:+ Py.nl) ;;;
  write path ("# Section: "
                +:+ section_str "wifi-iface" (internalName (wifiIface g))
                +:+ Py.nl) ;;;
  write path ("# Device: "
                +:+ section_str "wifi-device" (dev_name (wifiDevice g))
                +:+ Py.nl) ;;;
  write path ("# Interface: "
                +:+ section_str "interface" (if_name (interface g))
                +:+ Py.nl) ;;;
  write path (Py.repeat_char "#" 80 +:+ Py.nl).

(** [writeOptions]. *)
Definition writeOptions (opts : options) (path : string)
           (title : option string) : M unit :=
  write path Py.nl ;;;
  match title with
  | Some t => write path ("##### " +:+ t
                            +:+ " ##################################" +:+ Py.nl)
  | None => ret tt
  end ;;;
  write_each path
    (map (fun '(name, value) => name +:+ "=" +:+ format_val value +:+ Py.nl) opts).

(** [generate]. *)
Definition generate (g : HostapdConfGenerator) (path : string) : M unit :=
  open_w path ;;;
  writeHeader g path ;;;
  opts <- lift (getMainOptions g) ;;
  writeOptions opts path None ;;;
  (if enable11n g then
     opts <- lift (get11nOptions g) ;;
     writeOptions opts path (Some "802.11n")
   else ret tt) ;;;
  (if enable11ac g then
     opts <- lift (get11acOptions g) ;;
     writeOptions opts path (Some "802.11ac")
   else ret tt) ;;;
  opts <- getSecurityOptions g ;;
  writeOptions opts path (Some "Security").

(** *** [ConfigWifiIface] *)

(** [makeHostapdConf]. *)
Definition makeHostapdConf (self : ConfigWifiIface) (wifiDevice : ConfigWifiDevice)
           (interface : ConfigInterface) : M string :=
  let outputPath := writeDir self +:+ "/hostapd-" +:+ internalName self +:+ ".conf" in
  generate (new_generator self wifiDevice interface) outputPath ;;;
  ret outputPath.

Definition hexchar (n : Z) : ascii :=
  if n <? 10 then ascii_of_nat (Z.to_nat (48 + n))
  else ascii_of_nat (Z.to_nat (87 + n)).

(** ["{:02x}".format(n)] for [0 <= n < 256]. *)
Definition format_02x (n : Z) : string :=
  String (hexchar (n / 16)) (String (hexchar (n mod 16)) EmptyString).

(** [getRandomMAC]; [rnd i] is what the [i]-th call of
    [random.randrange(0, 255)] returns. *)
Definition getRandomMAC (rnd : nat -> Z) : string :=
  Py.join ":" ("02" :: map (fun i => format_02x (rnd i)) (seq 0 5)).

(** The section object and the host, both mutated by [apply]. *)
Definition state : Type := ConfigWifiIface * world.

Definition liftW {A} (m : M A) : St state A :=
  fun st => let '(r, w') := m (snd st) in (r, (fst st, w')).
Definition get_self : St state ConfigWifiIface := fun st => (Ok (fst st), st).
Definition modify_self (f : ConfigWifiIface -> ConfigWifiIface) : St state unit :=
  fun st => (Ok tt, (f (fst st), snd st)).

(** The string an argv receives for [self._ifname]. *)
Definition ifname_str (s : ConfigWifiIface) : string :=
  format_val (ifname_val s).

(** [ConfigWifiIface.apply]. *)
Definition apply (allConfigs : AllConfigs) (rnd : nat -> Z)
  : St state (list (priority * command)) :=
  self <- get_self ;;
  let owner := internalName self in
  (if String.eqb (mode self) "ap" then ret tt
   else if String.eqb (mode self) "sta" then
     raise (Exception "WiFi sta mode not implemented")
   else
     raise (Exception ("Unsupported mode (" +:+ mode self +:+ ") in "
                         +:+ section_str "wifi-iface" owner))) ;;;
  wifiDevice <- lift (lookup_wifi_device allConfigs (device self)) ;;
  interface <- lift (lookup_interface allConfigs (network self)) ;;
  modify_self (set_isVirtual true) ;;;
  modify_self (set__ifname (ifname self)) ;;;
  let set_type := ["iw"; "dev"; dev_name wifiDevice; "set"; "type"; "__ap"] in
  commands1 <-
    (if opt_string_eqb (ifname self) (dev_name wifiDevice) then
       modify_self (set_isVirtual false) ;;;
       ret [(PRIO CONFIG_IFACE, Command set_type owner)]
     else if String.eqb (config_ifname interface) (dev_name wifiDevice) then
       modify_self (set__ifname (Some (config_ifname interface))) ;;;
       modify_self (set_isVirtual false) ;;;
       ret [(PRIO CONFIG_IFACE, Command set_type owner)]
     else
       match ifname self with
       | None =>
           modify_self (set__ifname (Some (config_ifname interface))) ;;;
           ret []
       | Some _ => ret []
       end) ;;
  self1 <- get_self ;;
  let commands2 :=
    if default false (isVirtual self1) then
      [(PRIO CREATE_IFACE,
        Command ["iw"; "dev"; dev_name wifiDevice; "interface"; "add";
                 ifname_str self1; "type"; "__ap"] owner);
       (PRIO CREATE_IFACE,
        Command ["ip"; "link"; "set"; "dev"; ifname_str self1;
                 "address"; getRandomMAC rnd] owner)]
    else [] in
  confFile <- liftW (makeHostapdConf self1 wifiDevice interface) ;;
  let pidFile := writeDir self +:+ "/hostapd-" +:+ internalName self +:+ ".pid" in
  modify_self (set_pidFile pidFile) ;;;
  ret (commands1 ++ commands2
       ++ [(PRIO START_DAEMON,
            Command ["hostapd"; "-P"; pidFile; "-B"; confFile] owner)]).

(** [ConfigWifiIface.revert]; it reads the attributes [apply] set. *)
Definition revert (self : ConfigWifiIface) : result (list (priority * command)) :=
  match pidFile self, isVirtual self with
  | None, _ => Raise (AttributeError "pidFile")
  | Some p, None => Raise (AttributeError "isVirtual")
  | Some p, Some v =>
      Ok ([(NEG_PRIO START_DAEMON, KillCommand (Some p) (internalName self))]
          ++ (if v then
                [(NEG_PRIO CREATE_IFACE,
                  Command ["iw"; "dev"; ifname_str self; "del"] (internalName self))]
              else []))
  end.

End Wireless.

(** ** [lib/config/network.py] *)

Module Network.

Definition MAX_INTERFACE_NAME_LEN : Z := 15.

(** One entry of the chute's [net] map: the keys the code reads, each
    possibly missing. *)
Record NetCfg : Type := {
  intfName : option string;
  type : option string;
  ssid : option string;
  encryption : option string;
  key : option string;
  dhcp : option (list (string * string))
}.

(** An interface record of the [networkInterfaces] cache. *)
Record Iface : Type := {
  name : string;
  netType : string;
  externalIntf : string;
  internalIntf : string;
  netmask : string;
  externalIpaddr : string;
  internalIpaddr : string;
  ipaddrWithPrefix : string;
  iface_device : option string;
  iface_ssid : option string;
  iface_encryption : option string;
  iface_key : option string;
  iface_dhcp : option (list (string * string))
}.

(** A physical device of the [networkDevices] cache. *)
Record NetworkDevice : Type := { dev_name : string }.

(** [itertools.cycle(devices)] as the saved items and the position of
    the next one. *)
Record cycle : Type := Cycle {
  items : list NetworkDevice;
  pos : nat
}.

(** [wifiIter.next()]: [None] is [StopIteration], which only an empty
    list gives; otherwise the position wraps around. *)
Definition cycle_next (c : cycle) : option (NetworkDevice * cycle) :=
  match items c !! pos c with
  | None => None
  | Some d =>
      Some (d, Cycle (items c) ((pos c + 1) mod length (items c))%nat)
  end.

(** The iterator states a loop can meet: the position is inside the list
    unless the list is empty. *)
Definition cycle_wf (c : cycle) : Prop :=
items c = [] \/ (pos c < length (items c))%nat.

(** Modelled from the spec: [NetworkPool], the allocator that draws the
    next unused subnet of the configured pool; its state is the subnets
    it has yet to hand out, and drawing from an empty pool fails. *)
Definition pool : Type := list ipaddress.network.

Definition pool_next (p : pool) : result (ipaddress.network * pool) :=
  match p with
  | [] => Raise (Exception "No more subnets available")
  | n :: r => Ok (n, r)
  end.

(** Modelled from the spec: [pdutils.check(cfg, dict, keys)], which
    returns [None] when every required key is present and else a
    message naming the first missing one. *)
Fixpoint check (present : list (string * bool)) : option string :=
  match present with
  | [] => None
  | (k, true) :: r => check r
  | (k, false) :: r => Some ("Missing: " +:+ k)
  end.

Definition has {A} (x : option A) : bool :=
  match x with Some _ => true | None => false end.

(** What the loop of [getNetworkConfig] carries: the pool, the wifi
    iterator, the log, and the records appended so far. *)
Record loop_state : Type := LoopState {
  st_pool : pool;
  st_wifi : cycle;
  st_world : world
}.

Definition warn (msg : string) : St loop_state unit :=
  fun s => (Ok tt, LoopState (st_pool s) (st_wifi s)
                             (snd (out_warn msg (st_world s)))).

Definition networkPool_next : St loop_state ipaddress.network :=
  fun s => match pool_next (st_pool s) with
           | Ok (n, p') => (Ok n, LoopState p' (st_wifi s) (st_world s))
           | Raise e => (Raise e, s)
           end.

Definition wifiIter_next : St loop_state (option NetworkDevice) :=
  fun s => match cycle_next (st_wifi s) with
           | Some (d, c') => (Ok (Some d), LoopState (st_pool s) c' (st_world s))
           | None => (Ok None, s)
           end.

Definition next_host (subnet : ipaddress.network) (k : nat) : St loop_state Z :=
  match ipaddress.nth_host subnet k with
  | Some a => ret a
  | None => raise StopIteration
  end.

(** [update.new.name[0:prefixLen] + "." + intfName]. *)
Definition make_externalIntf (chuteName intf : string) : string :=
  let prefixLen := MAX_INTERFACE_NAME_LEN - Z.of_nat (String.length intf) - 1 in
  Py.slice_to chuteName prefixLen +:+ "." +:+ intf.

(** The body of the loop for one [(name, cfg)] item. *)
Definition loop_body (chuteName : string) (item : string * NetCfg)
  : St loop_state Iface :=
  let '(name, cfg) := item in
  (if (10 <? String.length name)%nat then
     warn ("The network interface name (" +:+ name
             +:+ ") cannot be longer than 10 characters." +:+ Py.nl) ;;;
     raise (Exception "Interface name too long")
   else ret tt) ;;;
  match check [("intfName", has (intfName cfg)); ("type", has (type cfg))],
        intfName cfg, type cfg with
  | None, Some intf, Some ty =>
      subnet <- networkPool_next ;;
      let netmask := ipaddress.str (ipaddress.netmask subnet) in
      ext <- next_host subnet 0 ;;
      int <- next_host subnet 1 ;;
      let externalIpaddr := ipaddress.str ext in
      let internalIpaddr := ipaddress.str int in
      let externalIntf := make_externalIntf chuteName intf in
      let ipaddrWithPrefix :=
        internalIpaddr +:+ "/" +:+ Py.str_of_int (ipaddress.prefixlen subnet) in
      let iface dev ss enc ky :=
        {| name := name; netType := ty; externalIntf := externalIntf;
           internalIntf := intf; netmask := netmask;
           externalIpaddr := externalIpaddr; internalIpaddr := internalIpaddr;
           ipaddrWithPrefix := ipaddrWithPrefix;
           iface_device := dev; iface_ssid := ss; iface_encryption := enc;
           iface_key := ky; iface_dhcp := dhcp cfg |} in
      if String.eqb ty "wifi" then
        device <- wifiIter_next ;;
        match device with
        | None =>
            warn "Request for WiFi device cannot be fulfilled" ;;;
            raise (Exception "Missing WiFi device(s) requested by chute")
        | Some d =>
            match check [("ssid", has (ssid cfg))], ssid cfg with
            | None, Some s =>
                ret (iface (Some (dev_name d)) (Some s) (encryption cfg) (key cfg))
            | res, _ =>
                warn ("WiFi network interface definition "
                        +:+ Py.fmt_opt res +:+ Py.nl) ;;;
                raise (Exception "Interface definition missing field(s)")
            end
        end
      else ret (iface None None None None)
  | res, _, _ =>
      warn ("Network interface definition " +:+ Py.fmt_opt res +:+ Py.nl) ;;;
      raise (Exception "Interface definition missing field(s)")
  end.

(** [for name, cfg in update.net.iteritems(): ... interfaces.append(iface)]. *)
Fixpoint loop (chuteName : string) (net : list (string * NetCfg))
  : St loop_state (list Iface) :=
  match net with
  | [] => ret []
  | item :: rest =>
      iface <- loop_body chuteName item ;;
      ifaces <- loop chuteName rest ;;
      ret (iface :: ifaces)
  end.

(** [iface['netType'] == "wifi"]. *)
Definition is_wifi (iface : Iface) : bool := String.eqb (netType iface) "wifi".

(** A request the loop body takes to the end: a key of at most ten
    characters, [intfName] and [type] present, and [ssid] present when the
    type is [wifi]. *)
Definition item_ok (item : string * NetCfg) : bool :=
((String.length (fst item) <=? 10)%nat
 && has (intfName (snd item))
 && match type (snd item) with
    | Some ty => if String.eqb ty "wifi" then has (ssid (snd item)) else true
    | None => false
    end)%bool.

(** A subnet with room for the host-side and the chute-side address. *)
Definition subnet_ok (n : ipaddress.network) : bool :=
has (ipaddress.nth_host n 1).

(** The chute under update, with the cache keys the code touches. *)
Record Chute : Type := {
  chute_name : string;
  networkDevices_wifi : list NetworkDevice;
  networkInterfaces : option (list Iface)
}.

Definition setCache_networkInterfaces (c : Chute) (l : list Iface) : Chute :=
  {| chute_name := chute_name c;
     networkDevices_wifi := networkDevices_wifi c;
     networkInterfaces := Some l |}.

(** An update: the new chute and, when the request has one, the [net]
    map in the order [iteritems] walks it. *)
Record Update : Type := {
  new : Chute;
  net : option (list (string * NetCfg))
}.

(** [getNetworkConfig]: the update after the call (its cache filled in
    on success), the pool and the host. *)
Definition getNetworkConfig (update : Update) (p : pool) (w : world)
  : result Update * pool * world :=
  match net update with
  | None => (Ok update, p, w)
  | Some items =>
      let wifiIter := Cycle (networkDevices_wifi (new update)) 0 in
      match loop (chute_name (new update)) items (LoopState p wifiIter w) with
      | (Ok interfaces, s) =>
          (Ok {| new := setCache_networkInterfaces (new update) interfaces;
                 net := net update |},
           st_pool s, st_world s)
      | (Raise e, s) => (Raise e, st_pool s, st_world s)
      end
  end.

End Network.

(** ** [lib/container/dockerapi.py] *)

Module Dockerapi.

(** *** Objects on the heap

    Environment maps are Python [dict]s, shared by reference: a chute
    holds the location of its map, and [copy()] allocates a new one. *)
Definition loc : Type := positive.
Definition dict : Type := gmap string pyval.
Definition heap : Type := gmap loc dict.

(** A new, unused location. *)
Definition alloc (d : dict) (h : heap) : loc * heap :=
  let l := fresh (dom h) in (l, <[l := d]> h).

(** [d[k] = v] on the dict at [l]. *)
Definition setitem (l : loc) (k : string) (v : pyval) (h : heap) : heap :=
  match h !! l with
  | Some d => <[l := <[k := v]> d]> h
  | None => h
  end.

Record Chute : Type := {
  name : string;
  version : option string;              (* [None]: no such attribute *)
  external_image : option string;       (* [None]: no such attribute *)
  environment : option loc;             (* [None]: no such attribute *)
  cache_networkInterfaces : option (list Network.Iface);
  cache_internalDataDir : pyval;
  cache_internalSystemDir : pyval
}.

(** [getImageName]. *)
Definition getImageName (chute : Chute) : string :=
  match external_image chute with
  | Some img => img
  | None =>
      match version chute with
      | Some v => name chute +:+ ":" +:+ v
      | None => name chute +:+ ":latest"
      end
  end.

(** [getattr(chute, 'environment', {})]: the user-supplied map, read
    through the chute's reference, or an empty map when the chute has no
    such attribute; [None] when the reference holds no dict. *)
Definition user_environment (chute : Chute) (h : heap) : option dict :=
match environment chute with
| Some l => h !! l
| None => Some ∅
end.

(** The names [prepare_environment] sets itself. *)
Definition PARADROP_NAMES : list string :=
["PARADROP_CHUTE_NAME"; "PARADROP_ROUTER_ID"; "PARADROP_DATA_DIR";
 "PARADROP_SYSTEM_DIR"; "PARADROP_CHUTE_VERSION"].

(** [prepare_environment]; [pdid] is [nexus.core.info.pdid]. Returns the
    location of the new map, a copy of the user-supplied one with the
    Paradrop variables set. *)
Definition prepare_environment (pdid : pyval) (chute : Chute) (h : heap)
  : result loc * heap :=
match user_environment chute h with
| None => (Raise (AttributeError "copy"), h)
| Some d =>
    let '(env, h) := alloc d h in
    let h := setitem env "PARADROP_CHUTE_NAME" (VStr (name chute)) h in
    let h := setitem env "PARADROP_ROUTER_ID" pdid h in
    let h := setitem env "PARADROP_DATA_DIR" (cache_internalDataDir chute) h in
    let h := setitem env "PARADROP_SYSTEM_DIR" (cache_internalSystemDir chute) h in
    let h := match version chute with
             | Some v => setitem env "PARADROP_CHUTE_VERSION" (VStr v) h
             | None => h
             end in
    (Ok env, h)
end.

(** *** Spawning pipework *)

(** [needle in hay] for strings. *)
Fixpoint contains (needle hay : string) : bool :=
  (String.prefix needle hay
   || match hay with
      | EmptyString => false
      | String _ r => contains needle r
      end)%bool.

(** The operating system as the code meets it: [PATH] of the process
    environment, and what [subprocess.Popen] does with an argv, namely
    fail with [OSError] or run a child whose output lines are read. *)
Record os : Type := {
  environ_PATH : option string;
  DOCKER_BIN_DIR : string;
  popen : list string -> option (list string * list string)
}.

Definition spawn (argv : list string) (path : string) : M unit :=
  fun w => (Ok tt, World (files w) (unreadable w) (log w)
                         (spawned w ++ [(argv, path)])).

Fixpoint log_each (f : string -> M unit) (lines : list string) : M unit :=
  match lines with
  | [] => ret tt
  | l :: r => f l ;;; log_each f r
  end.

(** The argv of the pipework call for one interface record. *)
Definition pipework_cmd (chuteName : string) (iface : Network.Iface)
  : list string :=
  ["/apps/paradrop/current/bin/pipework"; Network.externalIntf iface; "-i";
   Network.internalIntf iface; chuteName; Network.ipaddrWithPrefix iface].

(** [env['PATH']] of the pipework call: the caller's [PATH], with the
    directory of the docker client added when it is not in it. *)
Definition pipework_PATH (sys : os) : string :=
let path0 := default "" (environ_PATH sys) in
if contains (DOCKER_BIN_DIR sys) path0 then path0
else path0 +:+ ":" +:+ DOCKER_BIN_DIR sys.

(** The body of the loop of [setup_net_interfaces]. *)
Definition setup_one (sys : os) (chuteName : string) (iface : Network.Iface)
  : M unit :=
  if String.eqb (Network.netType iface) "wifi" then
    let path := pipework_PATH sys in
    let cmd := pipework_cmd chuteName iface in
    out_info ("Calling: " +:+ Py.join " " cmd +:+ Py.nl) ;;;
    spawn cmd path ;;;
    match popen sys cmd with
    | Some (stdout, stderr) =>
        log_each (fun line => out_info ("pipework: " +:+ Py.strip line +:+ Py.nl))
                 stdout ;;;
        log_each (fun line => out_warn ("pipework: " +:+ Py.strip line +:+ Py.nl))
                 stderr
    | None =>
        out_warn ("Command " +:+ Py.dquote +:+ Py.join " " cmd +:+ Py.dquote
                    +:+ " failed" +:+ Py.nl) ;;;
        raise (OSError "spawn failed")
    end
  else ret tt.

Fixpoint setup_each (sys : os) (chuteName : string)
         (interfaces : list Network.Iface) : M unit :=
  match interfaces with
  | [] => ret tt
  | iface :: rest => setup_one sys chuteName iface ;;; setup_each sys chuteName rest
  end.

(** [setup_net_interfaces]. *)
Definition setup_net_interfaces (sys : os) (chute : Chute) : M unit :=
  match cache_networkInterfaces chute with
  | None => raise (TypeError "'NoneType' object is not iterable")
  | Some interfaces => setup_each sys (name chute) interfaces
  end.

(** *** The container engine

    The docker client, the downloader and their results are external; the
    code sees them as calls that raise or return a stream of already
    decoded output lines. *)

(** A line of [client.pull] output: whether [progressDetail] is missing
    or empty, and the [status] and [id] keys when present. *)
Record pull_line : Type := {
progressDetail_empty : bool;
status : option string;
id : option string
}.

(** A line of [client.build] output: whether the raw line contains
    [errorDetail], and the values of its JSON object as [str] renders
    them, [None] standing for a value that is itself an object. *)
Record build_line : Type := {
has_errorDetail : bool;
values : list (option string)
}.

Record download_args : Type := {
url : string;
user : option string;
secret : option string
}.

Inductive build_source : Type :=
| Fileobj (dockerfile : string)
| Path (workDir : string).

Record docker : Type := {
pull : string -> result (list pull_line);
build : string -> build_source -> result (list build_line);
fetch : download_args -> result string;
create_container : string -> string -> loc -> result string;
start : string -> result unit
}.

(** What the code asked of the engine and reported to the update. *)
Inductive event : Type :=
| EvProgress (msg : string)
| EvPull (image : string)
| EvFetch (d : download_args)
| EvBuild (tag : string) (src : build_source)
| EvCreate (image name : string) (environment : loc)
| EvStart (container : string).

Record engine_state : Type := EngineState {
host : world;
events : list event;
objects : heap
}.

Definition liftHost {A} (m : M A) : St engine_state A :=
fun s => let '(r, w) := m (host s) in (r, EngineState w (events s) (objects s)).

Definition emit (e : event) : St engine_state unit :=
fun s => (Ok tt, EngineState (host s) (events s ++ [e]) (objects s)).

(** The events of a local build: downloading the source and building. *)
Definition is_build_event (e : event) : bool :=
match e with
| EvFetch _ | EvBuild _ _ => true
| _ => false
end.

(** The engine state [s'] is [s] with the events [evs] added at the end
    and nothing else changed. *)
Definition grows_by (s s' : engine_state) (evs : list event) : Prop :=
host s' = host s /\ events s' = events s ++ evs /\ objects s' = objects s.

(** [update.progress(msg)]. *)
Definition progress (msg : string) : St engine_state unit := emit (EvProgress msg).

Record Update : Type := {
new : Chute;
dockerfile : option string;        (* [None]: no such attribute *)
download : option download_args    (* [None]: no such attribute *)
}.

Definition is_lower_alnum (c : ascii) : bool :=
let n := nat_of_ascii c in
((Nat.leb 48 n && Nat.leb n 57) || (Nat.leb 97 n && Nat.leb n 122))%bool.

Fixpoint skip_while (p : ascii -> bool) (s : string) : string :=
match s with
| EmptyString => EmptyString
| String c r => if p c then skip_while p r else s
end.

(** [suppress_re.match(msg) is not None] for a [msg] that does not end in
    a newline: [Downloading], [Extracting], a run of lower-case letters
    and digits, or a progress bar. *)
Definition suppress_match (msg : string) : bool :=
(String.eqb msg "Downloading" || String.eqb msg "Extracting"
 || ((0 <? String.length msg)%nat && Py.all_chars is_lower_alnum msg)
 || match msg with
    | String "[" r =>
        let r1 := skip_while (Ascii.eqb "=") r in
        let r2 := match r1 with String ">" r' => r' | _ => r1 end in
        match skip_while Py.is_space r2 with
        | String "]" rest =>
            Py.all_chars (fun c => negb (Nat.eqb (nat_of_ascii c) 10)) rest
        | _ => false
        end
    | _ => false
    end)%bool.

(** The loop of [_pullImage] over the output lines, counting layers
    announced and layers completed. *)
Fixpoint pull_loop (output : list pull_line) (layers complete : nat)
  : St engine_state (nat * nat) :=
match output with
| [] => ret (layers, complete)
| data :: rest =>
    if progressDetail_empty data then
      match status data, id data with
      | Some st, Some i =>
          progress (st +:+ ": " +:+ i) ;;;
          let s := Py.lower (Py.strip st) in
          if String.eqb s "pulling fs layer" then pull_loop rest (S layers) complete
          else if String.eqb s "pull complete" then pull_loop rest layers (S complete)
          else pull_loop rest layers complete
      | _, _ => pull_loop rest layers complete
      end
    else pull_loop rest layers complete
end.

(** [_pullImage]; only called when the chute has an [external_image]. *)
Definition _pullImage (client : docker) (update : Update) : St engine_state bool :=
match external_image (new update) with
| None => raise (AttributeError "external_image")
| Some image =>
    progress ("Pulling image: " +:+ image) ;;;
    emit (EvPull image) ;;;
    output <- lift (pull client image) ;;
    counts <- pull_loop output 0 0 ;;
    let '(layers, complete) := counts in
    progress ("Finished pulling " +:+ Py.str_of_int (Z.of_nat complete) +:+ " / "
                +:+ Py.str_of_int (Z.of_nat layers) +:+ " layers") ;;;
    ret ((0 <? complete)%nat && (complete =? layers)%nat)%bool
end.

Fixpoint report_values (vals : list (option string)) : St engine_state unit :=
match vals with
| [] => ret tt
| None :: rest => report_values rest
| Some v :: rest =>
    let msg := Py.rstrip v in
    (if ((0 <? String.length msg)%nat && negb (suppress_match msg))%bool
     then progress msg else ret tt) ;;;
    report_values rest
end.

Fixpoint build_loop (output : list build_line) (buildSuccess : bool)
  : St engine_state bool :=
match output with
| [] => ret buildSuccess
| line :: rest =>
    let buildSuccess := if has_errorDetail line then false else buildSuccess in
    report_values (values line) ;;;
    build_loop rest buildSuccess
end.

(** [_buildImage(update, client, rm=True, tag=..., fileobj=... | path=...)]. *)
Definition _buildImage (client : docker) (tag : string) (src : build_source)
  : St engine_state bool :=
emit (EvBuild tag src) ;;;
output <- lift (build client tag src) ;;
build_loop output true.

(** [buildImage]. *)
Definition buildImage (client : docker) (update : Update) : St engine_state unit :=
liftHost (out_info ("Building image for " +:+ name (new update) +:+ Py.nl)) ;;;
let repo := getImageName (new update) in
done <- match external_image (new update) with
        | Some _ =>
            pulled <- _pullImage client update ;;
            if pulled then ret true
            else progress "Pull failed, attempting a local build." ;;; ret false
        | None => ret false
        end ;;
if done then ret tt
else
  buildSuccess <-
    match dockerfile update, download update with
    | Some df, _ => _buildImage client repo (Fileobj df)
    | None, Some args =>
        emit (EvFetch args) ;;;
        workDir <- lift (fetch client args) ;;
        _buildImage client repo (Path workDir)
    | None, None => raise (Exception "No Dockerfile or download location supplied.")
    end ;;
  if buildSuccess then ret tt
  else raise (Exception
                "Building docker image failed; check your Dockerfile for errors.").

(** [_startChute]. The host configuration, port list and volume list go
    to the engine with the request and play no part afterwards; they are
    left out of [EvCreate]. *)
Definition _startChute (client : docker) (sys : os) (pdid : pyval) (chute : Chute)
  : St engine_state unit :=
liftHost (out_info ("Attempting to start new Chute " +:+ name chute +:+ " " +:+ Py.nl)) ;;;
let repo := getImageName chute in
environment <-
  (fun s => let '(r, h) := prepare_environment pdid chute (objects s) in
            (r, EngineState (host s) (events s) h)) ;;
emit (EvCreate repo (name chute) environment) ;;;
container <- lift (create_container client repo (name chute) environment) ;;
emit (EvStart container) ;;;
lift (start client container) ;;;
liftHost (out_info ("Successfully started chute with Id: " +:+ container +:+ Py.nl)) ;;;
liftHost (setup_net_interfaces sys chute).

End Dockerapi.

(** ** Concrete configurations

    The sections of the confd test suite and small chutes, used to run the
    model on concrete inputs. *)

Module Examples.

Definition empty_world : world := World ∅ ∅ [] [].

(** [config interface lan] with [192.168.33.66/255.255.255.0]. *)
Definition lan_interface : Dhcp.ConfigInterface :=
{| Dhcp.ifname := "eth0"; Dhcp.ipaddr := Some "192.168.33.66";
   Dhcp.netmask := Some "255.255.255.0" |}.

Definition dhcp_configs : Dhcp.AllConfigs :=
{| Dhcp.interfaces := {[ "lan" := lan_interface ]};
   Dhcp.dnsmasqs :=
     {[ "lan" := {| Dhcp.dnsmasq_interface := None; Dhcp.noresolv := true;
                    Dhcp.server := Some ["8.8.8.8"] |} ]} |}.

(** [config dhcp lan] with [start 100], [limit 100], [leasetime 12h]. *)
Definition dhcp_lan : Dhcp.ConfigDhcp :=
{| Dhcp.name := "lan"; Dhcp.source := "/tmp/test-config";
   Dhcp.writeDir := "/tmp"; Dhcp.interface := "lan"; Dhcp.leasetime := "12h";
   Dhcp.limit := 100; Dhcp.start := 100;
   Dhcp.dhcp_option := ["option:router,192.168.33.66"];
   Dhcp.pidFile := None |}.

(** The same section once applied, and a host where dnsmasq left its PID. *)
Definition dhcp_lan_applied : Dhcp.ConfigDhcp :=
Dhcp.set_pidFile dhcp_lan "/tmp/dnsmasq-lan.pid".

Definition world_with_pid : world :=
World {[ "/tmp/dnsmasq-lan.pid" := ["12345" +:+ Py.nl] ]} ∅ [] [].

(** The wireless test configuration: one radio, the network interface
    [wifi] on [wlan0], and access points with a passphrase, with a
    64-digit hex key and without encryption. *)
Definition radio : Wireless.ConfigWifiDevice :=
{| Wireless.dev_name := "radio"; Wireless.dev_type := "auto";
   Wireless.channel := 1; Wireless.hwmode := None; Wireless.txpower := None;
   Wireless.country := None; Wireless.require_mode := None;
   Wireless.htmode := None; Wireless.beacon_int := None;
   Wireless.frag := None; Wireless.rts := None;
   Wireless.short_gi_20 := None; Wireless.short_gi_40 := None;
   Wireless.tx_stbc := None; Wireless.rx_stbc := None;
   Wireless.dsss_cck_40 := None; Wireless.short_gi_80 := None;
   Wireless.short_gi_160 := None; Wireless.tx_stbc_2by1 := None |}.

(** The same radio with a fragmentation threshold and no RTS threshold,
    and with both set to different values. *)
Definition radio_frag (f r : option Z) : Wireless.ConfigWifiDevice :=
{| Wireless.dev_name := "radio"; Wireless.dev_type := "auto";
   Wireless.channel := 1; Wireless.hwmode := None; Wireless.txpower := None;
   Wireless.country := None; Wireless.require_mode := None;
   Wireless.htmode := None; Wireless.beacon_int := None;
   Wireless.frag := f; Wireless.rts := r;
   Wireless.short_gi_20 := None; Wireless.short_gi_40 := None;
   Wireless.tx_stbc := None; Wireless.rx_stbc := None;
   Wireless.dsss_cck_40 := None; Wireless.short_gi_80 := None;
   Wireless.short_gi_160 := None; Wireless.tx_stbc_2by1 := None |}.

Definition wifi_interface : Wireless.ConfigInterface :=
{| Wireless.if_name := "wifi"; Wireless.if_type := None;
   Wireless.config_ifname := "wlan0" |}.

Definition wireless_configs : Wireless.AllConfigs :=
{| Wireless.wifi_devices := {[ "radio" := radio ]};
   Wireless.interfaces := {[ "wifi" := wifi_interface ]} |}.

Definition wifi_iface (name mode : string) (enc key : option string)
  : Wireless.ConfigWifiIface :=
{| Wireless.internalName := name; Wireless.source := "/tmp/test-config";
   Wireless.writeDir := "/tmp"; Wireless.device := "radio";
   Wireless.mode := mode; Wireless.ssid := "Paradrop"; Wireless.hidden := false;
   Wireless.wmm := true; Wireless.network := "wifi";
   Wireless.encryption := enc; Wireless.key := key; Wireless.maxassoc := None;
   Wireless.ifname := None; Wireless.isVirtual := None;
   Wireless._ifname := None; Wireless.pidFile := None |}.

Definition hex_key : string :=
"0000111122223333444455556666777788889999aaaabbbbccccddddeeeeffff".

Definition ap1 := wifi_iface "ap1" "ap" (Some "psk2") (Some "password").
Definition ap2 := wifi_iface "ap2" "ap" (Some "psk2") (Some hex_key).
Definition ap3 := wifi_iface "ap3" "ap" (Some "none") None.
Definition sta1 := wifi_iface "sta1" "sta" (Some "psk2") (Some "password").
Definition mesh1 := wifi_iface "mesh1" "mesh" None None.

Definition generator_of (iface : Wireless.ConfigWifiIface)
  : Wireless.HostapdConfGenerator :=
Wireless.new_generator iface radio wifi_interface.

(** A chute that asks for one interface whose in-chute name has sixteen
    characters, and the first subnet of the pool. *)
Definition subnet_of (third : Z) : ipaddress.network :=
ipaddress.Network (3232235520 + 256 * third) 24.

Definition long_intf_update : Network.Update :=
{| Network.new := {| Network.chute_name := "chute";
                     Network.networkDevices_wifi := [];
                     Network.networkInterfaces := None |};
   Network.net :=
     Some [("wan", {| Network.intfName := Some "wlan0123456789ab";
                      Network.type := Some "wan"; Network.ssid := None;
                      Network.encryption := None; Network.key := None;
                      Network.dhcp := None |})] |}.

(** A chute that asks for three WiFi interfaces, on a router with the
    given physical devices, and a pool of three subnets. *)
Definition wifi_cfg (intf ssid : string) : Network.NetCfg :=
{| Network.intfName := Some intf; Network.type := Some "wifi";
   Network.ssid := Some ssid; Network.encryption := None;
   Network.key := None; Network.dhcp := None |}.

Definition wifi_items : list (string * Network.NetCfg) :=
[("wifi0", wifi_cfg "wlan0" "Paradrop0"); ("wifi1", wifi_cfg "wlan1" "Paradrop1");
 ("wifi2", wifi_cfg "wlan2" "Paradrop2")].

Definition wifi_update (devices : list Network.NetworkDevice) : Network.Update :=
{| Network.new := {| Network.chute_name := "seccam";
                     Network.networkDevices_wifi := devices;
                     Network.networkInterfaces := None |};
   Network.net := Some wifi_items |}.

Definition two_radios : list Network.NetworkDevice :=
[{| Network.dev_name := "wlan0" |}; {| Network.dev_name := "wlan1" |}].

Definition three_subnets : Network.pool :=
[subnet_of 0; subnet_of 1; subnet_of 2].

(** A chute with one [lan] and two [wifi] interface records, an engine
    that creates and starts every container and has nothing to pull or
    build, and a host on which every spawn succeeds silently. *)
Definition iface_record (name ty ext int addr : string) : Network.Iface :=
{| Network.name := name; Network.netType := ty; Network.externalIntf := ext;
   Network.internalIntf := int; Network.netmask := "255.255.255.0";
   Network.externalIpaddr := "192.168.128.1";
   Network.internalIpaddr := "192.168.128.2";
   Network.ipaddrWithPrefix := addr;
   Network.iface_device := None; Network.iface_ssid := None;
   Network.iface_encryption := None; Network.iface_key := None;
   Network.iface_dhcp := None |}.

Definition lan_record : Network.Iface :=
iface_record "lan" "lan" "seccam.eth1" "eth1" "192.168.128.2/24".
Definition wifi_record0 : Network.Iface :=
iface_record "wifi0" "wifi" "seccam.wlan0" "wlan0" "192.168.129.2/24".
Definition wifi_record1 : Network.Iface :=
iface_record "wifi1" "wifi" "seccam.wlan1" "wlan1" "192.168.130.2/24".

Definition chute_with (version : option string) (image : option string)
           (environment : option Dockerapi.loc)
           (interfaces : list Network.Iface) : Dockerapi.Chute :=
{| Dockerapi.name := "seccam"; Dockerapi.version := version;
   Dockerapi.external_image := image; Dockerapi.environment := environment;
   Dockerapi.cache_networkInterfaces := Some interfaces;
   Dockerapi.cache_internalDataDir := VStr "/data";
   Dockerapi.cache_internalSystemDir := VStr "/paradrop" |}.

Definition quiet_os : Dockerapi.os :=
{| Dockerapi.environ_PATH := Some "/usr/bin:/bin";
   Dockerapi.DOCKER_BIN_DIR := "/apps/bin";
   Dockerapi.popen := fun _ => Some ([], []) |}.

Definition engine (pulled : list Dockerapi.pull_line) : Dockerapi.docker :=
{| Dockerapi.pull := fun _ => Ok pulled;
   Dockerapi.build := fun _ _ => Ok [];
   Dockerapi.fetch := fun _ => Ok "/tmp/work";
   Dockerapi.create_container := fun _ _ _ => Ok "0123abcd";
   Dockerapi.start := fun _ => Ok tt |}.

Definition engine_start : Dockerapi.engine_state :=
Dockerapi.EngineState empty_world [] ∅.

(** A heap holding one user-supplied environment map, which names a
    variable of its own and two of Paradrop's, and chutes that refer to
    it, with and without a version. *)
Definition user_env : Dockerapi.dict :=
{[ "CAMERA" := VStr "front"; "PARADROP_CHUTE_NAME" := VStr "mine";
   "PARADROP_CHUTE_VERSION" := VStr "9" ]}.

Definition user_heap : Dockerapi.heap := {[ 1%positive := user_env ]}.

Definition chute_v2 : Dockerapi.Chute :=
chute_with (Some "2") None (Some 1%positive) [].
Definition chute_unversioned : Dockerapi.Chute :=
chute_with None None (Some 1%positive) [].

(** Updates for a chute with a registry image: with a Dockerfile, with a
    download location, with neither; and pull outputs of one layer that
    completes and of one that does not. *)
Definition image_chute : Dockerapi.Chute :=
chute_with (Some "2") (Some "registry.exis.io/seccam") None [].

Definition update_with (dockerfile : option string)
           (download : option Dockerapi.download_args) : Dockerapi.Update :=
{| Dockerapi.new := image_chute; Dockerapi.dockerfile := dockerfile;
   Dockerapi.download := download |}.

Definition seccam_download : Dockerapi.download_args :=
{| Dockerapi.url := "https://example.org/seccam.tar"; Dockerapi.user := None;
   Dockerapi.secret := None |}.

Definition layer_line (status : string) : Dockerapi.pull_line :=
{| Dockerapi.progressDetail_empty := true; Dockerapi.status := Some status;
   Dockerapi.id := Some "862a3e9af0ae" |}.

Definition pull_complete : list Dockerapi.pull_line :=
[layer_line "Pulling fs layer"; layer_line "Pull complete"].
Definition pull_incomplete : list Dockerapi.pull_line :=
[layer_line "Pulling fs layer"].

End Examples.

(** ** [lib/config/network.py]: the OS configuration *)

Module OSNetwork.

(** A UCI section as [getOSNetworkConfig] builds it: the [config] and the
    [options] dictionaries. *)
Definition section : Type := (gmap string string * gmap string string)%type.

(** The body of the loop of [getOSNetworkConfig] for one record. *)
Definition bridge_section (iface : Network.Iface) : section :=
({[ "type" := "interface"; "name" := Network.externalIntf iface ]},
 {[ "type" := "bridge"; "proto" := "static";
    "ipaddr" := Network.externalIpaddr iface;
    "netmask" := Network.netmask iface;
    "ifname" := Network.externalIntf iface ]}).

(** [getOSNetworkConfig]: the value it stores under the cache key
    [osNetworkConfig], [None] when it returns before storing one because
    the chute has no [networkInterfaces] cache. *)
Definition getOSNetworkConfig (update : Network.Update) : option (list section) :=
match Network.networkInterfaces (Network.new update) with
| None => None
| Some interfaces => Some (map bridge_section interfaces)
end.

End OSNetwork.

(** ** [lib/container/dockerapi.py]: removing and restarting chutes *)

Module Lifecycle.

(** What a request to the engine does: it returns, or it raises an
    exception (of a subclass of [Exception]) with the given [str]. *)
Inductive outcome : Type :=
| Returned
| Raised (str : string).

(** The requests of [docker.Client] these functions make. *)
Record client : Type := {
remove_container : string -> outcome;     (* [force=True] *)
remove_image : string -> outcome;
start : string -> outcome
}.

Inductive event : Type :=
| EvRemoveContainer (container : string)
| EvRemoveImage (image : string)
| EvStart (container : string)
| EvProgress (msg : string).

(** The host, and the requests and progress reports so far. *)
Record state : Type := State {
host : world;
events : list event
}.

Definition liftHost {A} (m : M A) : St state A :=
fun s => let '(r, w) := m (host s) in (r, State w (events s)).

Definition emit (e : event) : St state unit :=
fun s => (Ok tt, State (host s) (events s ++ [e])).

(** [try: request except Exception as e: handler(str(e))]. *)
Definition try_request (o : outcome) (handler : string -> St state unit)
  : St state unit :=
match o with
| Returned => ret tt
| Raised str => handler str
end.

(** A request outside a [try]: its exception leaves the function. *)
Definition request (o : outcome) : St state unit :=
match o with
| Returned => ret tt
| Raised str => raise (Exception str)
end.

(** An update as these functions read it. *)
Record Update : Type := {
name : string;
old : Dockerapi.Chute;
new : Dockerapi.Chute
}.

(** [_removeImage]. *)
Definition _removeImage (c : client) (chute : Dockerapi.Chute) : St state unit :=
let image := Dockerapi.getImageName chute in
liftHost (out_info ("Removing image " +:+ image +:+ Py.nl)) ;;;
emit (EvRemoveImage image) ;;;
try_request (remove_image c image)
  (fun error => liftHost (out_warn ("Error removing image: " +:+ error))).

(** [removeNewImage] and [removeOldImage]. *)
Definition removeNewImage (c : client) (update : Update) : St state unit :=
_removeImage c (new update).
Definition removeOldImage (c : client) (update : Update) : St state unit :=
_removeImage c (old update).




(** [restartChute]. *)
Definition restartChute (c : client) (sys : Dockerapi.os) (update : Update)
  : St state unit :=
liftHost (out_info ("Attempting to restart chute " +:+ name update +:+ Py.nl)) ;;;
emit (EvStart (name update)) ;;;
request (start c (name update)) ;;;
liftHost (Dockerapi.setup_net_interfaces sys (new update)).

End Lifecycle.

(** An engine that refuses to remove containers and does the rest, and an
    update of the chute [seccam] with two WiFi records. *)
Definition stubborn_client : Lifecycle.client :=
{| Lifecycle.remove_container := fun _ => Lifecycle.Raised "No such container";
   Lifecycle.remove_image := fun _ => Lifecycle.Returned;
   Lifecycle.start := fun _ => Lifecycle.Returned |}.

Definition seccam_update : Lifecycle.Update :=
{| Lifecycle.name := "seccam";
   Lifecycle.old := Examples.chute_with (Some "1") None None [];
   Lifecycle.new :=
     Examples.chute_with (Some "2") None None
       [Examples.lan_record; Examples.wifi_record0; Examples.wifi_record1] |}.

(** ** [lib/portal.py], with [getChuteIP] of [dockerapi.py] *)

Module Portal.

(** [client.inspect_container(name)]: the engine does not know the
    container ([docker.errors.NotFound]), the request raises something
    else, or it returns, with the [State.Running] flag and the
    [NetworkSettings.IPAddress] of the container. *)
Inductive inspection : Type :=
| NotFound
| Failed (e : exn)
| Info (running : bool) (ipaddress : string).

(** Modelled from the spec: the container errors [ChuteNotFound] and
    [ChuteNotRunning] of [paradrop.lib.errors], the two kinds of
    [ParadropException] that the portal turns into an error page. *)
Inductive ParadropException : Type :=
| ChuteNotFound (msg : string)
| ChuteNotRunning (msg : string).

(** A call that returns, raises a [ParadropException], or raises
    another exception. *)
Inductive outcome (A : Type) : Type :=
| Return (a : A)
| RaiseParadrop (error : ParadropException)
| RaiseOther (e : exn).
Arguments Return {A} a.
Arguments RaiseParadrop {A} error.
Arguments RaiseOther {A} e.

(** [getChuteIP]. *)
Definition getChuteIP (inspect_container : string -> inspection) (name : string)
  : outcome string :=
match inspect_container name with
| NotFound => RaiseParadrop (ChuteNotFound "The chute could not be found.")
| Failed e => RaiseOther e
| Info running ipaddress =>
    if negb running then
      RaiseParadrop (ChuteNotRunning "The chute is not running.")
    else Return ipaddress
end.

(** [s.endswith(suffix)]: some tail of [s] is [suffix]. *)
Fixpoint endswith (suffix s : string) : bool :=
(String.eqb s suffix
 || match s with
    | EmptyString => false
    | String _ r => endswith suffix r
    end)%bool.

(** What [getChild] answers with: a child of the static files, a reverse
    proxy, or the page of an error. *)
Inductive resource : Type :=
| Static (path : string)
| ReverseProxyResource (host : string) (port : Z) (path : string)
| ChuteErrorPage (error : ParadropException).

(** [ParadropPortal.getChild]; [host] is the [Host] header of the request,
    [None] when it has none. *)
Definition getChild (inspect_container : string -> inspection)
           (host : option string) (path : string) : outcome resource :=
match host with
| None => RaiseOther (AttributeError "split")
| Some host =>
    let parts := Py.split_on ":" host in
    let name := hd "" parts in
    if String.eqb name "home.paradrop.org" then Return (Static path)
    else if endswith ".home.paradrop.org" name then
      let parts := Py.split_on "." name in
      let chute := hd "" parts in
      match getChuteIP inspect_container chute with
      | Return ip => Return (ReverseProxyResource ip 80 ("/" +:+ path))
      | RaiseParadrop error => Return (ChuteErrorPage error)
      | RaiseOther e => RaiseOther e
      end
    else Return (Static path)
end.

End Portal.

(** An engine that knows a running chute [seccam] and a stopped chute
    [old]. *)
Definition two_chutes (name : string) : Portal.inspection :=
if String.eqb name "seccam" then Portal.Info true "172.17.0.2"
else if String.eqb name "old" then Portal.Info false ""
else Portal.NotFound.

(** ** [lib/container/dockerapi.py]: the port list *)

Module Ports.

(** A key of the [port_bindings] dictionary: an integer or a string. *)
Inductive key : Type :=
| KInt (n : Z)
| KStr (s : string).

(** An element of the list [create_container] expects: a port, or a port
    with its protocol. *)
Inductive port : Type :=
| Port (n : Z)
| PortProto (n : Z) (proto : string).

(** [config.get('port_bindings', {})]: the key is missing, its value is
    [None], or it is a dictionary with these keys, in the order [keys()]
    gives them. *)
Inductive bindings : Type :=
| Missing
| Null
| Bindings (keys : list key).

Section WithInt.

(** [int(s)], which parses a string or raises [ValueError]. *)
Variable int : string -> result Z.

(** The body of the loop for one key. *)
Definition port_of_key (k : key) : result port :=
match k with
| KInt n => Ok (Port n)
| KStr s =>
    let parts := Py.split_on "/" s in
    match parts with
    | [p] => match int p with
             | Ok n => Ok (Port n)
             | Raise e => Raise e
             end
    | p :: proto :: _ => match int p with
                         | Ok n => Ok (PortProto n proto)
                         | Raise e => Raise e
                         end
    | [] => Raise (Exception "split")
    end
end.

Fixpoint ports_of_keys (keys : list key) : result (list port) :=
match keys with
| [] => Ok []
| k :: rest =>
    match port_of_key k with
    | Raise e => Raise e
    | Ok p => match ports_of_keys rest with
              | Raise e => Raise e
              | Ok ps => Ok (p :: ps)
              end
    end
end.

(** [getPortList]; [host_config] is [None] when the chute has no such
    attribute or it is [None]. *)
Definition getPortList (host_config : option bindings) : result (list port) :=
match host_config with
| None => Ok []
| Some Missing => Ok []
| Some Null => Raise (AttributeError "keys")
| Some (Bindings keys) => ports_of_keys keys
end.

End WithInt.

(** A binding as a chute declares it: a port and, possibly, a protocol;
    and the key that stands for it. *)
Definition declared : Type := (Z * option string)%type.

Definition key_of (d : declared) : key :=
match d with
| (n, None) => KStr (Py.str_of_int n)
| (n, Some proto) => KStr (Py.str_of_int n +:+ "/" +:+ proto)
end.

Definition port_of (d : declared) : port :=
match d with
| (n, None) => Port n
| (n, Some proto) => PortProto n proto
end.

(** [int] on the strings that are decimal digits only, and [ValueError]
    elsewhere. *)
Definition int_of_decimal (s : string) : result Z :=
if ((0 <? String.length s)%nat && Py.all_chars Py.is_digit s)%bool
then Ok (Py.int_of_digits 0 s)
else Raise (Exception "invalid literal for int() with base 10").

End Ports.

(** ** Further notions used by the properties *)

(** The characters of a MAC address in lower case. *)
Definition mac_chars : string := "0123456789abcdef".

(** A group of a MAC address: two lower-case hex digits. *)
Definition mac_group (g : string) : Prop :=
String.length g = 2%nat
/\ Py.all_chars (fun c => Wireless.char_in c mac_chars) g = true.

(** A 5 GHz radio in the given mode on the given channel, and the
    generator of an access point on it. *)
Definition radio_vht (mode : string) (ch : Z) : Wireless.ConfigWifiDevice :=
{| Wireless.dev_name := "radio"; Wireless.dev_type := "auto";
   Wireless.channel := ch; Wireless.hwmode := Some "11a";
   Wireless.txpower := None; Wireless.country := None;
   Wireless.require_mode := None; Wireless.htmode := Some mode;
   Wireless.beacon_int := None; Wireless.frag := None; Wireless.rts := None;
   Wireless.short_gi_20 := None; Wireless.short_gi_40 := None;
   Wireless.tx_stbc := None; Wireless.rx_stbc := None;
   Wireless.dsss_cck_40 := None; Wireless.short_gi_80 := None;
   Wireless.short_gi_160 := None; Wireless.tx_stbc_2by1 := None |}.

Definition generator_vht (mode : string) (ch : Z)
  : Wireless.HostapdConfGenerator :=
Wireless.new_generator Examples.ap1 (radio_vht mode ch) Examples.wifi_interface.

(** The lines of a dnsmasq configuration file for a dhcp section, its
    interface, its dnsmasq settings and an address range. *)
Definition dnsmasq_conf (self : Dhcp.ConfigDhcp) (iface : Dhcp.ConfigInterface)
           (dnsmasq : Dhcp.ConfigDnsmasq) (first last : Z) : list string :=
[Py.repeat_char "#" 80 +:+ Py.nl;
 "# dnsmasq configuration file generated by pdconfd" +:+ Py.nl;
 "# Source: " +:+ Dhcp.source self +:+ Py.nl;
 "# Section: config dhcp " +:+ Dhcp.name self +:+ Py.nl;
 Py.repeat_char "#" 80 +:+ Py.nl;
 "interface=" +:+ Dhcp.ifname iface +:+ Py.nl;
 Dhcp.dhcp_range_line first last (Dhcp.leasetime self);
 "dhcp-leasefile=" +:+ Dhcp.leaseFile_of self +:+ Py.nl]
++ map (fun option => "dhcp-option=" +:+ option +:+ Py.nl) (Dhcp.dhcp_option self)
++ (if Dhcp.noresolv dnsmasq then ["no-resolv" +:+ Py.nl] else [])
++ map (fun srv => "server=" +:+ srv +:+ Py.nl)
       (default [] (Dhcp.server dnsmasq))
++ ["except-interface=lo" +:+ Py.nl; "bind-interfaces" +:+ Py.nl].

(** What the record of a request holds when it is served from a subnet:
    the names, the host-side and the chute-side address. *)
Definition served_from (chuteName : string) (item : string * Network.NetCfg)
           (subnet : ipaddress.network) (iface : Network.Iface) : Prop :=
let base := ipaddress.network_address subnet in
base + 2 < ipaddress.broadcast_address subnet
/\ Network.name iface = fst item
/\ Network.intfName (snd item) = Some (Network.internalIntf iface)
/\ Network.externalIntf iface
   = Network.make_externalIntf chuteName (Network.internalIntf iface)
/\ Network.netmask iface = ipaddress.str (ipaddress.netmask subnet)
/\ Network.externalIpaddr iface = ipaddress.str (base + 1)
/\ Network.internalIpaddr iface = ipaddress.str (base + 2)
/\ Network.ipaddrWithPrefix iface
   = ipaddress.str (base + 2) +:+ "/"
       +:+ Py.str_of_int (ipaddress.prefixlen subnet).

(** The ways a request for network interfaces fails, with the exception,
    the log before and after and the subnets drawn for the request. *)
Definition network_failure (e : exn) (log_before log_after : list string)
           (drawn : list ipaddress.network) (pool_after : Network.pool) : Prop :=
(In e [Exception "Interface name too long";
       Exception "Interface definition missing field(s)";
       Exception "Missing WiFi device(s) requested by chute"]
 /\ exists msg, log_after = log_before ++ ["WARN: " +:+ msg])
\/ (e = Exception "No more subnets available"
    /\ pool_after = [] /\ log_after = log_before)
\/ (e = StopIteration /\ log_after = log_before
    /\ exists subnet,
        last drawn = Some subnet
        /\ ipaddress.broadcast_address subnet
           <= ipaddress.network_address subnet + 2).

(** ** Output of the container engine, as the loops read it *)

(** The status and id of a line of pull output that [_pullImage] reports:
    the line has no progress detail and has both keys. *)
Definition reported (data : Dockerapi.pull_line) : option (string * string) :=
if Dockerapi.progressDetail_empty data then
  match Dockerapi.status data, Dockerapi.id data with
  | Some st, Some i => Some (st, i)
  | _, _ => None
  end
else None.

(** The reported line has the given status, blanks and case apart. *)
Definition has_status (what : string) (data : Dockerapi.pull_line) : bool :=
match reported data with
| Some (st, _) => String.eqb (Py.lower (Py.strip st)) what
| None => false
end.

Definition count_status (what : string) (output : list Dockerapi.pull_line)
  : nat :=
length (List.filter (has_status what) output).

(** The progress messages of the lines of a pull. *)
Definition pull_messages (output : list Dockerapi.pull_line)
  : list Dockerapi.event :=
omap (fun data => (fun r => Dockerapi.EvProgress (fst r +:+ ": " +:+ snd r))
                    <$> reported data) output.

(** A message [_buildImage] passes on: not empty and not matched by the
    noise pattern. *)
Definition build_message_ok (msg : string) : bool :=
((0 <? String.length msg)%nat && negb (Dockerapi.suppress_match msg))%bool.

(** The progress messages of the lines of a build: the values that are
    not objects, trailing blanks removed, without the empty and the
    suppressed ones. *)
Definition build_messages (output : list Dockerapi.build_line) : list string :=
List.filter build_message_ok
            (map Py.rstrip (omap id (concat (map Dockerapi.values output)))).

(** An engine whose registry cannot be reached and whose builds give the
    given output; the output of a build that fails in its second step;
    and a chute without a registry image, with its update. *)
Definition engine_offline (built : list Dockerapi.build_line) : Dockerapi.docker :=
{| Dockerapi.pull := fun _ => Raise (Exception "registry unreachable");
   Dockerapi.build := fun _ _ => Ok built;
   Dockerapi.fetch := fun _ => Ok "/tmp/work";
   Dockerapi.create_container := fun _ _ _ => Ok "0123abcd";
   Dockerapi.start := fun _ => Ok tt |}.

Definition failed_build : list Dockerapi.build_line :=
[{| Dockerapi.has_errorDetail := false;
    Dockerapi.values := [Some ("Step 1 : FROM ubuntu" +:+ Py.nl)] |};
 {| Dockerapi.has_errorDetail := false;
    Dockerapi.values := [Some "862a3e9af0ae"; Some "Extracting"; None] |};
 {| Dockerapi.has_errorDetail := true;
    Dockerapi.values :=
      [None; Some "The command returned a non-zero code: 1"] |}].

Definition local_update (dockerfile : string) : Dockerapi.Update :=
{| Dockerapi.new := Examples.chute_with (Some "2") None None [];
   Dockerapi.dockerfile := Some dockerfile; Dockerapi.download := None |}.

(** A host on which pipework cannot be spawned for [seccam.wlan0]. *)
Definition failing_os : Dockerapi.os :=
{| Dockerapi.environ_PATH := Some "/usr/bin:/bin";
   Dockerapi.DOCKER_BIN_DIR := "/apps/bin";
   Dockerapi.popen :=
     fun argv => if decide (argv !! 1%nat = Some "seccam.wlan0") then None
                 else Some ([], []) |}.

(** An engine that creates every container and starts none. *)
Definition engine_no_start : Dockerapi.docker :=
{| Dockerapi.pull := fun _ => Ok [];
   Dockerapi.build := fun _ _ => Ok [];
   Dockerapi.fetch := fun _ => Ok "/tmp/work";
   Dockerapi.create_container := fun _ _ _ => Ok "0123abcd";
   Dockerapi.start := fun _ => Raise (Exception "cannot start") |}.

(** * Properties *)

(** ** Generic facts about the monad and the file primitives *)

Lemma bind_lift_ok {S A B} (a : A) (k : A -> St S B) (w : S) :
  bind (lift (Ok a)) k w = k a w.
Proof. reflexivity. Qed.

Lemma bind_lift_raise {S A B} (e : exn) (k : A -> St S B) (w : S) :
  bind (lift (Raise e)) k w = (Raise e, w).
Proof. reflexivity. Qed.

Lemma bind_open_w {B} (path : string) (k : unit -> M B) (w : world) :
  exists w1, bind (open_w path) k w = k tt w1 /\ files w1 !! path = Some [].
Proof.
  eexists. split; [reflexivity|]. cbn. apply lookup_insert_eq.
Qed.

Lemma bind_write {B} (path chunk : string) (k : unit -> M B) (w : world)
      (l : list string) :
  files w !! path = Some l ->
  exists w1, bind (write path chunk) k w = k tt w1
             /\ files w1 !! path = Some (l ++ [chunk]).
Proof.
  intros Hl. eexists. split; [reflexivity|].
  cbn. rewrite Hl. apply lookup_insert_eq.
Qed.

Lemma write_each_spec (path : string) (chunks : list string) (w : world)
      (l : list string) :
  files w !! path = Some l ->
  exists w1, write_each path chunks w = (Ok tt, w1)
             /\ files w1 !! path = Some (l ++ chunks).
Proof.
  revert w l. induction chunks as [|c cs IH]; intros w l Hl.
  - exists w. split; [reflexivity|]. by rewrite app_nil_r.
  - cbn [write_each].
    destruct (bind_write path c (fun _ => write_each path cs) w l Hl)
      as (w1 & -> & H1).
    destruct (IH w1 _ H1) as (w2 & -> & H2).
    exists w2. split; [reflexivity|]. by rewrite H2, <- app_assoc.
Qed.

Lemma bind_write_each {B} (path : string) (chunks : list string)
      (k : unit -> M B) (w : world) (l : list string) :
  files w !! path = Some l ->
  exists w1, bind (write_each path chunks) k w = k tt w1
             /\ files w1 !! path = Some (l ++ chunks).
Proof.
  intros Hl. destruct (write_each_spec path chunks w l Hl) as (w1 & E & H1).
  exists w1. split; [|exact H1]. unfold bind. by rewrite E.
Qed.

(** ** Strings: splitting and character classes *)

Lemma append_nil_l (s : string) : "" +:+ s = s.
Proof. reflexivity. Qed.

Lemma append_cons_l (c : ascii) (a s : string) :
  String c a +:+ s = String c (a +:+ s).
Proof. reflexivity. Qed.

Lemma all_chars_impl (P Q : ascii -> bool) (s : string) :
  (forall c, P c = true -> Q c = true) ->
  Py.all_chars P s = true -> Py.all_chars Q s = true.
Proof.
  intros HPQ. induction s as [|c r IH]; cbn; [done|].
  rewrite !andb_true_iff. intros [Hc Hr]. split; auto.
Qed.

Lemma split_on_no_sep (sep : ascii) (s : string) :
  no_char sep s -> Py.split_on sep s = [s].
Proof.
  unfold no_char. induction s as [|c r IH]; cbn [Py.split_on Py.all_chars]; [done|].
  rewrite andb_true_iff, negb_true_iff. intros [Hc Hr].
  rewrite Hc, (IH Hr). reflexivity.
Qed.

Lemma split_on_app_sep (sep : ascii) (a m : string) :
  no_char sep a ->
  Py.split_on sep (a +:+ String sep m) = a :: Py.split_on sep m.
Proof.
  unfold no_char. induction a as [|c r IH].
  - intros _. rewrite append_nil_l. cbn [Py.split_on].
    by rewrite Ascii.eqb_refl.
  - rewrite append_cons_l. cbn [Py.split_on Py.all_chars].
    rewrite andb_true_iff, negb_true_iff. intros [Hc Hr].
    rewrite Hc, (IH Hr). reflexivity.
Qed.

Lemma all_chars_of_split (P : ascii -> bool) (sep : ascii) (s : string) :
  Forall (fun p => Py.all_chars P p = true) (Py.split_on sep s) ->
  Py.all_chars (fun c => P c || Ascii.eqb c sep)%bool s = true.
Proof.
  induction s as [|c r IH]; cbn [Py.split_on Py.all_chars]; [done|].
  destruct (Ascii.eqb c sep) eqn:Hc.
  - intros HF. apply Forall_cons in HF as [_ HF].
    rewrite orb_true_r. cbn. auto.
  - destruct (Py.split_on sep r) as [|p ps] eqn:Hs.
    + intros HF. apply Forall_cons in HF as [Hp _]. cbn in Hp.
      rewrite andb_true_iff in Hp. destruct Hp as [Hp _].
      rewrite Hp. cbn. apply IH. constructor.
    + intros HF. apply Forall_cons in HF as [Hp HF]. cbn in Hp.
      rewrite andb_true_iff in Hp. destruct Hp as [Hp Hp'].
      rewrite Hp. cbn. apply IH. by constructor.
Qed.

Lemma parse_octet_digits (s : string) (v : Z) :
  ipaddress.parse_octet s = Some v -> Py.all_chars Py.is_digit s = true.
Proof.
  unfold ipaddress.parse_octet. destruct s as [|c r]; [done|].
  destruct (Py.all_chars Py.is_digit (String c r)); [done|]. cbn. done.
Qed.

Lemma digit_or_dot_not_slash (c : ascii) :
  (Py.is_digit c || Ascii.eqb c ".")%bool = true ->
  negb (Ascii.eqb c "/") = true.
Proof.
  destruct c as [[] [] [] [] [] [] [] []]; vm_compute; congruence.
Qed.

Lemma digit_not_slash (c : ascii) :
  Py.is_digit c = true -> negb (Ascii.eqb c "/") = true.
Proof.
  intros H. apply digit_or_dot_not_slash. by rewrite H.
Qed.

Lemma ip_int_from_string_no_slash (s : string) (ip : Z) :
  ipaddress.ip_int_from_string s = Some ip -> no_char "/" s.
Proof.
  unfold ipaddress.ip_int_from_string, no_char. intros H.
  apply (all_chars_impl _ _ _ digit_or_dot_not_slash).
  apply all_chars_of_split.
  destruct (Py.split_on "." s) as [|a [|b [|c [|d [|e l]]]]]; cbn in H;
    try done.
  - destruct (ipaddress.parse_octet a); done.
  - destruct (ipaddress.parse_octet a), (ipaddress.parse_octet b); done.
  - destruct (ipaddress.parse_octet a), (ipaddress.parse_octet b),
      (ipaddress.parse_octet c); done.
  - destruct (ipaddress.parse_octet a) eqn:Ha; [|done].
    destruct (ipaddress.parse_octet b) eqn:Hb; [|done].
    destruct (ipaddress.parse_octet c) eqn:Hc; [|done].
    destruct (ipaddress.parse_octet d) eqn:Hd; [|done].
    repeat constructor; eauto using parse_octet_digits.
  - destruct (ipaddress.parse_octet a), (ipaddress.parse_octet b),
      (ipaddress.parse_octet c), (ipaddress.parse_octet d); done.
Qed.

Lemma make_netmask_no_slash (m : string) (p : Z) :
  ipaddress.make_netmask m = Ok p -> no_char "/" m.
Proof.
  unfold ipaddress.make_netmask. intros H.
  destruct (ipaddress.prefix_from_prefix_string m) as [q|] eqn:Hq.
  - unfold ipaddress.prefix_from_prefix_string in Hq.
    destruct m as [|c r]; [done|].
    destruct (Py.all_chars Py.is_digit (String c r)) eqn:Hd; [|done].
    exact (all_chars_impl _ _ _ digit_not_slash Hd).
  - destruct (ipaddress.prefix_from_ip_string m) as [q|] eqn:Hi; [|done].
    unfold ipaddress.prefix_from_ip_string in Hi.
    destruct (ipaddress.ip_int_from_string m) as [ip|] eqn:Hip; [|done].
    eauto using ip_int_from_string_no_slash.
Qed.

(** The network the library builds from [ipaddr/netmask]: the address
    with its host bits cleared. *)
Lemma IPv4Network_of_valid (a m : string) (ip p : Z) :
  ipaddress.ip_int_from_string a = Some ip ->
  ipaddress.make_netmask m = Ok p ->
  ipaddress.IPv4Network (a +:+ "/" +:+ m)
  = Ok (ipaddress.Network (Z.land ip (ipaddress.ip_int_from_prefix p)) p).
Proof.
  intros Ha Hm. unfold ipaddress.IPv4Network.
  change (a +:+ "/" +:+ m) with (a +:+ String "/" m).
  rewrite split_on_app_sep by eauto using ip_int_from_string_no_slash.
  rewrite split_on_no_sep by eauto using make_netmask_no_slash.
  by rewrite Ha, Hm.
Qed.

(** ** Dotted quads *)

Lemma testbit_255 (m : Z) : Z.testbit 255 m = ((0 <=? m) && (m <? 8))%bool.
Proof. change 255 with (Z.ones 8). apply Z.testbit_ones. lia. Qed.

Lemma octet_bit (a k n : Z) :
  0 <= k -> 0 <= n ->
  Z.testbit (Z.shiftl (Z.land (Z.shiftr a k) 255) k) n
  = (Z.testbit a n && ((k <=? n) && (n <? k + 8)))%bool.
Proof.
  intros Hk Hn. rewrite Z.shiftl_spec, Z.land_spec, testbit_255 by lia.
  destruct (Z.leb_spec k n).
  - rewrite Z.shiftr_spec by lia. replace (n - k + k) with n by lia.
    destruct (Z.leb_spec 0 (n - k)); [|lia].
    destruct (Z.ltb_spec (n - k) 8), (Z.ltb_spec n (k + 8)); try lia; reflexivity.
  - rewrite Z.testbit_neg_r by lia. by rewrite andb_false_r.
Qed.

Lemma address_high_bits (a n : Z) :
  0 <= a <= ipaddress.ALL_ONES -> 32 <= n -> Z.testbit a n = false.
Proof.
  unfold ipaddress.ALL_ONES. intros Ha Hn.
  destruct (Z.eq_dec a 0) as [->|Hnz]; [apply Z.bits_0|].
  apply Z.bits_above_log2; [lia|].
  apply Z.lt_le_trans with 32; [|lia]. apply Z.log2_lt_pow2; lia.
Qed.

(** The four octets of an address put it together again. *)
Lemma octets_recombine (a : Z) :
  0 <= a <= ipaddress.ALL_ONES ->
  Z.lor (Z.shiftl (Z.land (Z.shiftr a 24) 255) 24)
    (Z.lor (Z.shiftl (Z.land (Z.shiftr a 16) 255) 16)
       (Z.lor (Z.shiftl (Z.land (Z.shiftr a 8) 255) 8) (Z.land a 255)))
  = a.
Proof.
  intros Ha. apply Z.bits_inj'. intros n Hn.
  rewrite !Z.lor_spec, !octet_bit, Z.land_spec, testbit_255 by lia.
  destruct (Z.le_gt_cases 32 n) as [Hhi|Hlo].
  - rewrite (address_high_bits a n Ha Hhi). reflexivity.
  - destruct (Z.testbit a n); [|reflexivity]. cbn [andb].
    destruct (Z.leb_spec 24 n), (Z.leb_spec 16 n), (Z.leb_spec 8 n),
      (Z.leb_spec 0 n), (Z.ltb_spec n (24 + 8)), (Z.ltb_spec n (16 + 8)),
      (Z.ltb_spec n (8 + 8)), (Z.ltb_spec n 8); try lia; reflexivity.
Qed.

(** Every octet prints as digits that read back as the octet. *)
Lemma octet_roundtrip_all :
  forallb (fun o =>
             match ipaddress.parse_octet (Py.str_of_int o) with
             | Some v => v =? o
             | None => false
             end
             && Py.all_chars (fun c => negb (Ascii.eqb c ".")) (Py.str_of_int o))%bool
          (map Z.of_nat (seq 0 256))
  = true.
Proof. vm_compute. reflexivity. Qed.

Lemma octet_roundtrip (o : Z) :
  0 <= o <= 255 ->
  ipaddress.parse_octet (Py.str_of_int o) = Some o
  /\ no_char "." (Py.str_of_int o).
Proof.
  intros Ho. pose proof octet_roundtrip_all as H.
  rewrite forallb_forall in H. specialize (H o).
  rewrite andb_true_iff in H. destruct H as [Hp Hn].
  - apply in_map_iff. exists (Z.to_nat o). split; [lia|]. apply in_seq. lia.
  - split; [|exact Hn].
    destruct (ipaddress.parse_octet (Py.str_of_int o)) as [v|]; [|discriminate].
    f_equal. by apply Z.eqb_eq.
Qed.

Lemma land_255_range (x : Z) : 0 <= Z.land x 255 <= 255.
Proof.
  change 255 with (Z.ones 8) at 1 2. rewrite Z.land_ones by lia.
  pose proof (Z.mod_pos_bound x (2 ^ 8)). lia.
Qed.

(** Printing an address and reading the text back gives the address: the
    dotted quad in a [dhcp-range] line names exactly one address. *)
Lemma ip_str_roundtrip (a : Z) :
  0 <= a <= ipaddress.ALL_ONES ->
  ipaddress.ip_int_from_string (ipaddress.str a) = Some a.
Proof.
  intros Ha. unfold ipaddress.ip_int_from_string, ipaddress.str, ipaddress.octets.
  cbn [map Py.join].
  destruct (octet_roundtrip _ (land_255_range (Z.shiftr a 24))) as [P1 N1].
  destruct (octet_roundtrip _ (land_255_range (Z.shiftr a 16))) as [P2 N2].
  destruct (octet_roundtrip _ (land_255_range (Z.shiftr a 8))) as [P3 N3].
  destruct (octet_roundtrip _ (land_255_range a)) as [P4 N4].
  repeat match goal with
         | |- context [?x +:+ "." +:+ ?y] =>
             change (x +:+ "." +:+ y) with (x +:+ String "." y)
         end.
  rewrite !split_on_app_sep by assumption.
  rewrite split_on_no_sep by assumption.
  cbn [map]. rewrite P1, P2, P3, P4. f_equal. by apply octets_recombine.
Qed.

(** ** dhcp sections *)

Section DhcpRange.
Import Dhcp.

Variables (self : ConfigDhcp) (allConfigs : AllConfigs) (w : world).
Variables (iface : ConfigInterface) (a m : string) (ip p : Z).

(** The linked interface resolves, with a valid address and netmask. *)
Hypothesis Hiface : lookup_interface allConfigs (interface self) = Ok iface.
Hypothesis Hipaddr : ipaddr iface = Some a.
Hypothesis Hnetmask : netmask iface = Some m.
Hypothesis Hip : ipaddress.ip_int_from_string a = Some ip.
Hypothesis Hmask : ipaddress.make_netmask m = Ok p.

Let network_address := Z.land ip (ipaddress.ip_int_from_prefix p).
Let first := network_address + start self.
Let last := first + limit self.

Lemma dhcp_commands_network :
  ipaddress.IPv4Network
    (Py.fmt_opt (ipaddr iface) +:+ "/" +:+ Py.fmt_opt (netmask iface))
  = Ok (ipaddress.Network network_address p).
Proof.
  rewrite Hipaddr, Hnetmask. cbn [Py.fmt_opt default].
  by apply IPv4Network_of_valid.
Qed.

(** When both range ends are addresses, the file is written and its
    seventh chunk is the [dhcp-range] line. *)
Lemma dhcp_commands_in_range :
  0 <= first <= ipaddress.ALL_ONES ->
  0 <= last <= ipaddress.ALL_ONES ->
  exists cmds self' w' chunks,
    commands self allConfigs w = (Ok (cmds, self'), w')
    /\ files w' !! outputPath_of self = Some chunks
    /\ chunks !! 6%nat = Some (dhcp_range_line first last (leasetime self)).
Proof.
  intros Hf Hl. unfold commands.
  rewrite Hiface, bind_lift_ok, dhcp_commands_network, bind_lift_ok.
  cbn [ipaddress.network_address].
  assert (Ef : ipaddress.add network_address (start self) = Ok first).
  { unfold ipaddress.add, ipaddress.IPv4Address. fold first.
    destruct (Z.ltb_spec first 0); [lia|].
    destruct (Z.ltb_spec ipaddress.ALL_ONES first); [lia|]. reflexivity. }
  assert (El : ipaddress.add first (limit self) = Ok last).
  { unfold ipaddress.add, ipaddress.IPv4Address. fold last.
    destruct (Z.ltb_spec last 0); [lia|].
    destruct (Z.ltb_spec ipaddress.ALL_ONES last); [lia|]. reflexivity. }
  rewrite Ef, bind_lift_ok, El, bind_lift_ok.
  edestruct (@bind_open_w) as (w1 & -> & H1).
  repeat (edestruct (@bind_write) as (? & -> & ?); [eassumption|]).
  edestruct (@bind_write_each) as (? & -> & ?); [eassumption|].
  match goal with
  | |- context [bind (if ?b then _ else _) _ _] => destruct b
  end.
  - edestruct (@bind_write) as (? & -> & ?); [eassumption|].
    edestruct (@bind_write_each) as (? & -> & ?); [eassumption|].
    repeat (edestruct (@bind_write) as (? & -> & ?); [eassumption|]).
    do 4 eexists. split; [reflexivity|]. split; [eassumption|].
    reflexivity.
  - unfold bind at 1, ret at 1.
    edestruct (@bind_write_each) as (? & -> & ?); [eassumption|].
    repeat (edestruct (@bind_write) as (? & -> & ?); [eassumption|]).
    do 4 eexists. split; [reflexivity|]. split; [eassumption|].
    reflexivity.
Qed.

(** Otherwise the address arithmetic raises before the file is opened. *)
Lemma dhcp_commands_out_of_range :
  ~ (0 <= first <= ipaddress.ALL_ONES /\ 0 <= last <= ipaddress.ALL_ONES) ->
  exists e, commands self allConfigs w = (Raise e, w).
Proof.
  intros Hn. unfold commands.
  rewrite Hiface, bind_lift_ok, dhcp_commands_network, bind_lift_ok.
  cbn [ipaddress.network_address].
  unfold ipaddress.add at 1, ipaddress.IPv4Address. fold first.
  destruct (Z.ltb_spec first 0); [by eexists|].
  destruct (Z.ltb_spec ipaddress.ALL_ONES first); [by eexists|].
  rewrite bind_lift_ok.
  unfold ipaddress.add at 1, ipaddress.IPv4Address. fold last.
  destruct (Z.ltb_spec last 0); [by eexists|].
  destruct (Z.ltb_spec ipaddress.ALL_ONES last); [by eexists|].
  exfalso. apply Hn. lia.
Qed.

End DhcpRange.

(** C1. Address discipline of a dhcp section: when the linked interface
    resolves with a valid [ipaddr] and [netmask], [commands] either writes
    [dnsmasq-<interface>.conf], whose [dhcp-range] line then has as first
    address the network address of the interface's subnet plus [start], as
    last address the first plus [limit] (both as dotted quads that read
    back as these addresses), and [leasetime] as third field; or, when one
    of the two sums is not an IPv4 address, raises before it opens the
    file. *)
Theorem dhcp_range_address_discipline
    (self : Dhcp.ConfigDhcp) (allConfigs : Dhcp.AllConfigs) (w : world)
    (iface : Dhcp.ConfigInterface) (a m : string) (ip p : Z) :
  Dhcp.lookup_interface allConfigs (Dhcp.interface self) = Ok iface ->
  Dhcp.ipaddr iface = Some a ->
  Dhcp.netmask iface = Some m ->
  ipaddress.ip_int_from_string a = Some ip ->
  ipaddress.make_netmask m = Ok p ->
  let network_address := Z.land ip (ipaddress.ip_int_from_prefix p) in
  let first := network_address + Dhcp.start self in
  let last := first + Dhcp.limit self in
  match Dhcp.commands self allConfigs w with
  | (Ok _, w') =>
      (0 <= first <= ipaddress.ALL_ONES /\ 0 <= last <= ipaddress.ALL_ONES)
      /\ (exists chunks,
            files w' !! (Dhcp.writeDir self +:+ "/dnsmasq-"
                           +:+ Dhcp.interface self +:+ ".conf") = Some chunks
            /\ chunks !! 6%nat
               = Some ("dhcp-range=" +:+ ipaddress.str first +:+ ","
                         +:+ ipaddress.str last +:+ ","
                         +:+ Dhcp.leasetime self +:+ Py.nl))
      /\ ipaddress.ip_int_from_string (ipaddress.str first) = Some first
      /\ ipaddress.ip_int_from_string (ipaddress.str last) = Some last
  | (Raise _, w') =>
      ~ (0 <= first <= ipaddress.ALL_ONES /\ 0 <= last <= ipaddress.ALL_ONES)
      /\ w' = w
  end.
Proof.
  intros Hiface Ha Hm Hip Hp network_address first last.
  destruct (decide (0 <= first <= ipaddress.ALL_ONES
                    /\ 0 <= last <= ipaddress.ALL_ONES)) as [[Hf Hl]|Hn].
  - destruct (dhcp_commands_in_range self allConfigs w iface a m ip p
                Hiface Ha Hm Hip Hp Hf Hl) as (cmds & self' & w' & chunks & E & Hc & H6).
    rewrite E. split; [done|]. split; [exists chunks; split; assumption|].
    split; by apply ip_str_roundtrip.
  - destruct (dhcp_commands_out_of_range self allConfigs w iface a m ip p
                Hiface Ha Hm Hip Hp Hn) as (e & E).
    rewrite E. done.
Qed.

Lemma dhcp_range_address_discipline_witness :
  match Dhcp.commands Examples.dhcp_lan Examples.dhcp_configs
                      Examples.empty_world with
  | (Ok _, w') =>
      exists chunks,
        files w' !! "/tmp/dnsmasq-lan.conf" = Some chunks
        /\ chunks !! 6%nat
           = Some ("dhcp-range=192.168.33.100,192.168.33.200,12h" +:+ Py.nl)
  | (Raise _, _) => False
  end.
Proof.
  pose proof (dhcp_range_address_discipline
                Examples.dhcp_lan Examples.dhcp_configs Examples.empty_world
                Examples.lan_interface "192.168.33.66" "255.255.255.0"
                3232244034 24) as H.
  cbv zeta in H.
  destruct (Dhcp.commands Examples.dhcp_lan Examples.dhcp_configs
                          Examples.empty_world) as [[r|e] w'].
  - destruct H as (_ & Hline & _); [vm_compute; reflexivity..|exact Hline].
  - exfalso. refine (proj1 (H _ _ _ _ _) _); vm_compute; try reflexivity.
    split; split; intros Hc; discriminate Hc.
Defined.

(** C7. Reverting a dhcp section whose PID file is absent or unreadable
    logs one warning and returns no command, without raising and without
    touching files or processes; when the PID file can be read, the result
    is exactly one [kill] command whose argument is the PID read from the
    file (its content, surrounding blanks stripped). *)
Theorem undoCommands_pid_file
    (self : Dhcp.ConfigDhcp) (allConfigs : Dhcp.AllConfigs) (w : world)
    (path : string) :
  Dhcp.pidFile self = Some path ->
  ((files w !! path = None \/ path ∈ unreadable w) ->
   exists w',
     Dhcp.undoCommands self allConfigs w = (Ok [], w')
     /\ log w' = log w ++ ["WARN: File not found: " +:+ path +:+ Py.nl]
     /\ files w' = files w /\ unreadable w' = unreadable w
     /\ spawned w' = spawned w)
  /\ (forall chunks,
        files w !! path = Some chunks -> path ∉ unreadable w ->
        Dhcp.undoCommands self allConfigs w
        = (Ok [(PRIO START_DAEMON,
                ["kill"; Py.strip (fold_right String.append EmptyString chunks)])],
           w)).
Proof.
  intros Hpid. unfold Dhcp.undoCommands. rewrite Hpid. split.
  - intros Habs.
    assert (read_file w path = None) as ->.
    { unfold read_file. destruct (decide (path ∈ unreadable w)); [done|].
      destruct Habs as [-> | ?]; done. }
    eexists. split; [reflexivity|]. cbn. done.
  - intros chunks Hc Hr. unfold read_file.
    destruct (decide (path ∈ unreadable w)); [done|].
    rewrite Hc. reflexivity.
Qed.

Lemma undoCommands_pid_file_witness :
  Dhcp.undoCommands Examples.dhcp_lan_applied Examples.dhcp_configs
                    Examples.world_with_pid
  = (Ok [(PRIO START_DAEMON, ["kill"; "12345"])], Examples.world_with_pid)
  /\ exists w',
       Dhcp.undoCommands Examples.dhcp_lan_applied Examples.dhcp_configs
                         Examples.empty_world = (Ok [], w')
       /\ log w' = ["WARN: File not found: /tmp/dnsmasq-lan.pid" +:+ Py.nl].
Proof.
  pose proof (undoCommands_pid_file) as H. split.
  - refine (proj2 (H Examples.dhcp_lan_applied Examples.dhcp_configs
                     Examples.world_with_pid "/tmp/dnsmasq-lan.pid" eq_refl)
                  ["12345" +:+ Py.nl] _ _).
    + vm_compute. reflexivity.
    + vm_compute. set_solver.
  - destruct (proj1 (H Examples.dhcp_lan_applied Examples.dhcp_configs
                       Examples.empty_world "/tmp/dnsmasq-lan.pid" eq_refl))
      as (w' & E & Hl & _).
    + left. vm_compute. reflexivity.
    + exists w'. split; [exact E|exact Hl].
Defined.

(** ** hostapd configuration *)

Lemma string_eqb_neq (a b : string) : a <> b -> String.eqb a b = false.
Proof. intros H. by apply String.eqb_neq. Qed.

(** C2. Security options of a wifi-iface. With [encryption=psk2] the
    options are generated exactly when a key is set, and then contain
    [wpa=1], [wpa_pairwise=TKIP CCMP], [rsn_pairwise=CCMP] and exactly one
    of [wpa_psk] and [wpa_passphrase], holding the key: [wpa_psk] when the
    key has 64 characters that are all hex digits, [wpa_passphrase]
    otherwise. With [encryption=none] or no encryption they are [wpa=0].
    Any other value raises [Encryption type not supported]. *)
Theorem getSecurityOptions_spec (g : Wireless.HostapdConfGenerator) (w : world) :
  let iface := Wireless.wifiIface g in
  (Wireless.encryption iface = Some "psk2" ->
   (forall k, Wireless.key iface = Some k ->
              exists opts, Wireless.getSecurityOptions g w = (Ok opts, w))
   /\ (forall opts w',
         Wireless.getSecurityOptions g w = (Ok opts, w') ->
         exists k,
           Wireless.key iface = Some k
           /\ In ("wpa", VInt 1) opts
           /\ In ("wpa_pairwise", VStr "TKIP CCMP") opts
           /\ In ("rsn_pairwise", VStr "CCMP") opts
           /\ if ((String.length k =? 64)%nat
                  && Py.all_chars (fun c => Wireless.char_in c Wireless.hexdigits) k)%bool
              then In ("wpa_psk", VStr k) opts
                   /\ ~ Wireless.has_option "wpa_passphrase" opts
              else In ("wpa_passphrase", VStr k) opts
                   /\ ~ Wireless.has_option "wpa_psk" opts))
  /\ (Wireless.encryption iface = None \/ Wireless.encryption iface = Some "none" ->
      Wireless.getSecurityOptions g w = (Ok [("wpa", VInt 0)], w))
  /\ (forall enc,
        Wireless.encryption iface = Some enc -> enc <> "none" -> enc <> "psk2" ->
        exists w',
          Wireless.getSecurityOptions g w
          = (Raise (Exception "Encryption type not supported"), w')).
Proof.
  intros iface. unfold Wireless.getSecurityOptions. fold iface.
  split; [|split].
  - intros ->. cbn [String.eqb Ascii.eqb Bool.eqb].
    change (String.eqb "psk2" "none") with false.
    change (String.eqb "psk2" "psk2") with true. cbv iota.
    split.
    + intros k ->. eexists. reflexivity.
    + intros opts w'. destruct (Wireless.key iface) as [k|]; [|discriminate].
      intros [= <- <-]. exists k. split; [reflexivity|].
      unfold Wireless.isHexString.
      destruct ((String.length k =? 64)%nat && _)%bool.
      * repeat split; cbn; auto 6.
        intros [v Hv]. cbn in Hv. intuition congruence.
      * repeat split; cbn; auto 6.
        intros [v Hv]. cbn in Hv. intuition congruence.
  - intros [-> | ->]; reflexivity.
  - intros enc -> Hn Hp.
    rewrite (string_eqb_neq _ _ Hn), (string_eqb_neq _ _ Hp).
    eexists. reflexivity.
Qed.

Lemma getSecurityOptions_spec_witness :
  Wireless.getSecurityOptions (Examples.generator_of Examples.ap2)
                              Examples.empty_world
  = (Ok [("wpa", VInt 1); ("wpa_psk", VStr Examples.hex_key);
         ("wpa_pairwise", VStr "TKIP CCMP"); ("rsn_pairwise", VStr "CCMP")],
     Examples.empty_world)
  /\ In ("wpa_passphrase", VStr "password")
        (match Wireless.getSecurityOptions (Examples.generator_of Examples.ap1)
                                           Examples.empty_world with
         | (Ok opts, _) => opts
         | _ => []
         end)
  /\ Wireless.getSecurityOptions (Examples.generator_of Examples.ap3)
                                 Examples.empty_world
     = (Ok [("wpa", VInt 0)], Examples.empty_world).
Proof.
  pose proof (getSecurityOptions_spec (Examples.generator_of Examples.ap1)
                Examples.empty_world) as (H1 & _ & _).
  pose proof (getSecurityOptions_spec (Examples.generator_of Examples.ap3)
                Examples.empty_world) as (_ & H3 & _).
  split; [reflexivity|]. split.
  - destruct (H1 eq_refl) as [Hex Hopts].
    destruct (Hex "password" eq_refl) as [opts E]. rewrite E.
    destruct (Hopts opts _ E) as (k & Hk & _ & _ & _ & Hp).
    injection Hk as <-. exact (proj1 Hp).
  - apply H3. right. reflexivity.
Defined.

(** The value written for [fragm_threshold] is read from the [rts] option:
    whenever the main options are generated for a device that sets
    [frag], the only [fragm_threshold] entry carries the device's [rts]
    (or [None]), whatever [frag] holds. *)
Lemma getMainOptions_fragm_threshold_from_rts
    (g : Wireless.HostapdConfGenerator) (f : Z) (opts : Wireless.options) :
  Wireless.frag (Wireless.wifiDevice g) = Some f ->
  Wireless.getMainOptions g = Ok opts ->
  In ("fragm_threshold", val_of_opt_int (Wireless.rts (Wireless.wifiDevice g))) opts
  /\ forall v, In ("fragm_threshold", v) opts ->
               v = val_of_opt_int (Wireless.rts (Wireless.wifiDevice g)).
Proof.
  intros Hf. unfold Wireless.getMainOptions. rewrite Hf.
  destruct (Wireless.hwmode _) as [h|];
    [destruct (Wireless.HOSTAPD_HWMODE h); [|discriminate]|];
    intros [= <-]; unfold Wireless.when;
    destruct (Wireless.opt_string_eqb _ _), (Wireless.country _),
      (Wireless.beacon_int _), (Wireless.maxassoc _), (Wireless.rts _);
    (split; [cbn; auto 20|]);
    intros v Hv; cbn in Hv |- *; intuition congruence.
Qed.

(** The [rts_threshold] entry carries the [rts] option when it is set. *)
Lemma getMainOptions_rts_threshold
    (g : Wireless.HostapdConfGenerator) (r : Z) (opts : Wireless.options) :
  Wireless.rts (Wireless.wifiDevice g) = Some r ->
  Wireless.getMainOptions g = Ok opts ->
  In ("rts_threshold", VInt r) opts.
Proof.
  intros Hr. unfold Wireless.getMainOptions. rewrite Hr.
  destruct (Wireless.hwmode _) as [h|];
    [destruct (Wireless.HOSTAPD_HWMODE h); [|discriminate]|];
    intros [= <-]; unfold Wireless.when;
    destruct (Wireless.opt_string_eqb _ _), (Wireless.country _),
      (Wireless.beacon_int _), (Wireless.maxassoc _), (Wireless.frag _);
    cbn; auto 20.
Qed.

(** C5. On a wifi-device with [frag 2346] and [rts 500] the main section
    gets [fragm_threshold=500], and with [frag 2346] and no [rts] it gets
    [fragm_threshold=None]: the line does not carry the [frag] option. *)
Theorem getMainOptions_fragm_threshold_not_frag :
  Wireless.getMainOptions
    (Wireless.new_generator Examples.ap3
       (Examples.radio_frag (Some 2346) (Some 500)) Examples.wifi_interface)
  = Ok [("interface", VNone); ("ssid", VStr "Paradrop"); ("channel", VInt 1);
        ("rts_threshold", VInt 500); ("fragm_threshold", VInt 500);
        ("wmm_enabled", VInt 1)]
  /\ Wireless.getMainOptions
       (Wireless.new_generator Examples.ap3
          (Examples.radio_frag (Some 2346) None) Examples.wifi_interface)
     = Ok [("interface", VNone); ("ssid", VStr "Paradrop"); ("channel", VInt 1);
           ("fragm_threshold", VNone); ("wmm_enabled", VInt 1)].
Proof. split; reflexivity. Qed.

(** ** wifi-iface sections *)

(** C6. Applying a wifi-iface with [mode=sta] raises
    [WiFi sta mode not implemented] and leaves the section object and the
    host (files, log, processes) as they were: no command is produced and
    no derived file is opened. A mode other than [ap] and [sta] raises
    [Unsupported mode] in the same way. *)
Theorem apply_sta_not_implemented
    (allConfigs : Wireless.AllConfigs) (rnd : nat -> Z)
    (self : Wireless.ConfigWifiIface) (w : world) :
  (Wireless.mode self = "sta" ->
   Wireless.apply allConfigs rnd (self, w)
   = (Raise (Exception "WiFi sta mode not implemented"), (self, w)))
  /\ (Wireless.mode self <> "ap" -> Wireless.mode self <> "sta" ->
      Wireless.apply allConfigs rnd (self, w)
      = (Raise (Exception ("Unsupported mode (" +:+ Wireless.mode self +:+ ") in "
                             +:+ Wireless.section_str "wifi-iface"
                                   (Wireless.internalName self))),
         (self, w))).
Proof.
  unfold Wireless.apply, bind, Wireless.get_self. cbn [fst snd]. split.
  - intros ->. reflexivity.
  - intros Hap Hsta.
    rewrite (string_eqb_neq _ _ Hap), (string_eqb_neq _ _ Hsta). reflexivity.
Qed.

Lemma apply_sta_not_implemented_witness :
  Wireless.apply Examples.wireless_configs (fun _ => 0)
                 (Examples.sta1, Examples.empty_world)
  = (Raise (Exception "WiFi sta mode not implemented"),
     (Examples.sta1, Examples.empty_world))
  /\ Wireless.apply Examples.wireless_configs (fun _ => 0)
                    (Examples.mesh1, Examples.empty_world)
     = (Raise (Exception "Unsupported mode (mesh) in config wifi-iface mesh1"),
        (Examples.mesh1, Examples.empty_world)).
Proof.
  pose proof (apply_sta_not_implemented Examples.wireless_configs (fun _ => 0))
    as H.
  split.
  - apply (proj1 (H Examples.sta1 Examples.empty_world)). reflexivity.
  - apply (proj2 (H Examples.mesh1 Examples.empty_world)); discriminate.
Defined.

(** ** Chute network interfaces *)

Lemma string_length_append (a b : string) :
  String.length (a +:+ b) = (String.length a + String.length b)%nat.
Proof.
  induction a as [|c a IH]; [reflexivity|].
  rewrite append_cons_l. cbn [String.length]. by rewrite IH.
Qed.

Lemma string_length_substring_0 (n : nat) (s : string) :
  (String.length (String.substring 0 n s) <= n)%nat.
Proof.
  revert s. induction n as [|n IH]; intros [|c s]; cbn; try lia.
  specialize (IH s). lia.
Qed.

(** A non-negative stop bounds the length of a slice. *)
Lemma slice_to_length (s : string) (n : Z) :
  0 <= n -> Z.of_nat (String.length (Py.slice_to s n)) <= n.
Proof.
  intros Hn. unfold Py.slice_to.
  destruct (Z.ltb_spec n 0); [lia|].
  pose proof (string_length_substring_0
                (Z.to_nat (Z.min n (Z.of_nat (String.length s)))) s).
  lia.
Qed.

(** With an in-chute name of at most 14 characters the host-side name
    fits the 15 characters of an interface name. *)
Lemma make_externalIntf_length (chuteName intf : string) :
  (String.length intf <= 14)%nat ->
  (String.length (Network.make_externalIntf chuteName intf) <= 15)%nat.
Proof.
  intros H. unfold Network.make_externalIntf, Network.MAX_INTERFACE_NAME_LEN.
  rewrite !string_length_append. cbn [String.length].
  pose proof (slice_to_length chuteName
                (15 - Z.of_nat (String.length intf) - 1)).
  lia.
Qed.

(** The host-side name always ends in a dot and the in-chute name, so it
    is longer than the latter. *)
Lemma make_externalIntf_lower_bound (chuteName intf : string) :
  (String.length intf < String.length (Network.make_externalIntf chuteName intf))%nat.
Proof.
  unfold Network.make_externalIntf. rewrite !string_length_append.
  cbn [String.length]. lia.
Qed.

(** C3. [getNetworkConfig] accepts a chute named [chute] whose interface
    [wan] (a key of 3 characters, [intfName] and [type] present) has the
    16-character [intfName] [wlan0123456789ab], and stores
    [chu.wlan0123456789ab], of 20 characters, as its [externalIntf]. *)
Theorem getNetworkConfig_externalIntf_too_long :
  exists (update' : Network.Update) (iface : Network.Iface),
    Network.getNetworkConfig Examples.long_intf_update [Examples.subnet_of 0]
                             Examples.empty_world
    = (Ok update', [], Examples.empty_world)
    /\ Network.networkInterfaces (Network.new update') = Some [iface]
    /\ Network.externalIntf iface = "chu.wlan0123456789ab"
    /\ String.length (Network.externalIntf iface) = 20%nat.
Proof. do 2 eexists. vm_compute. repeat split. Qed.

(** ** WiFi devices of a chute *)

Lemma cycle_next_None (c : Network.cycle) :
  Network.cycle_next c = None <-> (length (Network.items c) <= Network.pos c)%nat.
Proof.
  unfold Network.cycle_next.
  destruct (Network.items c !! Network.pos c) as [d|] eqn:E.
  - apply lookup_lt_Some in E. split; [discriminate|lia].
  - apply lookup_ge_None in E. split; [done|done].
Qed.

Ltac inv_body :=
  repeat match goal with
         | H : (_, _) = (_, _) |- _ => injection H as ? ?; subst
         | H : Ok _ = Ok _ |- _ => injection H as ?; subst
         | H : Some _ = Some _ |- _ => injection H as ?; subst
         | H : (Raise _, _) = (Ok _, _) |- _ => discriminate H
         | H : context [match ?x with _ => _ end] |- _ =>
             destruct x eqn:?; try discriminate H
         end.

(** What a successful pass through the loop body did. *)
Lemma loop_body_ok (chuteName name : string) (cfg : Network.NetCfg)
      (s s' : Network.loop_state) (iface : Network.Iface) :
  Network.loop_body chuteName (name, cfg) s = (Ok iface, s') ->
  exists intf ty subnet,
    Network.intfName cfg = Some intf /\ Network.type cfg = Some ty
    /\ Network.st_pool s = subnet :: Network.st_pool s'
    /\ Network.netType iface = ty
    /\ Network.externalIntf iface = Network.make_externalIntf chuteName intf
    /\ if String.eqb ty "wifi"
       then exists d,
           Network.cycle_next (Network.st_wifi s) = Some (d, Network.st_wifi s')
           /\ Network.iface_device iface = Some (Network.dev_name d)
       else Network.st_wifi s' = Network.st_wifi s
            /\ Network.iface_device iface = None.
Proof.
  unfold Network.loop_body, Network.warn, Network.networkPool_next,
    Network.next_host, Network.wifiIter_next, Network.pool_next,
    bind, ret, raise.
  intros H. inv_body.
  all: cbn [Network.st_pool Network.st_wifi Network.netType
            Network.externalIntf Network.iface_device] in *.
  all: do 3 eexists; repeat (split; [try reflexivity; eassumption|]).
  all: match goal with H : String.eqb _ "wifi" = _ |- _ => rewrite H end.
  all: eauto.
Qed.

Lemma cycle_next_wf (c c' : Network.cycle) (d : Network.NetworkDevice) :
  Network.cycle_next c = Some (d, c') ->
  Network.items c !! Network.pos c = Some d
  /\ Network.items c' = Network.items c
  /\ Network.pos c' = ((Network.pos c + 1) mod length (Network.items c))%nat
  /\ (Network.pos c' < length (Network.items c'))%nat.
Proof.
  unfold Network.cycle_next.
  destruct (Network.items c !! Network.pos c) as [d0|] eqn:E; [|discriminate].
  intros [= <- <-]. cbn. repeat split.
  apply lookup_lt_Some in E. apply Nat.mod_upper_bound. lia.
Qed.

(** The only way to the missing-device error is an exhausted iterator. *)
Lemma loop_body_missing_wifi (chuteName : string) (item : string * Network.NetCfg)
      (s s' : Network.loop_state) :
  Network.loop_body chuteName item s
  = (Raise (Exception "Missing WiFi device(s) requested by chute"), s') ->
  Network.cycle_next (Network.st_wifi s) = None.
Proof.
  destruct item as [name cfg].
  unfold Network.loop_body, Network.warn, Network.networkPool_next,
    Network.next_host, Network.wifiIter_next, Network.pool_next,
    bind, ret, raise.
  intros H.
  repeat match goal with
         | H : (_, _) = (_, _) |- _ => injection H as ? ?; subst
         | H : Ok _ = Ok _ |- _ => injection H as ?; subst
         | H : Some _ = Some _ |- _ => injection H as ?; subst
         | H : (Ok _, _) = (Raise _, _) |- _ => discriminate H
         | H : (Raise _, _) = (Raise _, _) |- _ => discriminate H
         | H : context [match ?x with _ => _ end] |- _ =>
             destruct x eqn:?; try discriminate H
         end.
  all: cbn [Network.st_wifi] in *; try assumption; try discriminate.
Qed.

(** The iterator keeps its list and stays well-formed through the loop
    body. *)
Lemma loop_body_wifi_state (chuteName : string) (item : string * Network.NetCfg)
      (s s' : Network.loop_state) (iface : Network.Iface) :
  Network.loop_body chuteName item s = (Ok iface, s') ->
  Network.cycle_wf (Network.st_wifi s) ->
  Network.items (Network.st_wifi s') = Network.items (Network.st_wifi s)
  /\ Network.cycle_wf (Network.st_wifi s').
Proof.
  destruct item as [name cfg]. intros H Hwf.
  destruct (loop_body_ok _ _ _ _ _ _ H)
    as (intf & ty & subnet & _ & _ & _ & _ & _ & Hw).
  destruct (String.eqb ty "wifi").
  - destruct Hw as (d & Hn & _).
    destruct (cycle_next_wf _ _ _ Hn) as (_ & Hi & _ & Hp).
    split; [exact Hi|]. right. exact Hp.
  - destruct Hw as [-> _]. split; [reflexivity|exact Hwf].
Qed.

(** With a device at hand the loop never ends in the missing-device
    error. *)
Lemma loop_never_missing_wifi (chuteName : string)
      (net : list (string * Network.NetCfg)) (s s' : Network.loop_state) :
  Network.items (Network.st_wifi s) <> [] ->
  Network.cycle_wf (Network.st_wifi s) ->
  Network.loop chuteName net s
  <> (Raise (Exception "Missing WiFi device(s) requested by chute"), s').
Proof.
  revert s. induction net as [|item rest IH]; intros s Hne Hwf; cbn [Network.loop].
  - discriminate.
  - unfold bind at 1.
    destruct (Network.loop_body chuteName item s) as [[iface|e] s1] eqn:Hb.
    + destruct (loop_body_wifi_state _ _ _ _ _ Hb Hwf) as [Hi Hwf1].
      unfold bind at 1.
      destruct (Network.loop chuteName rest s1) as [[ifaces|e] s2] eqn:Hl.
      * discriminate.
      * intros [= -> ->]. apply (IH s1); [by rewrite Hi|exact Hwf1|exact Hl].
    + intros [= -> ->].
      apply loop_body_missing_wifi, cycle_next_None in Hb.
      destruct Hwf as [Hnil | Hlt]; [done|lia].
Qed.

(** Round robin: the [k]-th wifi record of a completed loop that started
    with the iterator at position [p0] holds the device at position
    [(p0 + k) mod n] of the list. *)
Lemma loop_round_robin (chuteName : string)
      (net : list (string * Network.NetCfg)) (s s' : Network.loop_state)
      (ifaces : list Network.Iface) :
  Network.loop chuteName net s = (Ok ifaces, s') ->
  Network.cycle_wf (Network.st_wifi s) ->
  forall (k : nat) (iface : Network.Iface),
    filter (fun i => Network.is_wifi i = true) ifaces !! k = Some iface ->
    Network.iface_device iface
    = Network.dev_name
        <$> Network.items (Network.st_wifi s)
              !! ((Network.pos (Network.st_wifi s) + k)
                    mod length (Network.items (Network.st_wifi s)))%nat.
Proof.
  revert s ifaces.
  induction net as [|item rest IH]; intros s ifaces; cbn [Network.loop].
  - intros [= <- <-] _ k iface Hk. rewrite filter_nil, lookup_nil in Hk. done.
  - unfold bind at 1.
    destruct (Network.loop_body chuteName item s) as [[i0|e] s1] eqn:Hb;
      [|discriminate].
    unfold bind at 1.
    destruct (Network.loop chuteName rest s1) as [[is1|e] s2] eqn:Hl;
      [|discriminate].
    intros [= <- <-] Hwf k iface.
    destruct (loop_body_wifi_state _ _ _ _ _ Hb Hwf) as [Hi Hwf1].
    destruct item as [name cfg].
    destruct (loop_body_ok _ _ _ _ _ _ Hb)
      as (intf & ty & subnet & _ & _ & _ & Hty & _ & Hw).
    specialize (IH s1 is1 Hl Hwf1).
    assert (Hiw : Network.is_wifi i0 = String.eqb ty "wifi")
      by (unfold Network.is_wifi; by rewrite Hty).
    rewrite filter_cons.
    destruct (String.eqb ty "wifi") eqn:Ety.
    + destruct Hw as (d & Hn & Hd).
      destruct (cycle_next_wf _ _ _ Hn) as (Hlk & _ & Hp & _).
      pose proof (lookup_lt_Some _ _ _ Hlk) as Hlt.
      rewrite decide_True by exact Hiw.
      destruct k as [|k]; cbn [lookup list_lookup].
      * intros [= <-]. rewrite Hd, Nat.add_0_r, Nat.mod_small by exact Hlt.
        by rewrite Hlk.
      * intros Hk. rewrite (IH k iface Hk), Hi, Hp.
        rewrite Nat.Div0.add_mod_idemp_l.
        do 3 f_equal. lia.
    + destruct Hw as [Hs _]. rewrite decide_False by (rewrite Hiw; discriminate).
      intros Hk. rewrite (IH k iface Hk), Hi, Hs. reflexivity.
Qed.

Lemma subnet_ok_hosts (n : ipaddress.network) :
  Network.subnet_ok n = true ->
  ipaddress.nth_host n 0 = Some (ipaddress.network_address n + 1)
  /\ ipaddress.nth_host n 1 = Some (ipaddress.network_address n + 2).
Proof.
  unfold Network.subnet_ok, ipaddress.nth_host.
  destruct (Z.ltb_spec (ipaddress.network_address n + 1 + Z.of_nat 1)
                       (ipaddress.broadcast_address n)) as [H|H]; [|discriminate].
  intros _.
  destruct (Z.ltb_spec (ipaddress.network_address n + 1 + Z.of_nat 0)
                       (ipaddress.broadcast_address n)) as [H0|H0]; [|lia].
  split; f_equal; lia.
Qed.

Lemma item_ok_inv (name : string) (cfg : Network.NetCfg) :
  Network.item_ok (name, cfg) = true ->
  (10 <? String.length name)%nat = false
  /\ exists intf ty,
      Network.intfName cfg = Some intf /\ Network.type cfg = Some ty
      /\ (String.eqb ty "wifi" = true -> exists ss, Network.ssid cfg = Some ss).
Proof.
  unfold Network.item_ok. cbn [fst snd].
  rewrite !andb_true_iff. intros [[Hlen Hi] Ht].
  split. { apply Nat.leb_le in Hlen. apply Nat.ltb_ge. exact Hlen. }
  destruct (Network.intfName cfg) as [intf|]; [|discriminate].
  destruct (Network.type cfg) as [ty|]; [|discriminate].
  exists intf, ty. repeat split. intros Hw. rewrite Hw in Ht.
  destruct (Network.ssid cfg) as [ss|]; [eauto|discriminate].
Qed.

(** A well-formed request succeeds when a subnet with two hosts is left
    and, for a wifi request, a device is at hand. *)
Lemma loop_body_succeeds (chuteName : string) (item : string * Network.NetCfg)
      (s : Network.loop_state) (subnet : ipaddress.network) (rest : Network.pool) :
  Network.item_ok item = true ->
  Network.st_pool s = subnet :: rest ->
  Network.subnet_ok subnet = true ->
  Network.items (Network.st_wifi s) <> [] ->
  Network.cycle_wf (Network.st_wifi s) ->
  exists iface s',
    Network.loop_body chuteName item s = (Ok iface, s')
    /\ Network.st_pool s' = rest
    /\ Network.type (snd item) = Some (Network.netType iface).
Proof.
  destruct item as [name cfg]. intros Hok Hpool Hsub Hne Hwf.
  destruct (item_ok_inv _ _ Hok) as (Hlen & intf & ty & Hi & Ht & Hss).
  destruct (subnet_ok_hosts _ Hsub) as [H0 H1].
  unfold Network.loop_body, Network.warn, Network.networkPool_next,
    Network.next_host, Network.wifiIter_next, Network.pool_next,
    bind, ret, raise.
  rewrite Hlen, Hi, Ht. cbn [Network.has Network.check]. cbv beta iota.
  rewrite Hpool. cbv beta iota. rewrite H0. cbv beta iota.
  rewrite H1. cbv beta iota.
  destruct (String.eqb ty "wifi") eqn:Ety.
  - destruct (Hss eq_refl) as [ss Hs]. rewrite Hs.
    cbn [Network.st_wifi Network.has Network.check].
    destruct (Network.cycle_next (Network.st_wifi s)) as [[d c']|] eqn:Hn.
    + do 2 eexists. split; [reflexivity|]. split; [reflexivity|exact Ht].
    + apply cycle_next_None in Hn. destruct Hwf as [Hnil|Hlt]; [done|lia].
  - do 2 eexists. split; [reflexivity|]. split; [reflexivity|exact Ht].
Qed.

Lemma loop_succeeds (chuteName : string) (net : list (string * Network.NetCfg))
      (s : Network.loop_state) :
  Forall (fun item => Network.item_ok item = true) net ->
  (length net <= length (Network.st_pool s))%nat ->
  Forall (fun n => Network.subnet_ok n = true) (Network.st_pool s) ->
  Network.items (Network.st_wifi s) <> [] ->
  Network.cycle_wf (Network.st_wifi s) ->
  exists ifaces s',
    Network.loop chuteName net s = (Ok ifaces, s')
    /\ Forall2 (fun item iface =>
                  Network.type (snd item) = Some (Network.netType iface))
               net ifaces.
Proof.
  revert s. induction net as [|item rest IH]; intros s Hok Hlen Hsubs Hne Hwf.
  - do 2 eexists. split; [reflexivity|constructor].
  - apply Forall_cons in Hok as [Hitem Hok].
    destruct (Network.st_pool s) as [|subnet pool'] eqn:Hp; [cbn in Hlen; lia|].
    apply Forall_cons in Hsubs as [Hsub Hsubs].
    destruct (loop_body_succeeds chuteName item s subnet pool' Hitem Hp Hsub Hne Hwf)
      as (iface & s1 & Hb & Hp1 & Hty).
    destruct (loop_body_wifi_state _ _ _ _ _ Hb Hwf) as [Hi Hwf1].
    destruct (IH s1) as (ifaces & s2 & Hl & HF); try assumption.
    + rewrite Hp1. cbn in Hlen. lia.
    + by rewrite Hp1.
    + by rewrite Hi.
    + exists (iface :: ifaces), s2. cbn [Network.loop]. unfold bind.
      rewrite Hb, Hl. split; [reflexivity|]. by constructor.
Qed.

(** A wifi request that gets as far as the device step ends in the
    missing-device error exactly when the device list is empty. *)
Lemma loop_body_wifi_request (chuteName name : string) (cfg : Network.NetCfg)
      (intf : string) (s : Network.loop_state)
      (subnet : ipaddress.network) (rest : Network.pool) :
  (String.length name <= 10)%nat ->
  Network.intfName cfg = Some intf ->
  Network.type cfg = Some "wifi" ->
  Network.st_pool s = subnet :: rest ->
  Network.subnet_ok subnet = true ->
  Network.cycle_wf (Network.st_wifi s) ->
  fst (Network.loop_body chuteName (name, cfg) s)
  = Raise (Exception "Missing WiFi device(s) requested by chute")
  <-> Network.items (Network.st_wifi s) = [].
Proof.
  intros Hlen Hi Ht Hpool Hsub Hwf. split.
  - destruct (Network.loop_body chuteName (name, cfg) s) as [r s'] eqn:Hb.
    cbn [fst]. intros ->.
    apply loop_body_missing_wifi, cycle_next_None in Hb.
    destruct Hwf as [Hnil|Hlt]; [done|lia].
  - intros Hnil.
    destruct (subnet_ok_hosts _ Hsub) as [H0 H1].
    assert (Hl : (10 <? String.length name)%nat = false) by (apply Nat.ltb_ge; lia).
    unfold Network.loop_body, Network.warn, Network.networkPool_next,
      Network.next_host, Network.wifiIter_next, Network.pool_next,
      bind, ret, raise.
    rewrite Hl, Hi, Ht. cbn [Network.has Network.check]. cbv beta iota.
    rewrite Hpool. cbv beta iota. rewrite H0. cbv beta iota.
    rewrite H1. cbv beta iota.
    change (String.eqb "wifi" "wifi") with true. cbv beta iota.
    cbn [Network.st_wifi]. unfold Network.cycle_next. rewrite Hnil.
    reflexivity.
Qed.

(** C10. WiFi devices in [getNetworkConfig], for an update with a [net]
    map and the cached wifi device list [devs]:
    - a wifi request that reaches the device step, at any position the
      iterator can be in, ends in the missing-WiFi-device error exactly
      when [devs] is empty;
    - with [devs] non-empty the call never ends in that error, and it
      succeeds on any number of well-formed requests for which the pool
      has subnets, storing one record per request;
    - whenever the call succeeds, the [k]-th wifi record holds the device
      at position [k mod length devs]: the iterator wraps around. *)
Theorem getNetworkConfig_wifi_devices
    (update : Network.Update) (p : Network.pool) (w : world)
    (items : list (string * Network.NetCfg)) :
  Network.net update = Some items ->
  let devs := Network.networkDevices_wifi (Network.new update) in
  let missing := Exception "Missing WiFi device(s) requested by chute" in
  (forall (q : nat) (name intf : string) (cfg : Network.NetCfg)
          (subnet : ipaddress.network) (rest : Network.pool) (w0 : world),
      Network.cycle_wf (Network.Cycle devs q) ->
      (String.length name <= 10)%nat ->
      Network.intfName cfg = Some intf ->
      Network.type cfg = Some "wifi" ->
      Network.subnet_ok subnet = true ->
      fst (Network.loop_body (Network.chute_name (Network.new update)) (name, cfg)
             (Network.LoopState (subnet :: rest) (Network.Cycle devs q) w0))
      = Raise missing
      <-> devs = [])
  /\ (devs <> [] -> fst (fst (Network.getNetworkConfig update p w)) <> Raise missing)
  /\ (devs <> [] ->
      Forall (fun item => Network.item_ok item = true) items ->
      (length items <= length p)%nat ->
      Forall (fun n => Network.subnet_ok n = true) p ->
      exists update' ifaces,
        fst (fst (Network.getNetworkConfig update p w)) = Ok update'
        /\ Network.networkInterfaces (Network.new update') = Some ifaces
        /\ Forall2 (fun item iface =>
                      Network.type (snd item) = Some (Network.netType iface))
                   items ifaces)
  /\ (forall update' ifaces,
        fst (fst (Network.getNetworkConfig update p w)) = Ok update' ->
        Network.networkInterfaces (Network.new update') = Some ifaces ->
        forall (k : nat) (iface : Network.Iface),
          filter (fun i => Network.is_wifi i = true) ifaces !! k = Some iface ->
          Network.iface_device iface
          = Network.dev_name <$> devs !! (k mod length devs)%nat).
Proof.
  intros Hnet devs missing.
  assert (Hwf0 : Network.cycle_wf (Network.Cycle devs 0)).
  { unfold Network.cycle_wf. cbn. destruct devs; [by left|right; cbn; lia]. }
  split; [|split; [|split]].
  - intros q name intf cfg subnet rest w0 Hwf Hlen Hi Ht Hsub.
    exact (loop_body_wifi_request _ name cfg intf
             (Network.LoopState (subnet :: rest) (Network.Cycle devs q) w0)
             subnet rest Hlen Hi Ht eq_refl Hsub Hwf).
  - intros Hne. unfold Network.getNetworkConfig. rewrite Hnet. fold devs.
    destruct (Network.loop _ items _) as [[ifaces|e] s'] eqn:Hl; cbn [fst].
    + discriminate.
    + intros [= ->]. revert Hl. by apply loop_never_missing_wifi.
  - intros Hne Hok Hlen Hsubs. unfold Network.getNetworkConfig.
    rewrite Hnet. fold devs.
    destruct (loop_succeeds (Network.chute_name (Network.new update)) items
                (Network.LoopState p (Network.Cycle devs 0) w))
      as (ifaces & s' & -> & HF); try done.
    cbn [fst]. do 2 eexists. split; [reflexivity|]. split; [reflexivity|exact HF].
  - intros update' ifaces. unfold Network.getNetworkConfig.
    rewrite Hnet. fold devs.
    destruct (Network.loop _ items _) as [[ifaces'|e] s'] eqn:Hl; cbn [fst];
      [|discriminate].
    intros [= <-]. cbn. intros [= <-] k iface Hk.
    by rewrite (loop_round_robin _ _ _ _ _ Hl Hwf0 k iface Hk).
Qed.

Lemma getNetworkConfig_wifi_devices_witness :
  (exists update',
      fst (fst (Network.getNetworkConfig (Examples.wifi_update Examples.two_radios)
                  Examples.three_subnets Examples.empty_world)) = Ok update'
      /\ (map Network.iface_device
            <$> Network.networkInterfaces (Network.new update'))
         = Some [Some "wlan0"; Some "wlan1"; Some "wlan0"])
  /\ fst (fst (Network.getNetworkConfig (Examples.wifi_update [])
                 Examples.three_subnets Examples.empty_world))
     = Raise (Exception "Missing WiFi device(s) requested by chute").
Proof.
  pose proof (getNetworkConfig_wifi_devices
                (Examples.wifi_update Examples.two_radios)
                Examples.three_subnets Examples.empty_world
                Examples.wifi_items eq_refl) as (_ & _ & Hsucc & Hrr).
  split.
  - destruct Hsucc as (update' & ifaces & Hu & Hi & HF).
    + discriminate.
    + repeat constructor.
    + cbn. lia.
    + repeat constructor.
    + exists update'. split; [exact Hu|].
      vm_compute in Hu. injection Hu as <-. reflexivity.
  - reflexivity.
Defined.

(** ** Container start-up and pipework *)

Lemma bind_inv_ok {S A B} (m : St S A) (k : A -> St S B) (s s' : S) (b : B) :
  bind m k s = (Ok b, s') ->
  exists a s1, m s = (Ok a, s1) /\ k a s1 = (Ok b, s').
Proof.
  unfold bind. destruct (m s) as [[a|e] s1]; [eauto|discriminate].
Qed.

Lemma liftHost_inv_ok {A} (m : M A) (s s' : Dockerapi.engine_state) (a : A) :
  Dockerapi.liftHost m s = (Ok a, s') ->
  m (Dockerapi.host s) = (Ok a, Dockerapi.host s')
  /\ Dockerapi.events s' = Dockerapi.events s
  /\ Dockerapi.objects s' = Dockerapi.objects s.
Proof.
  unfold Dockerapi.liftHost. destruct (m (Dockerapi.host s)) as [r w].
  intros [= -> <-]. done.
Qed.

Lemma log_each_spawned (f : string -> M unit) (lines : list string) (w : world) :
  (forall l w0, exists w1, f l w0 = (Ok tt, w1) /\ spawned w1 = spawned w0) ->
  exists w', Dockerapi.log_each f lines w = (Ok tt, w') /\ spawned w' = spawned w.
Proof.
  intros Hf. revert w. induction lines as [|l r IH]; intros w; cbn.
  - by exists w.
  - unfold bind. destruct (Hf l w) as (w1 & -> & H1).
    destruct (IH w1) as (w2 & -> & H2). exists w2. split; [done|congruence].
Qed.

(** One pass of the loop of [setup_net_interfaces] that returns normally
    has spawned pipework once for a wifi record and nothing otherwise. *)
Lemma setup_one_spawned (sys : Dockerapi.os) (chuteName : string)
      (iface : Network.Iface) (w w' : world) :
  Dockerapi.setup_one sys chuteName iface w = (Ok tt, w') ->
  spawned w'
  = spawned w
    ++ (if Network.is_wifi iface
        then [(Dockerapi.pipework_cmd chuteName iface, Dockerapi.pipework_PATH sys)]
        else []).
Proof.
  unfold Dockerapi.setup_one, Network.is_wifi.
  destruct (String.eqb (Network.netType iface) "wifi").
  - unfold bind at 1. cbn [out_info]. unfold bind at 1. cbn [Dockerapi.spawn].
    destruct (Dockerapi.popen sys _) as [[out err]|].
    + unfold bind.
      edestruct (log_each_spawned
                   (fun line => out_info ("pipework: " +:+ Py.strip line +:+ Py.nl)) out)
        as (w1 & -> & H1).
      { intros l w0. eexists. split; reflexivity. }
      edestruct (log_each_spawned
                   (fun line => out_warn ("pipework: " +:+ Py.strip line +:+ Py.nl)) err)
        as (w2 & -> & H2).
      { intros l w0. eexists. split; reflexivity. }
      intros [= <-]. rewrite H2, H1. reflexivity.
    + unfold bind, raise. cbn. discriminate.
  - intros [= <-]. by rewrite app_nil_r.
Qed.

Lemma setup_each_spawned (sys : Dockerapi.os) (chuteName : string)
      (interfaces : list Network.Iface) (w w' : world) :
  Dockerapi.setup_each sys chuteName interfaces w = (Ok tt, w') ->
  spawned w'
  = spawned w
    ++ map (fun i => (Dockerapi.pipework_cmd chuteName i, Dockerapi.pipework_PATH sys))
           (filter (fun i => Network.is_wifi i = true) interfaces).
Proof.
  revert w. induction interfaces as [|i r IH]; intros w; cbn [Dockerapi.setup_each].
  - intros [= <-]. by rewrite app_nil_r.
  - intros H. apply bind_inv_ok in H as ([] & w1 & H1 & H2).
    apply setup_one_spawned in H1. apply IH in H2.
    rewrite H2, H1, filter_cons.
    destruct (Network.is_wifi i) eqn:E.
    + rewrite decide_True by reflexivity. cbn [map]. by rewrite <- app_assoc.
    + rewrite decide_False by discriminate. by rewrite app_nil_r.
Qed.

(** C4, as amended. When [_startChute] returns normally (the container
    was created and started and every spawn succeeded), pipework has been
    spawned once for each record of the networkInterfaces cache whose
    netType is [wifi], in cache order, with argv
    [pipework externalIntf -i internalIntf chuteName ipaddrWithPrefix];
    records of any other netType spawn nothing. *)
Theorem startChute_pipework_per_wifi_interface
    (client : Dockerapi.docker) (sys : Dockerapi.os) (pdid : pyval)
    (chute : Dockerapi.Chute) (interfaces : list Network.Iface)
    (s s' : Dockerapi.engine_state) :
  Dockerapi.cache_networkInterfaces chute = Some interfaces ->
  Dockerapi._startChute client sys pdid chute s = (Ok tt, s') ->
  spawned (Dockerapi.host s')
  = spawned (Dockerapi.host s)
    ++ map (fun i =>
              (["/apps/paradrop/current/bin/pipework"; Network.externalIntf i;
                "-i"; Network.internalIntf i; Dockerapi.name chute;
                Network.ipaddrWithPrefix i],
               Dockerapi.pipework_PATH sys))
           (filter (fun i => Network.is_wifi i = true) interfaces).
Proof.
  intros Hc H. unfold Dockerapi._startChute in H.
  apply bind_inv_ok in H as ([] & s1 & H1 & H).
  apply liftHost_inv_ok in H1 as (H1 & _ & _).
  injection H1 as H1.
  apply bind_inv_ok in H as (env & s2 & H2 & H).
  destruct (Dockerapi.prepare_environment pdid chute (Dockerapi.objects s1))
    as [r h] eqn:Hp.
  injection H2 as -> <-.
  apply bind_inv_ok in H as ([] & s3 & [= <-] & H).
  apply bind_inv_ok in H as (container & s4 & H4 & H).
  unfold lift in H4. injection H4 as H4 <-.
  apply bind_inv_ok in H as ([] & s5 & [= <-] & H).
  apply bind_inv_ok in H as ([] & s6 & H6 & H).
  unfold lift in H6. injection H6 as H6 <-.
  apply bind_inv_ok in H as ([] & s7 & H7 & H).
  apply liftHost_inv_ok in H7 as (H7 & _ & _). injection H7 as H7.
  apply liftHost_inv_ok in H as (H & _ & _).
  unfold Dockerapi.setup_net_interfaces in H. rewrite Hc in H.
  apply setup_each_spawned in H. rewrite H. rewrite <- H7.
  cbn [spawned Dockerapi.host]. rewrite <- H1. reflexivity.
Qed.

Lemma startChute_pipework_per_wifi_interface_witness :
  exists s',
    Dockerapi._startChute (Examples.engine []) Examples.quiet_os (VStr "router")
      (Examples.chute_with None None None
         [Examples.lan_record; Examples.wifi_record0; Examples.wifi_record1])
      Examples.engine_start
    = (Ok tt, s')
    /\ spawned (Dockerapi.host s')
       = [(["/apps/paradrop/current/bin/pipework"; "seccam.wlan0"; "-i"; "wlan0";
            "seccam"; "192.168.129.2/24"], "/usr/bin:/bin:/apps/bin");
          (["/apps/paradrop/current/bin/pipework"; "seccam.wlan1"; "-i"; "wlan1";
            "seccam"; "192.168.130.2/24"], "/usr/bin:/bin:/apps/bin")].
Proof.
  assert (exists s',
             Dockerapi._startChute (Examples.engine []) Examples.quiet_os
               (VStr "router")
               (Examples.chute_with None None None
                  [Examples.lan_record; Examples.wifi_record0;
                   Examples.wifi_record1])
               Examples.engine_start
             = (Ok tt, s')) as [s' H].
  { eexists. vm_compute. reflexivity. }
  exists s'. split; [exact H|].
  rewrite (startChute_pipework_per_wifi_interface
             (Examples.engine []) Examples.quiet_os (VStr "router")
             (Examples.chute_with None None None
                [Examples.lan_record; Examples.wifi_record0;
                 Examples.wifi_record1])
             [Examples.lan_record; Examples.wifi_record0; Examples.wifi_record1]
             Examples.engine_start s' eq_refl H).
  vm_compute. reflexivity.
Defined.

(** C4 as stated fails on a record that is not of type [wifi]: for a chute
    whose cache holds the single record [lan], the container is started
    and [_startChute] returns, yet no process has been spawned. *)
Lemma startChute_no_pipework_for_lan :
  Dockerapi.cache_networkInterfaces
    (Examples.chute_with None None None [Examples.lan_record])
  = Some [Examples.lan_record]
  /\ exists s',
      Dockerapi._startChute (Examples.engine []) Examples.quiet_os (VStr "router")
        (Examples.chute_with None None None [Examples.lan_record])
        Examples.engine_start
      = (Ok tt, s')
      /\ In (Dockerapi.EvStart "0123abcd") (Dockerapi.events s')
      /\ spawned (Dockerapi.host s') = [].
Proof.
  split; [reflexivity|]. eexists. split; [vm_compute; reflexivity|].
  split; [cbn; auto|reflexivity].
Qed.

(** ** Chute environment *)

Lemma setitem_insert (l : Dockerapi.loc) (k : string) (v : pyval)
      (d : Dockerapi.dict) (h : Dockerapi.heap) :
  Dockerapi.setitem l k v (<[l := d]> h) = <[l := <[k := v]> d]> h.
Proof.
  unfold Dockerapi.setitem, Dockerapi.heap, Dockerapi.dict, Dockerapi.loc in *.
  rewrite lookup_insert_eq. by rewrite insert_insert_eq.
Qed.

Lemma alloc_fresh (d : Dockerapi.dict) (h : Dockerapi.heap) :
  h !! fresh (dom h) = None.
Proof.
  unfold Dockerapi.heap, Dockerapi.dict, Dockerapi.loc in *.
  apply not_elem_of_dom, is_fresh.
Qed.

(** C9, as amended. [prepare_environment] returns a new map that holds
    [PARADROP_CHUTE_NAME], [PARADROP_ROUTER_ID], [PARADROP_DATA_DIR] and
    [PARADROP_SYSTEM_DIR] with the chute's values, overriding
    user-supplied entries of these names; [PARADROP_CHUTE_VERSION] holds
    the chute's version when it has one, and is otherwise as the user
    supplied it, present or not; every other variable is as the user
    supplied it. The new map is at a location that was unused, and every
    map that existed, the chute's own included, is unchanged. *)
Theorem prepare_environment_spec
    (pdid : pyval) (chute : Dockerapi.Chute) (h : Dockerapi.heap)
    (user : Dockerapi.dict) :
  Dockerapi.user_environment chute h = Some user ->
  exists (env : Dockerapi.loc) (h' : Dockerapi.heap) (d : Dockerapi.dict),
    Dockerapi.prepare_environment pdid chute h = (Ok env, h')
    /\ h !! env = None
    /\ (forall l, l <> env -> h' !! l = h !! l)
    /\ (forall l, Dockerapi.environment chute = Some l ->
                  env <> l /\ h' !! l = Some user)
    /\ h' !! env = Some d
    /\ d !! "PARADROP_CHUTE_NAME" = Some (VStr (Dockerapi.name chute))
    /\ d !! "PARADROP_ROUTER_ID" = Some pdid
    /\ d !! "PARADROP_DATA_DIR" = Some (Dockerapi.cache_internalDataDir chute)
    /\ d !! "PARADROP_SYSTEM_DIR" = Some (Dockerapi.cache_internalSystemDir chute)
    /\ d !! "PARADROP_CHUTE_VERSION"
       = match Dockerapi.version chute with
         | Some v => Some (VStr v)
         | None => user !! "PARADROP_CHUTE_VERSION"
         end
    /\ (forall k, ~ In k Dockerapi.PARADROP_NAMES -> d !! k = user !! k).
Proof.
  intros Hu. unfold Dockerapi.prepare_environment, Dockerapi.alloc.
  rewrite Hu.
  destruct (Dockerapi.version chute) as [v|]; rewrite !setitem_insert;
    set (env := fresh (dom h));
    unfold Dockerapi.heap, Dockerapi.dict, Dockerapi.loc in *.
  - do 3 eexists.
    split; [reflexivity|]. split; [apply (alloc_fresh user)|].
    split. { intros l Hl. by rewrite lookup_insert_ne. }
    split.
    { intros l Hl. unfold Dockerapi.user_environment in Hu. rewrite Hl in Hu.
      assert (env <> l).
      { intros <-. subst env. pose proof (alloc_fresh user h) as Hf.
        pose proof (eq_trans (eq_sym Hu) Hf) as Hc. discriminate Hc. }
      split; [done|]. by rewrite lookup_insert_ne. }
    split; [apply lookup_insert_eq|].
    repeat split; try (by simplify_map_eq).
    intros k Hk. cbn in Hk.
    rewrite !lookup_insert_ne; [done|naive_solver..].
  - do 3 eexists.
    split; [reflexivity|]. split; [apply (alloc_fresh user)|].
    split. { intros l Hl. by rewrite lookup_insert_ne. }
    split.
    { intros l Hl. unfold Dockerapi.user_environment in Hu. rewrite Hl in Hu.
      assert (env <> l).
      { intros <-. subst env. pose proof (alloc_fresh user h) as Hf.
        pose proof (eq_trans (eq_sym Hu) Hf) as Hc. discriminate Hc. }
      split; [done|]. by rewrite lookup_insert_ne. }
    split; [apply lookup_insert_eq|].
    repeat split; try (by simplify_map_eq).
    intros k Hk. cbn in Hk.
    rewrite !lookup_insert_ne; [done|naive_solver..].
Qed.

Lemma prepare_environment_spec_witness :
  exists env h' d,
    Dockerapi.prepare_environment (VStr "router") Examples.chute_v2
                                  Examples.user_heap = (Ok env, h')
    /\ h' !! 1%positive = Some Examples.user_env
    /\ h' !! env = Some d
    /\ d !! "PARADROP_CHUTE_NAME" = Some (VStr "seccam")
    /\ d !! "PARADROP_CHUTE_VERSION" = Some (VStr "2")
    /\ d !! "CAMERA" = Some (VStr "front").
Proof.
  destruct (prepare_environment_spec (VStr "router") Examples.chute_v2
              Examples.user_heap Examples.user_env eq_refl)
    as (env & h' & d & E & _ & _ & Hown & Hd & Hn & _ & _ & _ & Hv & Hk).
  exists env, h', d. split; [exact E|].
  split; [exact (proj2 (Hown 1%positive eq_refl))|].
  split; [exact Hd|]. split; [exact Hn|]. split; [exact Hv|].
  rewrite Hk; [reflexivity|]. cbn. intuition discriminate.
Defined.

(** C9 as stated fails for a chute without a version whose user-supplied
    map names [PARADROP_CHUTE_VERSION]: the returned map holds the
    variable, with the user's value. *)
Lemma prepare_environment_version_without_version :
  Dockerapi.version Examples.chute_unversioned = None
  /\ exists env h' d,
      Dockerapi.prepare_environment (VStr "router") Examples.chute_unversioned
                                    Examples.user_heap = (Ok env, h')
      /\ h' !! env = Some d
      /\ d !! "PARADROP_CHUTE_VERSION" = Some (VStr "9").
Proof.
  split; [reflexivity|].
  exists 2%positive. do 2 eexists.
  split; [vm_compute; reflexivity|].
  split; vm_compute; reflexivity.
Qed.

(** ** Building the image *)

Lemma grows_by_refl (s : Dockerapi.engine_state) : Dockerapi.grows_by s s [].
Proof. unfold Dockerapi.grows_by. by rewrite app_nil_r. Qed.

Lemma grows_by_trans (s1 s2 s3 : Dockerapi.engine_state)
      (e1 e2 : list Dockerapi.event) :
  Dockerapi.grows_by s1 s2 e1 -> Dockerapi.grows_by s2 s3 e2 -> Dockerapi.grows_by s1 s3 (e1 ++ e2).
Proof.
  unfold Dockerapi.grows_by. intros (Hh1 & He1 & Ho1) (Hh2 & He2 & Ho2).
  rewrite Hh2, He2, Ho2, Hh1, He1, Ho1, app_assoc. done.
Qed.

Lemma report_values_grows (vals : list (option string))
      (s : Dockerapi.engine_state) :
  exists s' evs,
    Dockerapi.report_values vals s = (Ok tt, s') /\ Dockerapi.grows_by s s' evs
    /\ Forall (fun e => Dockerapi.is_build_event e = false) evs.
Proof.
  revert s. induction vals as [|[v|] r IH]; intros s; cbn [Dockerapi.report_values].
  - exists s, []. split; [reflexivity|]. split; [apply grows_by_refl|constructor].
  - unfold bind.
    destruct ((0 <? String.length (Py.rstrip v))%nat
              && negb (Dockerapi.suppress_match (Py.rstrip v)))%bool.
    + cbn [Dockerapi.progress Dockerapi.emit].
      destruct (IH (Dockerapi.EngineState (Dockerapi.host s)
                      (Dockerapi.events s ++ [Dockerapi.EvProgress (Py.rstrip v)])
                      (Dockerapi.objects s))) as (s' & evs & -> & Hg & HF).
      exists s', ([Dockerapi.EvProgress (Py.rstrip v)] ++ evs).
      split; [reflexivity|]. split.
      * refine (grows_by_trans _ _ _ _ _ _ Hg). by unfold Dockerapi.grows_by.
      * constructor; [reflexivity|exact HF].
    + cbn [ret]. apply IH.
  - apply IH.
Qed.

Lemma build_loop_grows (output : list Dockerapi.build_line) (b : bool)
      (s : Dockerapi.engine_state) :
  exists b' s' evs,
    Dockerapi.build_loop output b s = (Ok b', s') /\ Dockerapi.grows_by s s' evs.
Proof.
  revert b s. induction output as [|line r IH]; intros b s;
    cbn [Dockerapi.build_loop].
  - exists b, s, []. split; [reflexivity|apply grows_by_refl].
  - unfold bind.
    destruct (report_values_grows (Dockerapi.values line) s)
      as (s1 & e1 & -> & Hg1 & _).
    destruct (IH (if Dockerapi.has_errorDetail line then false else b) s1)
      as (b' & s2 & e2 & -> & Hg2).
    exists b', s2, (e1 ++ e2). split; [reflexivity|].
    exact (grows_by_trans _ _ _ _ _ Hg1 Hg2).
Qed.

(** [_buildImage] records the build it asks of the engine, whatever the
    engine answers. *)
Lemma buildImage_worker_grows (client : Dockerapi.docker) (tag : string)
      (src : Dockerapi.build_source) (s : Dockerapi.engine_state) :
  exists r s' evs,
    Dockerapi._buildImage client tag src s = (r, s')
    /\ Dockerapi.grows_by s s' (Dockerapi.EvBuild tag src :: evs).
Proof.
  unfold Dockerapi._buildImage. unfold bind at 1. cbn [Dockerapi.emit].
  unfold bind, lift.
  destruct (Dockerapi.build client tag src) as [output|e].
  - destruct (build_loop_grows output true
                (Dockerapi.EngineState (Dockerapi.host s)
                   (Dockerapi.events s ++ [Dockerapi.EvBuild tag src])
                   (Dockerapi.objects s))) as (b' & s' & evs & -> & Hg).
    exists (Ok b'), s', evs. split; [reflexivity|].
    change (Dockerapi.EvBuild tag src :: evs)
      with ([Dockerapi.EvBuild tag src] ++ evs).
    refine (grows_by_trans _ _ _ _ _ _ Hg). by unfold Dockerapi.grows_by.
  - do 2 eexists. exists []. split; [reflexivity|]. by unfold Dockerapi.grows_by.
Qed.

Lemma pull_loop_grows (output : list Dockerapi.pull_line) (layers complete : nat)
      (s : Dockerapi.engine_state) :
  exists c s' evs,
    Dockerapi.pull_loop output layers complete s = (Ok c, s')
    /\ Dockerapi.grows_by s s' evs
    /\ Forall (fun e => Dockerapi.is_build_event e = false) evs.
Proof.
  revert layers complete s.
  induction output as [|data r IH]; intros layers complete s;
    cbn [Dockerapi.pull_loop].
  - do 2 eexists. exists []. split; [reflexivity|].
    split; [apply grows_by_refl|constructor].
  - destruct (Dockerapi.progressDetail_empty data); [|apply IH].
    destruct (Dockerapi.status data) as [st|]; [|apply IH].
    destruct (Dockerapi.id data) as [i|]; [|apply IH].
    unfold bind. cbn [Dockerapi.progress Dockerapi.emit].
    set (s1 := Dockerapi.EngineState _ _ _).
    assert (Hg1 : Dockerapi.grows_by s s1 [Dockerapi.EvProgress (st +:+ ": " +:+ i)])
      by (by unfold Dockerapi.grows_by).
    destruct (String.eqb _ "pulling fs layer");
      [|destruct (String.eqb _ "pull complete")].
    all: match goal with
         | |- context [Dockerapi.pull_loop _ ?l ?c _] =>
             destruct (IH l c s1) as (c' & s' & evs & -> & Hg & HF)
         end.
    all: exists c', s', ([Dockerapi.EvProgress (st +:+ ": " +:+ i)] ++ evs).
    all: split; [reflexivity|].
    all: split; [exact (grows_by_trans _ _ _ _ _ Hg1 Hg)|].
    all: constructor; [reflexivity|exact HF].
Qed.

(** [_pullImage] asks nothing of a local build. *)
Lemma pullImage_grows (client : Dockerapi.docker) (update : Dockerapi.Update)
      (s s' : Dockerapi.engine_state) (r : result bool) :
  Dockerapi._pullImage client update s = (r, s') ->
  exists evs, Dockerapi.grows_by s s' evs
              /\ Forall (fun e => Dockerapi.is_build_event e = false) evs.
Proof.
  unfold Dockerapi._pullImage.
  destruct (Dockerapi.external_image (Dockerapi.new update)) as [image|].
  - unfold bind at 1. cbn [Dockerapi.progress Dockerapi.emit].
    unfold bind at 1. cbn [Dockerapi.emit].
    unfold bind at 1, lift.
    destruct (Dockerapi.pull client image) as [output|e].
    + unfold bind at 1. set (s2 := Dockerapi.EngineState _ _ _).
      destruct (pull_loop_grows output 0 0 s2)
        as ([layers complete] & s3 & evs & -> & Hg & HF).
      unfold bind. cbn [Dockerapi.progress Dockerapi.emit ret].
      intros [= <- <-]. eexists (_ :: _ :: evs ++ [_]). split.
      * destruct Hg as (Hh & He & Ho). unfold Dockerapi.grows_by. cbn.
        rewrite Hh, He, Ho. subst s2. cbn.
        rewrite <- !app_assoc. done.
      * repeat constructor. apply Forall_app. split; [exact HF|].
        by repeat constructor.
    + intros [= <- <-]. eexists [_; _]. split.
      * unfold Dockerapi.grows_by. cbn. by rewrite <- app_assoc.
      * by repeat constructor.
  - intros [= <- <-]. exists []. split; [apply grows_by_refl|constructor].
Qed.

Lemma filter_build_events_app (evs extra : list Dockerapi.event) :
  Forall (fun e => Dockerapi.is_build_event e = false) extra ->
  filter (fun e => Dockerapi.is_build_event e = true) (evs ++ extra)
  = filter (fun e => Dockerapi.is_build_event e = true) evs.
Proof.
  intros HF. rewrite filter_app.
  induction HF as [|e l He _ IH]; [by rewrite app_nil_r|].
  rewrite filter_cons, decide_False by (rewrite He; discriminate). exact IH.
Qed.

(** C8. For an update whose new chute has an [external_image], once the
    pull has returned:
    - if it succeeded, [buildImage] returns at once and has asked for no
      download and no build;
    - if it failed and the update has a Dockerfile, the next thing after
      the report of the failed pull is a build of that Dockerfile, tagged
      with the image name;
    - if it failed and the update has no Dockerfile but a download
      location, the next thing is the download from it, followed, when it
      yields a directory, by a build of that directory;
    - if it failed and the update has neither, [buildImage] raises
      [No Dockerfile or download location supplied.] *)
Theorem buildImage_pull_then_local_build
    (client : Dockerapi.docker) (update : Dockerapi.Update) (img : string)
    (s s0 s1 : Dockerapi.engine_state) (pulled : bool) :
  Dockerapi.external_image (Dockerapi.new update) = Some img ->
  Dockerapi.liftHost
    (out_info ("Building image for " +:+ Dockerapi.name (Dockerapi.new update)
                 +:+ Py.nl)) s = (Ok tt, s0) ->
  Dockerapi._pullImage client update s0 = (Ok pulled, s1) ->
  let outcome := fst (Dockerapi.buildImage client update s) in
  let final := snd (Dockerapi.buildImage client update s) in
  let failed := Dockerapi.EvProgress "Pull failed, attempting a local build." in
  if pulled then
    outcome = Ok tt /\ final = s1
    /\ filter (fun e => Dockerapi.is_build_event e = true) (Dockerapi.events final)
       = filter (fun e => Dockerapi.is_build_event e = true) (Dockerapi.events s)
  else
    match Dockerapi.dockerfile update, Dockerapi.download update with
    | Some df, _ =>
        exists evs,
          Dockerapi.events final
          = Dockerapi.events s1
              ++ failed :: Dockerapi.EvBuild img (Dockerapi.Fileobj df) :: evs
    | None, Some args =>
        exists evs,
          Dockerapi.events final
          = Dockerapi.events s1 ++ failed :: Dockerapi.EvFetch args :: evs
          /\ forall workDir,
               Dockerapi.fetch client args = Ok workDir ->
               exists evs',
                 evs = Dockerapi.EvBuild img (Dockerapi.Path workDir) :: evs'
    | None, None =>
        outcome = Raise (Exception "No Dockerfile or download location supplied.")
        /\ Dockerapi.events final = Dockerapi.events s1 ++ [failed]
    end.
Proof.
  intros Himg Hinfo Hpull outcome final failed.
  subst outcome final.
  remember (Dockerapi.buildImage client update s) as run eqn:Hrun.
  unfold Dockerapi.buildImage in Hrun.
  unfold bind at 1 in Hrun. rewrite Hinfo in Hrun.
  unfold Dockerapi.getImageName in Hrun. rewrite Himg in Hrun.
  unfold bind at 1 in Hrun. unfold bind at 1 in Hrun. rewrite Hpull in Hrun.
  destruct pulled.
  - cbn [ret] in Hrun. subst run. unfold ret. cbn [fst snd].
    split; [reflexivity|]. split; [reflexivity|].
    destruct (pullImage_grows _ _ _ _ _ Hpull) as (evs & (_ & He & _) & HF).
    rewrite He, (filter_build_events_app _ _ HF).
    apply liftHost_inv_ok in Hinfo as (_ & -> & _). reflexivity.
  - unfold bind at 1 in Hrun. cbn [Dockerapi.progress Dockerapi.emit ret] in Hrun.
    set (s2 := Dockerapi.EngineState _ _ _) in Hrun.
    assert (He2 : Dockerapi.events s2 = Dockerapi.events s1 ++ [failed])
      by reflexivity.
    clearbody s2.
    destruct (Dockerapi.dockerfile update) as [df|];
      [|destruct (Dockerapi.download update) as [args|]].
    + unfold bind at 1 in Hrun.
      destruct (buildImage_worker_grows client img (Dockerapi.Fileobj df) s2)
        as (r & s3 & evs & Hb & _ & He & _).
      rewrite Hb in Hrun. exists evs.
      assert (Dockerapi.events s3
              = Dockerapi.events s1
                  ++ failed :: Dockerapi.EvBuild img (Dockerapi.Fileobj df) :: evs)
        as <- by (rewrite He, He2; by rewrite <- app_assoc).
      subst run. destruct r as [[]|]; reflexivity.
    + unfold bind at 1 in Hrun. unfold bind at 1 in Hrun.
      cbn [Dockerapi.emit] in Hrun.
      set (s3 := Dockerapi.EngineState _ _ _) in Hrun.
      assert (He3 : Dockerapi.events s3
                    = Dockerapi.events s1 ++ [failed; Dockerapi.EvFetch args])
        by (subst s3; cbn; rewrite He2; by rewrite <- app_assoc).
      clearbody s3.
      unfold bind at 1, lift in Hrun.
      destruct (Dockerapi.fetch client args) as [workDir|e].
      * destruct (buildImage_worker_grows client img (Dockerapi.Path workDir) s3)
          as (r & s4 & evs & Hb & _ & He & _).
        rewrite Hb in Hrun.
        exists (Dockerapi.EvBuild img (Dockerapi.Path workDir) :: evs).
        split.
        -- assert (Dockerapi.events s4
                   = Dockerapi.events s1
                       ++ failed :: Dockerapi.EvFetch args
                       :: Dockerapi.EvBuild img (Dockerapi.Path workDir) :: evs)
             as <- by (rewrite He, He3; by rewrite <- !app_assoc).
           subst run. destruct r as [[]|]; reflexivity.
        -- intros w [= <-]. by exists evs.
      * exists []. subst run. cbn [fst snd]. split; [exact He3|].
        intros w Hw. discriminate Hw.
    + unfold bind, raise in Hrun. subst run. cbn [fst snd].
      split; [reflexivity|exact He2].
Qed.

Lemma buildImage_pull_then_local_build_witness :
  In (Dockerapi.EvBuild "registry.exis.io/seccam" (Dockerapi.Fileobj "FROM scratch"))
     (Dockerapi.events
        (snd (Dockerapi.buildImage (Examples.engine Examples.pull_incomplete)
                (Examples.update_with (Some "FROM scratch") None)
                Examples.engine_start)))
  /\ fst (Dockerapi.buildImage (Examples.engine Examples.pull_complete)
            (Examples.update_with (Some "FROM scratch") None)
            Examples.engine_start) = Ok tt
  /\ filter (fun e => Dockerapi.is_build_event e = true)
       (Dockerapi.events
          (snd (Dockerapi.buildImage (Examples.engine Examples.pull_complete)
                  (Examples.update_with (Some "FROM scratch") None)
                  Examples.engine_start))) = [].
Proof.
  split.
  - assert (exists s0 s1,
               Dockerapi.liftHost
                 (out_info ("Building image for " +:+ "seccam" +:+ Py.nl))
                 Examples.engine_start = (Ok tt, s0)
               /\ Dockerapi._pullImage (Examples.engine Examples.pull_incomplete)
                    (Examples.update_with (Some "FROM scratch") None) s0
                  = (Ok false, s1)) as (s0 & s1 & H0 & H1).
    { do 2 eexists. split; vm_compute; reflexivity. }
    destruct (buildImage_pull_then_local_build
                (Examples.engine Examples.pull_incomplete)
                (Examples.update_with (Some "FROM scratch") None)
                "registry.exis.io/seccam" Examples.engine_start s0 s1 false
                eq_refl H0 H1) as [evs ->].
    apply in_or_app. right. right. left. reflexivity.
  - assert (exists s0 s1,
               Dockerapi.liftHost
                 (out_info ("Building image for " +:+ "seccam" +:+ Py.nl))
                 Examples.engine_start = (Ok tt, s0)
               /\ Dockerapi._pullImage (Examples.engine Examples.pull_complete)
                    (Examples.update_with (Some "FROM scratch") None) s0
                  = (Ok true, s1)) as (s0 & s1 & H0 & H1).
    { do 2 eexists. split; vm_compute; reflexivity. }
    destruct (buildImage_pull_then_local_build
                (Examples.engine Examples.pull_complete)
                (Examples.update_with (Some "FROM scratch") None)
                "registry.exis.io/seccam" Examples.engine_start s0 s1 true
                eq_refl H0 H1) as (Hout & _ & Hev).
    split; [exact Hout|]. rewrite Hev. reflexivity.
Defined.

(** ** Random MAC addresses *)

Lemma format_02x_checked :
  forallb (fun n =>
             (Nat.eqb (String.length (Wireless.format_02x n)) 2
              && Py.all_chars (fun c => Wireless.char_in c mac_chars)
                   (Wireless.format_02x n)
              && negb (String.eqb (Wireless.format_02x n) "ff"))%bool)
          (map Z.of_nat (seq 0 255))
  = true.
Proof. vm_compute. reflexivity. Qed.

Lemma format_02x_group (n : Z) :
  0 <= n < 255 ->
  mac_group (Wireless.format_02x n) /\ Wireless.format_02x n <> "ff"
  /\ no_char ":" (Wireless.format_02x n).
Proof.
  intros Hn. pose proof format_02x_checked as H.
  rewrite forallb_forall in H. specialize (H n).
  rewrite !andb_true_iff, negb_true_iff in H. destruct H as [[Hl Hc] Hf].
  - apply in_map_iff. exists (Z.to_nat n). split; [lia|]. apply in_seq. lia.
  - split; [split; [by apply Nat.eqb_eq|exact Hc]|].
    split; [by apply String.eqb_neq|].
    unfold no_char. revert Hc. apply all_chars_impl.
    intros c. destruct c as [[] [] [] [] [] [] [] []]; vm_compute; congruence.
Qed.

(** X1. [getRandomMAC], for draws that [random.randrange(0, 255)] can
    return: the address is [02] followed by five groups of two lower-case
    hex digits, separated by colons, 17 characters in all, and no group
    is [ff], as 255 is never drawn. *)
Theorem getRandomMAC_format (rnd : nat -> Z) :
  (forall i, 0 <= rnd i < 255) ->
  String.length (Wireless.getRandomMAC rnd) = 17%nat
  /\ exists g1 g2 g3 g4 g5,
      Py.split_on ":" (Wireless.getRandomMAC rnd) = ["02"; g1; g2; g3; g4; g5]
      /\ Forall (fun g => mac_group g /\ g <> "ff") [g1; g2; g3; g4; g5].
Proof.
  intros Hr. unfold Wireless.getRandomMAC. cbn [seq map Py.join].
  destruct (format_02x_group _ (Hr 0%nat)) as ((L0 & C0) & F0 & N0).
  destruct (format_02x_group _ (Hr 1%nat)) as ((L1 & C1) & F1 & N1).
  destruct (format_02x_group _ (Hr 2%nat)) as ((L2 & C2) & F2 & N2).
  destruct (format_02x_group _ (Hr 3%nat)) as ((L3 & C3) & F3 & N3).
  destruct (format_02x_group _ (Hr 4%nat)) as ((L4 & C4) & F4 & N4).
  split.
  - rewrite !string_length_append, L0, L1, L2, L3, L4. reflexivity.
  - exists (Wireless.format_02x (rnd 0%nat)), (Wireless.format_02x (rnd 1%nat)),
      (Wireless.format_02x (rnd 2%nat)), (Wireless.format_02x (rnd 3%nat)),
      (Wireless.format_02x (rnd 4%nat)).
    split.
    + repeat match goal with
             | |- context [?x +:+ ":" +:+ ?y] =>
                 change (x +:+ ":" +:+ y) with (x +:+ String ":" y)
             end.
      rewrite !split_on_app_sep by (assumption || reflexivity).
      by rewrite split_on_no_sep.
    + repeat constructor; assumption.
Qed.

Lemma getRandomMAC_format_witness :
  Wireless.getRandomMAC (fun i => (37 * Z.of_nat i + 11) mod 255)
  = "02:0b:30:55:7a:9f"
  /\ String.length
       (Wireless.getRandomMAC (fun i => (37 * Z.of_nat i + 11) mod 255)) = 17%nat.
Proof.
  split; [reflexivity|].
  apply (getRandomMAC_format (fun i => (37 * Z.of_nat i + 11) mod 255)).
  intros i. apply Z.mod_pos_bound. lia.
Defined.

(** ** Applying and reverting a wifi-iface *)

Lemma liftW_inv_ok {A} (m : M A) (st st' : Wireless.state) (a : A) :
  Wireless.liftW m st = (Ok a, st') ->
  m (snd st) = (Ok a, snd st') /\ fst st' = fst st.
Proof.
  unfold Wireless.liftW. destruct (m (snd st)) as [r w'].
  intros [= -> <-]. done.
Qed.

Lemma makeHostapdConf_path (self : Wireless.ConfigWifiIface)
      (dev : Wireless.ConfigWifiDevice) (intf : Wireless.ConfigInterface)
      (w w' : world) (path : string) :
  Wireless.makeHostapdConf self dev intf w = (Ok path, w') ->
  path = Wireless.writeDir self +:+ "/hostapd-" +:+ Wireless.internalName self
           +:+ ".conf".
Proof.
  unfold Wireless.makeHostapdConf. intros H.
  apply bind_inv_ok in H as ([] & w1 & _ & H). by injection H as <- _.
Qed.

(** X2. A successful [apply] and the [revert] that follows it. The
    commands are [iw ... interface add] and [ip link set ... address] for
    a virtual interface, or [iw ... set type __ap] for the physical one,
    and then [hostapd -P pid -B conf]; the section remembers the PID file
    it gave to hostapd, and [revert] kills by that same file and deletes
    the interface exactly when [apply] added it, under the same name. *)
Theorem apply_then_revert
    (allConfigs : Wireless.AllConfigs) (rnd : nat -> Z)
    (self self' : Wireless.ConfigWifiIface) (w w' : world)
    (cmds : list (priority * Wireless.command)) :
  Wireless.apply allConfigs rnd (self, w) = (Ok cmds, (self', w')) ->
  let owner := Wireless.internalName self in
  let pid := Wireless.writeDir self +:+ "/hostapd-" +:+ owner +:+ ".pid" in
  let conf := Wireless.writeDir self +:+ "/hostapd-" +:+ owner +:+ ".conf" in
  exists (dev : Wireless.ConfigWifiDevice) (virtual : bool),
    Wireless.lookup_wifi_device allConfigs (Wireless.device self) = Ok dev
    /\ Wireless.isVirtual self' = Some virtual
    /\ Wireless.pidFile self' = Some pid
    /\ cmds
       = (if virtual
          then [(PRIO CREATE_IFACE,
                 Wireless.Command ["iw"; "dev"; Wireless.dev_name dev; "interface";
                                   "add"; Wireless.ifname_str self'; "type"; "__ap"]
                                  owner);
                (PRIO CREATE_IFACE,
                 Wireless.Command ["ip"; "link"; "set"; "dev";
                                   Wireless.ifname_str self'; "address";
                                   Wireless.getRandomMAC rnd] owner)]
          else [(PRIO CONFIG_IFACE,
                 Wireless.Command ["iw"; "dev"; Wireless.dev_name dev; "set";
                                   "type"; "__ap"] owner)])
         ++ [(PRIO START_DAEMON,
              Wireless.Command ["hostapd"; "-P"; pid; "-B"; conf] owner)]
    /\ Wireless.revert self'
       = Ok ((NEG_PRIO START_DAEMON, Wireless.KillCommand (Some pid) owner)
             :: (if virtual
                 then [(NEG_PRIO CREATE_IFACE,
                        Wireless.Command ["iw"; "dev"; Wireless.ifname_str self';
                                          "del"] owner)]
                 else [])).
Proof.
  intros H owner pid conf. unfold Wireless.apply in H.
  apply bind_inv_ok in H as (s0 & st0 & [= <- <-] & H). cbn [fst] in H.
  apply bind_inv_ok in H as ([] & st1 & Hmode & H).
  assert (st1 = (self, w)) as ->.
  { destruct (String.eqb (Wireless.mode self) "ap");
      [by injection Hmode|].
    destruct (String.eqb (Wireless.mode self) "sta"); discriminate Hmode. }
  clear Hmode.
  apply bind_inv_ok in H as (dev & st2 & Hdev & H).
  unfold lift in Hdev. injection Hdev as Hdev <-.
  apply bind_inv_ok in H as (intf & st3 & Hintf & H).
  unfold lift in Hintf. injection Hintf as Hintf <-.
  apply bind_inv_ok in H as ([] & st4 & [= <-] & H).
  apply bind_inv_ok in H as ([] & st5 & [= <-] & H).
  cbn [fst snd] in H.
  apply bind_inv_ok in H as (commands1 & st6 & H1 & H).
  apply bind_inv_ok in H as (self1 & st7 & [= <- <-] & H).
  apply bind_inv_ok in H as (confFile & st8 & Hconf & H).
  apply liftW_inv_ok in Hconf as (Hconf & Hfst).
  apply makeHostapdConf_path in Hconf.
  apply bind_inv_ok in H as ([] & st9 & [= <-] & H).
  injection H as <- <- <-.
  exists dev. rewrite Hfst.
  assert (Hsame : Wireless.writeDir (fst st6) = Wireless.writeDir self
                  /\ Wireless.internalName (fst st6) = Wireless.internalName self
                  /\ exists v, Wireless.isVirtual (fst st6) = Some v
                     /\ commands1
                        = (if v then []
                           else [(PRIO CONFIG_IFACE,
                                  Wireless.Command
                                    ["iw"; "dev"; Wireless.dev_name dev; "set";
                                     "type"; "__ap"] owner)])).
  { destruct (Wireless.opt_string_eqb _ _).
    - apply bind_inv_ok in H1 as ([] & st & [= <-] & [= <- <-]).
      repeat split. by exists false.
    - destruct (String.eqb _ _).
      + apply bind_inv_ok in H1 as ([] & st & [= <-] & H1).
        apply bind_inv_ok in H1 as ([] & st' & [= <-] & [= <- <-]).
        repeat split. by exists false.
      + destruct (Wireless.ifname self).
        * injection H1 as <- <-. repeat split. by exists true.
        * apply bind_inv_ok in H1 as ([] & st & [= <-] & [= <- <-]).
          repeat split. by exists true. }
  destruct Hsame as (Hwd & Hname & v & Hv & ->).
  exists v. split; [exact Hdev|].
  split; [exact Hv|]. split; [reflexivity|].
  split.
  - rewrite Hv, Hconf, Hwd, Hname. cbn [default]. destruct v; reflexivity.
  - unfold Wireless.revert. cbn [Wireless.pidFile Wireless.set_pidFile
                                   Wireless.isVirtual Wireless.internalName].
    rewrite Hv, Hname. destruct v; reflexivity.
Qed.

Lemma apply_then_revert_witness :
  exists self' w',
    Wireless.apply Examples.wireless_configs (fun _ => 0)
                   (Examples.ap1, Examples.empty_world)
    = (Ok [(PRIO CREATE_IFACE,
            Wireless.Command ["iw"; "dev"; "radio"; "interface"; "add"; "wlan0";
                              "type"; "__ap"] "ap1");
           (PRIO CREATE_IFACE,
            Wireless.Command ["ip"; "link"; "set"; "dev"; "wlan0"; "address";
                              "02:00:00:00:00:00"] "ap1");
           (PRIO START_DAEMON,
            Wireless.Command ["hostapd"; "-P"; "/tmp/hostapd-ap1.pid"; "-B";
                              "/tmp/hostapd-ap1.conf"] "ap1")],
       (self', w'))
    /\ Wireless.revert self'
       = Ok [(NEG_PRIO START_DAEMON,
              Wireless.KillCommand (Some "/tmp/hostapd-ap1.pid") "ap1");
             (NEG_PRIO CREATE_IFACE,
              Wireless.Command ["iw"; "dev"; "wlan0"; "del"] "ap1")].
Proof.
  assert (exists cmds self' w',
             Wireless.apply Examples.wireless_configs (fun _ => 0)
                            (Examples.ap1, Examples.empty_world)
             = (Ok cmds, (self', w'))) as (cmds & self' & w' & H).
  { do 3 eexists. vm_compute. reflexivity. }
  destruct (apply_then_revert _ _ _ _ _ _ _ H)
    as (dev & v & Hdev & Hv & Hp & Hc & Hr).
  exists self', w'. split.
  - rewrite H. vm_compute in H. injection H as <- _ _. reflexivity.
  - rewrite Hr. vm_compute in H. injection H as _ <- _.
    injection Hv as <-. reflexivity.
Defined.

(** ** Writing the hostapd configuration *)

Lemma writeHeader_spec (g : Wireless.HostapdConfGenerator) (path : string)
      (w : world) (l : list string) :
  files w !! path = Some l ->
  exists w1 header,
    Wireless.writeHeader g path w = (Ok tt, w1)
    /\ files w1 !! path = Some (l ++ header)
    /\ length header = 7%nat
    /\ header !! 1%nat
       = Some ("# hostapd configuration file generated by pdconf" +:+ Py.nl).
Proof.
  intros Hl. unfold Wireless.writeHeader.
  repeat (edestruct (@bind_write) as (? & -> & ?); [eassumption|]).
  eexists. eexists [_; _; _; _; _; _; _]. split; [reflexivity|].
  split; [|split; reflexivity].
  cbn [write files]. 
  match goal with H : files _ !! path = Some _ |- _ => rewrite H end.
  rewrite lookup_insert_eq. unfold default, from_option, id.
  rewrite <- !app_assoc. cbn [app]. reflexivity.
Qed.

Lemma writeOptions_spec (opts : Wireless.options) (path : string)
      (title : option string) (w : world) (l : list string) :
  files w !! path = Some l ->
  exists w1 section,
    Wireless.writeOptions opts path title w = (Ok tt, w1)
    /\ files w1 !! path = Some (l ++ Py.nl :: section).
Proof.
  intros Hl. unfold Wireless.writeOptions.
  edestruct (@bind_write) as (w1 & -> & H1); [eassumption|].
  destruct title as [t|].
  - edestruct (@bind_write) as (w2 & -> & H2); [eassumption|].
    edestruct (write_each_spec) as (w3 & -> & H3); [eassumption|].
    do 2 eexists. split; [reflexivity|]. rewrite H3, <- !app_assoc. reflexivity.
  - unfold bind at 1, ret at 1.
    edestruct (write_each_spec) as (w3 & -> & H3); [eassumption|].
    do 2 eexists. split; [reflexivity|]. rewrite H3, <- !app_assoc. reflexivity.
Qed.

Lemma bind_ok_run {S A B} (m : St S A) (k : A -> St S B) (s s1 : S) (a : A) :
  m s = (Ok a, s1) -> bind m k s = k a s1.
Proof. intros H. unfold bind. by rewrite H. Qed.

(** X3. [generate] opens the file and writes the header and the main
    section before it looks at the encryption: with an encryption other
    than [none] and [psk2] it raises [Encryption type not supported], and
    the configuration file is left behind, whatever it held before
    replaced by the new header and the sections written so far. *)
Theorem generate_unsupported_encryption
    (g : Wireless.HostapdConfGenerator) (path enc : string) (w : world)
    (main : Wireless.options) :
  Wireless.encryption (Wireless.wifiIface g) = Some enc ->
  enc <> "none" -> enc <> "psk2" ->
  Wireless.getMainOptions g = Ok main ->
  (Wireless.enable11n g = true -> exists o, Wireless.get11nOptions g = Ok o) ->
  (Wireless.enable11ac g = true -> exists o, Wireless.get11acOptions g = Ok o) ->
  exists w' header rest,
    Wireless.generate g path w
    = (Raise (Exception "Encryption type not supported"), w')
    /\ files w' !! path = Some (header ++ Py.nl :: rest)
    /\ length header = 7%nat
    /\ header !! 1%nat
       = Some ("# hostapd configuration file generated by pdconf" +:+ Py.nl).
Proof.
  intros Henc Hn Hp Hmain H11n H11ac. unfold Wireless.generate.
  edestruct (@bind_open_w) as (w0 & -> & H0).
  destruct (writeHeader_spec g path w0 [] H0) as (w1 & header & E1 & H1 & Hlen & Hh).
  rewrite (bind_ok_run _ _ _ _ _ E1), Hmain, bind_lift_ok.
  destruct (writeOptions_spec main path None w1 _ H1) as (w2 & s2 & E2 & H2).
  rewrite (bind_ok_run _ _ _ _ _ E2).
  assert (exists w3 s3,
             (if Wireless.enable11n g
              then opts <- lift (Wireless.get11nOptions g) ;;
                   Wireless.writeOptions opts path (Some "802.11n")
              else ret tt) w2 = (Ok tt, w3)
             /\ files w3 !! path = Some (header ++ Py.nl :: s3))
    as (w3 & s3 & E3 & H3).
  { destruct (Wireless.enable11n g).
    - destruct (H11n eq_refl) as [o ->]. rewrite bind_lift_ok.
      destruct (writeOptions_spec o path (Some "802.11n") w2 _ H2)
        as (w3 & s3 & E3 & H3).
      exists w3. eexists. split; [exact E3|].
      rewrite H3. cbn [app]. rewrite <- app_assoc. reflexivity.
    - exists w2, s2. split; [reflexivity|exact H2]. }
  rewrite (bind_ok_run _ _ _ _ _ E3).
  assert (exists w4 s4,
             (if Wireless.enable11ac g
              then opts <- lift (Wireless.get11acOptions g) ;;
                   Wireless.writeOptions opts path (Some "802.11ac")
              else ret tt) w3 = (Ok tt, w4)
             /\ files w4 !! path = Some (header ++ Py.nl :: s4))
    as (w4 & s4 & E4 & H4).
  { destruct (Wireless.enable11ac g).
    - destruct (H11ac eq_refl) as [o ->]. rewrite bind_lift_ok.
      destruct (writeOptions_spec o path (Some "802.11ac") w3 _ H3)
        as (w4 & s4 & E4 & H4).
      exists w4. eexists. split; [exact E4|].
      rewrite H4. rewrite <- app_assoc. reflexivity.
    - exists w3, s3. split; [reflexivity|exact H3]. }
  rewrite (bind_ok_run _ _ _ _ _ E4).
  unfold Wireless.getSecurityOptions. rewrite Henc.
  rewrite (string_eqb_neq _ _ Hn), (string_eqb_neq _ _ Hp).
  unfold bind, raise. cbn [out_warn].
  do 3 eexists. split; [reflexivity|]. cbn [files].
  split; [exact H4|]. split; [exact Hlen|exact Hh].
Qed.

Lemma generate_unsupported_encryption_witness :
  exists w' header rest,
    Wireless.generate
      (Examples.generator_of
         (Examples.wifi_iface "ap4" "ap" (Some "wep") (Some "secret")))
      "/tmp/hostapd-ap4.conf" Examples.empty_world
    = (Raise (Exception "Encryption type not supported"), w')
    /\ files w' !! "/tmp/hostapd-ap4.conf" = Some (header ++ Py.nl :: rest)
    /\ length header = 7%nat
    /\ header !! 1%nat
       = Some ("# hostapd configuration file generated by pdconf" +:+ Py.nl).
Proof.
  apply (generate_unsupported_encryption
           (Examples.generator_of
              (Examples.wifi_iface "ap4" "ap" (Some "wep") (Some "secret")))
           "/tmp/hostapd-ap4.conf" "wep" Examples.empty_world
           [("interface", VNone); ("ssid", VStr "Paradrop");
            ("channel", VInt 1); ("wmm_enabled", VInt 1)]).
  - reflexivity.
  - discriminate.
  - discriminate.
  - reflexivity.
  - intros H. discriminate H.
  - intros H. discriminate H.
Defined.

(** ** 802.11n and 802.11ac options *)

Lemma table_get_In (t : list (Z * Z)) (k v : Z) :
  Wireless.table_get t k = Some v -> In (k, v) t.
Proof.
  induction t as [|[k' v'] r IH]; cbn; [discriminate|].
  destruct (Z.eqb_spec k k') as [->|_].
  - intros [= ->]. by left.
  - intros H. right. by apply IH.
Qed.

Lemma prefix_append (p s : string) : String.prefix p (p +:+ s) = true.
Proof.
  induction p as [|c p IH]; [by destruct s|].
  rewrite append_cons_l. cbn [String.prefix].
  destruct (ascii_dec c c); [exact IH|congruence].
Qed.

(** The width code and the widest distance of a centre from its channel
    for the three wide modes. *)
Lemma vht_tables_checked :
  forallb (fun '(ch, c40) =>
    ((Wireless.channel_in ch Wireless.HT40_LOWER_CHANNELS
      && negb (Wireless.channel_in ch Wireless.HT40_UPPER_CHANNELS)
      && (c40 =? ch + 2))
     || (Wireless.channel_in ch Wireless.HT40_UPPER_CHANNELS
         && negb (Wireless.channel_in ch Wireless.HT40_LOWER_CHANNELS)
         && (c40 =? ch - 2)))
    && match Wireless.table_get Wireless.VHT80_CENTER_INDEX ch with
       | Some c80 => Z.abs (c80 - c40) =? 4
       | None => false
       end
    && match Wireless.table_get Wireless.VHT160_CENTER_INDEX ch,
             Wireless.table_get Wireless.VHT80_CENTER_INDEX ch with
       | Some c160, Some c80 => Z.abs (c160 - c80) =? 8
       | Some _, None => false
       | None, _ => true
       end)%bool Wireless.VHT40_CENTER_INDEX = true
  /\ forallb (fun '(ch, _) =>
       match Wireless.table_get Wireless.VHT40_CENTER_INDEX ch with
       | Some _ => true | None => false end)
       (Wireless.VHT80_CENTER_INDEX ++ Wireless.VHT160_CENTER_INDEX) = true.
Proof. split; vm_compute; reflexivity. Qed.

(** X4. The channel tables agree with each other. A channel of the 40 MHz
    table is in exactly one of the lower and upper HT40 sets, and its
    40 MHz centre is two above a lower channel and two below an upper
    one; the 80 MHz and 160 MHz tables list only channels of the 40 MHz
    table, the 80 MHz centre is four from the 40 MHz centre, and the
    160 MHz centre eight from the 80 MHz centre. *)
Theorem vht_tables_consistent (ch : Z) :
  (forall c40,
      Wireless.table_get Wireless.VHT40_CENTER_INDEX ch = Some c40 ->
      (Wireless.channel_in ch Wireless.HT40_LOWER_CHANNELS = true
       /\ Wireless.channel_in ch Wireless.HT40_UPPER_CHANNELS = false
       /\ c40 = ch + 2)
      \/ (Wireless.channel_in ch Wireless.HT40_UPPER_CHANNELS = true
          /\ Wireless.channel_in ch Wireless.HT40_LOWER_CHANNELS = false
          /\ c40 = ch - 2))
  /\ (forall c80,
        Wireless.table_get Wireless.VHT80_CENTER_INDEX ch = Some c80 ->
        exists c40,
          Wireless.table_get Wireless.VHT40_CENTER_INDEX ch = Some c40
          /\ Z.abs (c80 - c40) = 4)
  /\ (forall c160,
        Wireless.table_get Wireless.VHT160_CENTER_INDEX ch = Some c160 ->
        exists c80,
          Wireless.table_get Wireless.VHT80_CENTER_INDEX ch = Some c80
          /\ Z.abs (c160 - c80) = 8).
Proof.
  destruct vht_tables_checked as [H40 Hkeys].
  rewrite forallb_forall in H40. rewrite forallb_forall in Hkeys.
  assert (Hall : forall c40,
             Wireless.table_get Wireless.VHT40_CENTER_INDEX ch = Some c40 ->
             _) by (intros c40 H; exact (H40 (ch, c40) (table_get_In _ _ _ H))).
  cbv beta iota in Hall.
  split; [|split].
  - intros c40 H. specialize (Hall c40 H).
    rewrite !andb_true_iff, orb_true_iff, !andb_true_iff, !negb_true_iff in Hall.
    destruct Hall as [[[[[Hl Hu] Hc] | [[Hu Hl] Hc]] _] _];
      apply Z.eqb_eq in Hc; [left|right]; done.
  - intros c80 H.
    pose proof (Hkeys (ch, c80)
                  (in_or_app _ _ _ (or_introl (table_get_In _ _ _ H)))) as Hk.
    cbv beta iota in Hk.
    destruct (Wireless.table_get Wireless.VHT40_CENTER_INDEX ch) as [c40|] eqn:E;
      [|discriminate].
    specialize (Hall c40 eq_refl). rewrite H in Hall.
    rewrite !andb_true_iff in Hall. destruct Hall as [[_ Hd] _].
    exists c40. split; [reflexivity|]. by apply Z.eqb_eq.
  - intros c160 H.
    pose proof (Hkeys (ch, c160)
                  (in_or_app _ _ _ (or_intror (table_get_In _ _ _ H)))) as Hk.
    cbv beta iota in Hk.
    destruct (Wireless.table_get Wireless.VHT40_CENTER_INDEX ch) as [c40|] eqn:E;
      [|discriminate].
    specialize (Hall c40 eq_refl). rewrite H in Hall.
    rewrite !andb_true_iff in Hall. destruct Hall as [[_ H80] Hd].
    destruct (Wireless.table_get Wireless.VHT80_CENTER_INDEX ch) as [c80|];
      [|discriminate].
    exists c80. split; [reflexivity|]. by apply Z.eqb_eq.
Qed.

Lemma vht_tables_consistent_witness :
  Wireless.table_get Wireless.VHT160_CENTER_INDEX 36 = Some 50
  /\ exists c80,
      Wireless.table_get Wireless.VHT80_CENTER_INDEX 36 = Some c80
      /\ Z.abs (50 - c80) = 8.
Proof.
  split; [reflexivity|].
  exact (proj2 (proj2 (vht_tables_consistent 36)) 50 eq_refl).
Defined.

Lemma ht_capab_option (g : Wireless.HostapdConfGenerator) (h : string) :
  Wireless.htmode (Wireless.wifiDevice g) = Some h ->
  In h ["VHT40"; "VHT80"; "VHT160"] ->
  forall c40,
    Wireless.table_get Wireless.VHT40_CENTER_INDEX
      (Wireless.channel (Wireless.wifiDevice g)) = Some c40 ->
    exists n cap,
      Wireless.get11nOptions g = Ok n
      /\ In ("ht_capab", VStr cap) n
      /\ String.prefix
           (if Wireless.channel (Wireless.wifiDevice g) <? c40
            then "[HT40+]" else "[HT40-]") cap = true.
Proof.
  intros Hh Hin c40 H40.
  destruct (proj1 (vht_tables_consistent _) c40 H40)
    as [(Hl & Hu & ->) | (Hu & Hl & ->)].
  - unfold Wireless.get11nOptions. rewrite Hh.
    assert (Py.startswith "HT40" h = false) as ->
        by (cbn in Hin; intuition (subst; reflexivity)).
    assert (existsb (String.eqb h) ["VHT40"; "VHT80"; "VHT160"] = true) as ->
        by (cbn in Hin; intuition (subst; reflexivity)).
    rewrite Hl. destruct (Z.ltb_spec (Wireless.channel (Wireless.wifiDevice g))
                                     (Wireless.channel (Wireless.wifiDevice g) + 2));
      [|lia].
    do 2 eexists. split; [reflexivity|]. split.
    + apply in_or_app. right. apply in_or_app. left.
      unfold Wireless.when. rewrite string_length_append. cbn. by left.
    + apply prefix_append.
  - unfold Wireless.get11nOptions. rewrite Hh.
    assert (Py.startswith "HT40" h = false) as ->
        by (cbn in Hin; intuition (subst; reflexivity)).
    assert (existsb (String.eqb h) ["VHT40"; "VHT80"; "VHT160"] = true) as ->
        by (cbn in Hin; intuition (subst; reflexivity)).
    rewrite Hl, Hu.
    destruct (Z.ltb_spec (Wireless.channel (Wireless.wifiDevice g))
                         (Wireless.channel (Wireless.wifiDevice g) - 2)); [lia|].
    do 2 eexists. split; [reflexivity|]. split.
    + apply in_or_app. right. apply in_or_app. left.
      unfold Wireless.when. rewrite string_length_append. cbn. by left.
    + apply prefix_append.
Qed.

(** X5. The 802.11n and 802.11ac sections of a device in mode [VHT40],
    [VHT80] or [VHT160]. When the 802.11ac options are generated, the
    channel is one of the 40 MHz table; the width code is 0, 1 or 2 for
    the three modes; the centre index is the 40 MHz centre or 4, or at
    most 12, away from it; and the 802.11n options declare a secondary
    channel, [HT40+] exactly when the 40 MHz centre lies above the
    channel and [HT40-] otherwise. *)
Theorem vht_options_agree
    (g : Wireless.HostapdConfGenerator) (h : string) (ac : Wireless.options) :
  Wireless.htmode (Wireless.wifiDevice g) = Some h ->
  In h ["VHT40"; "VHT80"; "VHT160"] ->
  Wireless.get11acOptions g = Ok ac ->
  let ch := Wireless.channel (Wireless.wifiDevice g) in
  exists seg0 c40 n cap,
    Wireless.table_get Wireless.VHT40_CENTER_INDEX ch = Some c40
    /\ In ("vht_oper_centr_freq_seg0_idx", VInt seg0) ac
    /\ In ("vht_oper_chwidth",
           VInt (if String.eqb h "VHT40" then 0
                 else if String.eqb h "VHT80" then 1 else 2)) ac
    /\ Z.abs (seg0 - c40)
       <= (if String.eqb h "VHT40" then 0
           else if String.eqb h "VHT80" then 4 else 12)
    /\ Wireless.get11nOptions g = Ok n
    /\ In ("ht_capab", VStr cap) n
    /\ String.prefix (if ch <? c40 then "[HT40+]" else "[HT40-]") cap = true.
Proof.
  intros Hh Hin Hac ch.
  unfold Wireless.get11acOptions in Hac. rewrite Hh in Hac.
  unfold Wireless.table_index in Hac. fold ch in Hac.
  destruct (vht_tables_consistent ch) as (_ & H80 & H160).
  cbn in Hin. destruct Hin as [<- | [<- | [<- | []]]];
    cbn [Wireless.opt_string_eqb String.eqb Ascii.eqb Bool.eqb] in Hac;
    cbv iota in Hac.
  - destruct (Wireless.table_get Wireless.VHT40_CENTER_INDEX ch) as [c40|] eqn:E40;
      [|discriminate].
    injection Hac as <-.
    destruct (ht_capab_option g "VHT40" Hh ltac:(cbn; auto) c40 E40)
      as (n & cap & Hn & Hcap & Hpre).
    exists c40, c40, n, cap. split; [reflexivity|].
    split; [right; do 2 (apply in_or_app; right); cbn; auto|].
    split; [right; do 2 (apply in_or_app; right); cbn; auto|].
    split; [cbn; lia|]. done.
  - destruct (Wireless.table_get Wireless.VHT80_CENTER_INDEX ch) as [c80|] eqn:E80;
      [|discriminate].
    injection Hac as <-.
    destruct (H80 c80 eq_refl) as (c40 & E40 & Hd).
    destruct (ht_capab_option g "VHT80" Hh ltac:(cbn; auto) c40 E40)
      as (n & cap & Hn & Hcap & Hpre).
    exists c80, c40, n, cap. split; [exact E40|].
    split; [right; do 2 (apply in_or_app; right); cbn; auto|].
    split; [right; do 2 (apply in_or_app; right); cbn; auto|].
    split; [cbn; lia|]. done.
  - destruct (Wireless.table_get Wireless.VHT160_CENTER_INDEX ch) as [c160|] eqn:E160;
      [|discriminate].
    injection Hac as <-.
    destruct (H160 c160 eq_refl) as (c80 & E80 & Hd160).
    destruct (H80 c80 E80) as (c40 & E40 & Hd80).
    destruct (ht_capab_option g "VHT160" Hh ltac:(cbn; auto) c40 E40)
      as (n & cap & Hn & Hcap & Hpre).
    exists c160, c40, n, cap. split; [exact E40|].
    split; [right; do 2 (apply in_or_app; right); cbn; auto|].
    split; [right; do 2 (apply in_or_app; right); cbn; auto|].
    split; [cbn; lia|]. done.
Qed.

Lemma vht_options_agree_witness :
  exists seg0 c40 n cap,
    Wireless.table_get Wireless.VHT40_CENTER_INDEX 44 = Some c40
    /\ In ("vht_oper_centr_freq_seg0_idx", VInt seg0)
          [("ieee80211ac", VInt 1); ("vht_oper_chwidth", VInt 1);
           ("vht_oper_centr_freq_seg0_idx", VInt 42)]
    /\ In ("vht_oper_chwidth", VInt 1)
          [("ieee80211ac", VInt 1); ("vht_oper_chwidth", VInt 1);
           ("vht_oper_centr_freq_seg0_idx", VInt 42)]
    /\ Z.abs (seg0 - c40) <= 4
    /\ Wireless.get11nOptions (generator_vht "VHT80" 44) = Ok n
    /\ In ("ht_capab", VStr cap) n
    /\ String.prefix (if 44 <? c40 then "[HT40+]" else "[HT40-]") cap = true.
Proof.
  exact (vht_options_agree (generator_vht "VHT80" 44) "VHT80" _
           eq_refl (or_intror (or_introl eq_refl)) eq_refl).
Defined.

(** ** dhcp sections: the whole effect of [commands] *)

Lemma bind_open_w_run {B} (path : string) (k : unit -> M B) (w : world) :
  bind (open_w path) k w
  = k tt (World (<[path := []]> (files w)) (unreadable w) (log w) (spawned w)).
Proof. reflexivity. Qed.

Lemma bind_write_run {B} (path chunk : string) (k : unit -> M B)
      (fs : gmap string (list string)) (l : list string)
      (u : gset string) (lg : list string) (sp : list (list string * string)) :
  bind (write path chunk) k (World (<[path := l]> fs) u lg sp)
  = k tt (World (<[path := l ++ [chunk]]> fs) u lg sp).
Proof.
  unfold bind, write. cbn [files unreadable log spawned].
  rewrite lookup_insert_eq, insert_insert_eq. reflexivity.
Qed.

Lemma bind_write_each_run {B} (path : string) (chunks : list string)
      (k : unit -> M B) (fs : gmap string (list string)) (l : list string)
      (u : gset string) (lg : list string) (sp : list (list string * string)) :
  bind (write_each path chunks) k (World (<[path := l]> fs) u lg sp)
  = k tt (World (<[path := l ++ chunks]> fs) u lg sp).
Proof.
  revert l. induction chunks as [|c cs IH]; intros l.
  - cbn [write_each]. unfold bind at 1, ret. by rewrite app_nil_r.
  - cbn [write_each].
    change (bind (write path c ;;; write_each path cs) k)
      with (fun w => bind (bind (write path c) (fun _ => write_each path cs)) k w).
    cbv beta. unfold bind at 1.
    rewrite bind_write_run.
    specialize (IH (l ++ [c])). unfold bind at 1 in IH.
    rewrite IH, <- app_assoc. reflexivity.
Qed.

Lemma dhcp_commands_run (self : Dhcp.ConfigDhcp) (allConfigs : Dhcp.AllConfigs)
      (w : world) :
  (exists e, Dhcp.commands self allConfigs w = (Raise e, w))
  \/ exists iface network first last,
      Dhcp.lookup_interface allConfigs (Dhcp.interface self) = Ok iface
      /\ ipaddress.IPv4Network
           (Py.fmt_opt (Dhcp.ipaddr iface) +:+ "/"
              +:+ Py.fmt_opt (Dhcp.netmask iface)) = Ok network
      /\ ipaddress.add (ipaddress.network_address network) (Dhcp.start self)
         = Ok first
      /\ ipaddress.add first (Dhcp.limit self) = Ok last
      /\ Dhcp.commands self allConfigs w
         = (Ok ([(PRIO START_DAEMON,
                  ["/apps/bin/dnsmasq";
                   "--conf-file=" +:+ Dhcp.outputPath_of self;
                   "--pid-file=" +:+ Dhcp.pidFile_of self])],
                Dhcp.set_pidFile self (Dhcp.pidFile_of self)),
            World (<[Dhcp.outputPath_of self :=
                       dnsmasq_conf self iface
                         (Dhcp.lookup_dnsmasq_tryDefault allConfigs
                            (Dhcp.interface self)) first last]> (files w))
                  (unreadable w) (log w) (spawned w)).
Proof.
  unfold Dhcp.commands.
  destruct (Dhcp.lookup_interface allConfigs (Dhcp.interface self))
    as [iface|e] eqn:Hi; [|left; by eexists].
  rewrite bind_lift_ok.
  destruct (ipaddress.IPv4Network _) as [network|e] eqn:Hn; [|left; by eexists].
  rewrite bind_lift_ok.
  destruct (ipaddress.add (ipaddress.network_address network) (Dhcp.start self))
    as [first|e] eqn:Hf; [|left; by eexists].
  rewrite bind_lift_ok.
  destruct (ipaddress.add first (Dhcp.limit self)) as [last|e] eqn:Hl;
    [|left; by eexists].
  rewrite bind_lift_ok.
  right. exists iface, network, first, last.
  do 4 (split; [first [assumption | reflexivity]|]).
  rewrite bind_open_w_run. rewrite !bind_write_run, bind_write_each_run.
  unfold dnsmasq_conf.
  destruct (Dhcp.noresolv _).
  - rewrite bind_write_run, bind_write_each_run, !bind_write_run.
    unfold ret. do 3 f_equal. cbn [app]. rewrite <- !app_assoc. reflexivity.
  - unfold bind at 1, ret at 1.
    rewrite bind_write_each_run, !bind_write_run.
    unfold ret. do 3 f_equal. cbn [app]. rewrite <- !app_assoc. reflexivity.
Qed.

Lemma ipaddress_add_inv (a n r : Z) :
  ipaddress.add a n = Ok r -> r = a + n /\ 0 <= r <= ipaddress.ALL_ONES.
Proof.
  unfold ipaddress.add, ipaddress.IPv4Address.
  destruct (Z.ltb_spec (a + n) 0); [discriminate|].
  destruct (Z.ltb_spec ipaddress.ALL_ONES (a + n)); [discriminate|].
  intros [= <-]. lia.
Qed.

Lemma dhcp_pidFile_not_outputPath (self : Dhcp.ConfigDhcp) :
  Dhcp.pidFile_of self <> Dhcp.outputPath_of self.
Proof.
  intros H. apply (f_equal String.length) in H.
  unfold Dhcp.pidFile_of, Dhcp.outputPath_of in H.
  rewrite !string_length_append in H. cbn in H. lia.
Qed.

(** X6. The whole effect of [commands] of a dhcp section. A failing call
    leaves the host as it was: every error is raised before the file is
    opened. A successful call replaces [dnsmasq-<interface>.conf], whatever
    it held before, by the header, the [interface], [dhcp-range] and
    [dhcp-leasefile] lines, one [dhcp-option] line per option, [no-resolv]
    and the [server] lines of the dnsmasq section of the same name (none
    of them when there is no such section), [except-interface=lo] and
    [bind-interfaces]; the range runs from the network address plus
    [start] to that plus [limit]; no other file, no log line and no
    process is touched; and the single command starts dnsmasq on that
    file. *)
Theorem dhcp_commands_effect
    (self : Dhcp.ConfigDhcp) (allConfigs : Dhcp.AllConfigs) (w : world) :
  match Dhcp.commands self allConfigs w with
  | (Raise _, w') => w' = w
  | (Ok (cmds, self'), w') =>
      exists iface network,
        Dhcp.lookup_interface allConfigs (Dhcp.interface self) = Ok iface
        /\ ipaddress.IPv4Network
             (Py.fmt_opt (Dhcp.ipaddr iface) +:+ "/"
                +:+ Py.fmt_opt (Dhcp.netmask iface)) = Ok network
        /\ files w'
           = <[Dhcp.outputPath_of self :=
                 dnsmasq_conf self iface
                   (default Dhcp.ConfigDnsmasq_default
                      (Dhcp.dnsmasqs allConfigs !! Dhcp.interface self))
                   (ipaddress.network_address network + Dhcp.start self)
                   (ipaddress.network_address network + Dhcp.start self
                      + Dhcp.limit self)]> (files w)
        /\ unreadable w' = unreadable w /\ log w' = log w
        /\ spawned w' = spawned w
        /\ cmds = [(PRIO START_DAEMON,
                    ["/apps/bin/dnsmasq";
                     "--conf-file=" +:+ Dhcp.outputPath_of self;
                     "--pid-file=" +:+ Dhcp.pidFile_of self])]
  end.
Proof.
  destruct (dhcp_commands_run self allConfigs w)
    as [(e & ->) | (iface & network & first & last & Hi & Hn & Hf & Hl & ->)];
    [reflexivity|].
  apply ipaddress_add_inv in Hf as [-> _].
  apply ipaddress_add_inv in Hl as [-> _].
  exists iface, network. cbn [files unreadable log spawned].
  repeat split; assumption.
Qed.

(** X7. [commands] followed by [undoCommands] on a dhcp section. After a
    successful [commands], the path in the [--pid-file] argument of the
    dnsmasq command is a file [commands] itself did not touch, and it is
    the file [undoCommands] of the section reads: on a host where it
    holds a PID the result is the single command [kill <PID>] with
    nothing changed, and on a host where it does not exist the
    result is no command and one warning naming that path. *)
Theorem dhcp_commands_then_undoCommands
    (self self' : Dhcp.ConfigDhcp) (allConfigs : Dhcp.AllConfigs) (w w' : world)
    (cmds : list (priority * list string)) :
  Dhcp.commands self allConfigs w = (Ok (cmds, self'), w') ->
  exists conf pid,
    cmds = [(PRIO START_DAEMON,
             ["/apps/bin/dnsmasq"; "--conf-file=" +:+ conf;
              "--pid-file=" +:+ pid])]
    /\ files w' !! pid = files w !! pid
    /\ (forall w2 chunks,
          files w2 !! pid = Some chunks -> pid ∉ unreadable w2 ->
          Dhcp.undoCommands self' allConfigs w2
          = (Ok [(PRIO START_DAEMON,
                  ["kill";
                   Py.strip (fold_right String.append EmptyString chunks)])],
             w2))
    /\ (forall w2,
          files w2 !! pid = None ->
          exists w3,
            Dhcp.undoCommands self' allConfigs w2 = (Ok [], w3)
            /\ log w3 = log w2 ++ ["WARN: File not found: " +:+ pid +:+ Py.nl]
            /\ files w3 = files w2 /\ spawned w3 = spawned w2).
Proof.
  intros Hrun.
  destruct (dhcp_commands_run self allConfigs w)
    as [(e & He) | (iface & network & first & last & _ & _ & _ & _ & He)];
    rewrite He in Hrun; [discriminate|].
  injection Hrun as <- <- <-.
  exists (Dhcp.outputPath_of self), (Dhcp.pidFile_of self).
  split; [reflexivity|]. split.
  { cbn [files]. apply lookup_insert_ne.
    intros H. by apply (dhcp_pidFile_not_outputPath self). }
  split.
  - intros w2 chunks Hc Hr. unfold Dhcp.undoCommands, read_file.
    cbn [Dhcp.pidFile Dhcp.set_pidFile].
    destruct (decide (Dhcp.pidFile_of self ∈ unreadable w2)); [done|].
    rewrite Hc. reflexivity.
  - intros w2 Hc. unfold Dhcp.undoCommands, read_file.
    cbn [Dhcp.pidFile Dhcp.set_pidFile].
    destruct (decide (Dhcp.pidFile_of self ∈ unreadable w2));
      [|rewrite Hc]; eexists; (split; [reflexivity|]); cbn; done.
Qed.

Lemma dhcp_commands_then_undoCommands_witness :
  exists self' w' conf pid,
    Dhcp.commands Examples.dhcp_lan Examples.dhcp_configs Examples.empty_world
    = (Ok ([(PRIO START_DAEMON,
             ["/apps/bin/dnsmasq"; "--conf-file=" +:+ conf;
              "--pid-file=" +:+ pid])], self'), w')
    /\ pid = "/tmp/dnsmasq-lan.pid"
    /\ Dhcp.undoCommands self' Examples.dhcp_configs Examples.world_with_pid
       = (Ok [(PRIO START_DAEMON, ["kill"; "12345"])], Examples.world_with_pid).
Proof.
  destruct (Dhcp.commands Examples.dhcp_lan Examples.dhcp_configs
                          Examples.empty_world) as [[[cmds self']|e] w'] eqn:E;
    [|vm_compute in E; discriminate].
  destruct (dhcp_commands_then_undoCommands _ _ _ _ _ _ E)
    as (conf & pid & -> & _ & Hkill & _).
  assert (Hp : pid = "/tmp/dnsmasq-lan.pid").
  { vm_compute in E. congruence. }
  exists self', w', conf, pid. split; [reflexivity|]. split; [exact Hp|].
  subst pid.
  refine (Hkill Examples.world_with_pid ["12345" +:+ Py.nl] _ _).
  - vm_compute. reflexivity.
  - vm_compute. set_solver.
Defined.

(** ** Subnets and addresses of the interface records *)

(** What one pass through the loop body leaves in the record and in the
    loop state. *)
Lemma loop_body_addresses (chuteName name : string) (cfg : Network.NetCfg)
      (s s' : Network.loop_state) (iface : Network.Iface) :
  Network.loop_body chuteName (name, cfg) s = (Ok iface, s') ->
  exists subnet intf,
    Network.st_pool s = subnet :: Network.st_pool s'
    /\ Network.st_world s' = Network.st_world s
    /\ Network.intfName cfg = Some intf
    /\ ipaddress.network_address subnet + 2 < ipaddress.broadcast_address subnet
    /\ Network.name iface = name
    /\ Network.internalIntf iface = intf
    /\ Network.externalIntf iface = Network.make_externalIntf chuteName intf
    /\ Network.netmask iface = ipaddress.str (ipaddress.netmask subnet)
    /\ Network.externalIpaddr iface
       = ipaddress.str (ipaddress.network_address subnet + 1)
    /\ Network.internalIpaddr iface
       = ipaddress.str (ipaddress.network_address subnet + 2)
    /\ Network.ipaddrWithPrefix iface
       = ipaddress.str (ipaddress.network_address subnet + 2) +:+ "/"
           +:+ Py.str_of_int (ipaddress.prefixlen subnet).
Proof.
  unfold Network.loop_body, Network.warn, Network.networkPool_next,
    Network.next_host, Network.wifiIter_next, Network.pool_next,
    ipaddress.nth_host, bind, ret, raise.
  intros H. inv_body.
  all: cbn [Network.st_pool Network.st_wifi Network.st_world Network.name
            Network.internalIntf Network.externalIntf Network.netmask
            Network.externalIpaddr Network.internalIpaddr
            Network.ipaddrWithPrefix] in *.
  all: do 2 eexists; repeat (split; [try reflexivity; try eassumption|]).
  all: repeat match goal with
              | H : (_ <? _) = true |- _ => apply Z.ltb_lt in H
              end.
  all: try (cbn [Z.of_nat] in *; rewrite ?Z.add_0_r in *;
            change (Z.pos (Pos.of_succ_nat 0)) with 1 in *).
  all: try lia.
  all: try (do 2 f_equal; lia).
  all: try (f_equal; lia).
Qed.

Lemma loop_addresses (chuteName : string) (net : list (string * Network.NetCfg))
      (s s' : Network.loop_state) (ifaces : list Network.Iface) :
  Network.loop chuteName net s = (Ok ifaces, s') ->
  exists used,
    Network.st_pool s = used ++ Network.st_pool s'
    /\ Network.st_world s' = Network.st_world s
    /\ Forall3 (served_from chuteName) net used ifaces.
Proof.
  revert s ifaces.
  induction net as [|[name cfg] rest IH]; intros s ifaces; cbn [Network.loop].
  - intros [= <- <-]. exists []. repeat split. constructor.
  - unfold bind at 1.
    destruct (Network.loop_body chuteName (name, cfg) s) as [[i0|e] s1] eqn:Hb;
      [|discriminate].
    unfold bind at 1.
    destruct (Network.loop chuteName rest s1) as [[is1|e] s2] eqn:Hl;
      [|discriminate].
    intros [= <- <-].
    destruct (loop_body_addresses _ _ _ _ _ _ Hb)
      as (subnet & intf & Hp & Hw & Hi & Hlt & Hn & Hii & He & Hm & Hx & Hy & Hz).
    destruct (IH _ _ Hl) as (used & Hp1 & Hw1 & HF).
    exists (subnet :: used). split; [by rewrite Hp, Hp1|].
    split; [congruence|].
    constructor; [|exact HF].
    unfold served_from. cbn [fst snd]. rewrite Hii.
    repeat split; assumption.
Qed.

(** X8. Subnets of a chute's interfaces. When [getNetworkConfig] succeeds
    on an update with a [net] map, the pool has lost exactly its first
    subnets, one for each request and in the order of the requests; the
    record of a request keeps the request's key as [name] and its
    [intfName] as [internalIntf], and holds the netmask of its subnet, the
    subnet's first address as the host side, its second as the chute side
    (which is below the broadcast address), and the chute side with the
    prefix length as [ipaddrWithPrefix]. Nothing is logged and no file or
    process is touched. *)
Theorem getNetworkConfig_subnets
    (update update' : Network.Update) (p p' : Network.pool) (w w' : world)
    (items : list (string * Network.NetCfg)) :
  Network.net update = Some items ->
  Network.getNetworkConfig update p w = (Ok update', p', w') ->
  exists used ifaces,
    p = used ++ p'
    /\ w' = w
    /\ Network.networkInterfaces (Network.new update') = Some ifaces
    /\ Forall3 (served_from (Network.chute_name (Network.new update)))
               items used ifaces.
Proof.
  intros Hnet. unfold Network.getNetworkConfig. rewrite Hnet.
  destruct (Network.loop _ _ _) as [[ifaces|e] s'] eqn:Hl; [|discriminate].
  intros [= <- <- <-].
  destruct (loop_addresses _ _ _ _ _ Hl) as (used & Hp & Hw & HF).
  exists used, ifaces. cbn in Hp, Hw. repeat split; try assumption.
Qed.

Lemma getNetworkConfig_subnets_witness :
  exists update' ifaces,
    Network.getNetworkConfig (Examples.wifi_update Examples.two_radios)
                             Examples.three_subnets Examples.empty_world
    = (Ok update', [], Examples.empty_world)
    /\ Network.networkInterfaces (Network.new update') = Some ifaces
    /\ Forall3 (served_from "seccam") Examples.wifi_items
               Examples.three_subnets ifaces.
Proof.
  destruct (Network.getNetworkConfig (Examples.wifi_update Examples.two_radios)
              Examples.three_subnets Examples.empty_world)
    as [[[update'|e] p'] w'] eqn:E; [|vm_compute in E; discriminate].
  destruct (getNetworkConfig_subnets
              (Examples.wifi_update Examples.two_radios) update' _ _ _ _
              Examples.wifi_items eq_refl E)
    as (used & ifaces & Hp & -> & Hc & HF).
  assert (Hp' : p' = []) by (vm_compute in E; congruence).
  subst p'. rewrite app_nil_r in Hp. subst used.
  exists update', ifaces. repeat split; assumption.
Defined.

(** ** Failures of [getNetworkConfig] *)

Lemma loop_body_failure (chuteName : string) (item : string * Network.NetCfg)
      (s s' : Network.loop_state) (e : exn) :
  Network.loop_body chuteName item s = (Raise e, s') ->
  exists drawn,
    Network.st_pool s = drawn ++ Network.st_pool s'
    /\ (length drawn <= 1)%nat
    /\ files (Network.st_world s') = files (Network.st_world s)
    /\ unreadable (Network.st_world s') = unreadable (Network.st_world s)
    /\ spawned (Network.st_world s') = spawned (Network.st_world s)
    /\ network_failure e (log (Network.st_world s)) (log (Network.st_world s'))
                       drawn (Network.st_pool s').
Proof.
  destruct item as [name cfg].
  unfold Network.loop_body, Network.warn, Network.networkPool_next,
    Network.next_host, Network.wifiIter_next, Network.pool_next,
    ipaddress.nth_host, out_warn, bind, ret, raise.
  intros H.
  repeat match goal with
         | H : (?a, _) = (?a, _) |- _ => injection H as ?; subst
         | H : (_, _) = (_, _) |- _ => injection H as ? ?; subst
         | H : Ok _ = Ok _ |- _ => injection H as ?; subst
         | H : Raise _ = Raise _ |- _ => injection H as ?; subst
         | H : Some _ = Some _ |- _ => injection H as ?; subst
         | H : (Ok _, _) = (Raise _, _) |- _ => discriminate H
         | H : context [match ?x with _ => _ end] |- _ =>
             destruct x eqn:?; try discriminate H
         end.
  all: cbn [Network.st_pool Network.st_wifi Network.st_world
            files unreadable log spawned snd] in *.
  all: repeat match goal with
              | H : (_ <? _) = false |- _ => apply Z.ltb_ge in H
              end.
  all: try (exists []; cbn [app length];
            repeat (split; [first [assumption|reflexivity|lia]|]);
            unfold network_failure;
            first [ left; split; [cbn; tauto | eexists; reflexivity]
                  | right; left; repeat split; congruence ]).
  all: try (eexists [_]; cbn [app length];
            repeat (split; [first [eassumption|reflexivity|lia]|]);
            unfold network_failure;
            first [ left; split; [cbn; tauto | eexists; reflexivity]
                  | right; right; repeat (split; [reflexivity|]);
                    eexists; split; [reflexivity|]; cbn [Z.of_nat] in *; lia ]).
Qed.

Lemma loop_failure (chuteName : string) (net : list (string * Network.NetCfg))
      (s s' : Network.loop_state) (e : exn) :
  Network.loop chuteName net s = (Raise e, s') ->
  exists used drawn,
    Network.st_pool s = used ++ drawn ++ Network.st_pool s'
    /\ (length used < length net)%nat
    /\ (length drawn <= 1)%nat
    /\ files (Network.st_world s') = files (Network.st_world s)
    /\ unreadable (Network.st_world s') = unreadable (Network.st_world s)
    /\ spawned (Network.st_world s') = spawned (Network.st_world s)
    /\ network_failure e (log (Network.st_world s)) (log (Network.st_world s'))
                       drawn (Network.st_pool s').
Proof.
  revert s.
  induction net as [|item rest IH]; intros s; cbn [Network.loop];
    [discriminate|].
  unfold bind at 1.
  destruct (Network.loop_body chuteName item s) as [[i0|e0] s1] eqn:Hb.
  - unfold bind at 1.
    destruct (Network.loop chuteName rest s1) as [[is1|e1] s2] eqn:Hl;
      [discriminate|].
    intros [= <- <-]. destruct item as [name cfg].
    destruct (loop_body_addresses _ _ _ _ _ _ Hb)
      as (subnet & intf & Hp & Hw & _).
    destruct (IH _ Hl) as (used & drawn & Hp1 & Hlen & Hd & Hf & Hu & Hs & Hn).
    exists (subnet :: used), drawn. rewrite Hw in Hf, Hu, Hs, Hn.
    split; [by rewrite Hp, Hp1|]. cbn [length].
    repeat (split; [first [assumption|lia]|]). exact Hn.
  - intros [= <- <-].
    destruct (loop_body_failure _ _ _ _ _ Hb)
      as (drawn & Hp & Hd & Hf & Hu & Hs & Hn).
    exists [], drawn. cbn [app length].
    repeat (split; [first [assumption|lia]|]). exact Hn.
Qed.

(** X9. Failures of [getNetworkConfig]. A failing call raises one of five
    exceptions. The three checks of the requests (key longer than ten
    characters, missing field, no WiFi device) add exactly one warning to
    the log; an exhausted pool and a subnet without two host addresses add
    none. Files and processes are never touched. The subnets drawn before
    the failure are not given back: the pool is left without those of
    the requests already served and, at most, the one of the failing
    request. *)
Theorem getNetworkConfig_failure
    (update : Network.Update) (p p' : Network.pool) (w w' : world)
    (items : list (string * Network.NetCfg)) (e : exn) :
  Network.net update = Some items ->
  Network.getNetworkConfig update p w = (Raise e, p', w') ->
  exists used drawn,
    p = used ++ drawn ++ p'
    /\ (length used < length items)%nat
    /\ (length drawn <= 1)%nat
    /\ files w' = files w /\ unreadable w' = unreadable w
    /\ spawned w' = spawned w
    /\ network_failure e (log w) (log w') drawn p'.
Proof.
  intros Hnet. unfold Network.getNetworkConfig. rewrite Hnet.
  destruct (Network.loop _ _ _) as [[ifaces|e0] s'] eqn:Hl; [discriminate|].
  intros [= <- <- <-].
  apply loop_failure in Hl. exact Hl.
Qed.

Lemma getNetworkConfig_failure_witness :
  exists w' used drawn,
    Network.getNetworkConfig (Examples.wifi_update []) Examples.three_subnets
                             Examples.empty_world
    = (Raise (Exception "Missing WiFi device(s) requested by chute"),
       [Examples.subnet_of 1; Examples.subnet_of 2], w')
    /\ Examples.three_subnets
       = used ++ drawn ++ [Examples.subnet_of 1; Examples.subnet_of 2]
    /\ network_failure (Exception "Missing WiFi device(s) requested by chute")
         [] (log w') drawn [Examples.subnet_of 1; Examples.subnet_of 2].
Proof.
  destruct (Network.getNetworkConfig (Examples.wifi_update [])
              Examples.three_subnets Examples.empty_world)
    as [[[u|e] p'] w'] eqn:E; [vm_compute in E; discriminate|].
  destruct (getNetworkConfig_failure (Examples.wifi_update []) _ _ _ _
              Examples.wifi_items e eq_refl E)
    as (used & drawn & Hp & Hlen & Hd & _ & _ & _ & Hn).
  assert (He : e = Exception "Missing WiFi device(s) requested by chute"
               /\ p' = [Examples.subnet_of 1; Examples.subnet_of 2]).
  { vm_compute in E. injection E as <- <- _. split; reflexivity. }
  destruct He as [-> ->].
  exists w', used, drawn. split; [reflexivity|]. split; [exact Hp|exact Hn].
Defined.

(** ** The OS configuration of a chute's interfaces *)

(** X10. [getNetworkConfig] followed by [getOSNetworkConfig]. After a
    successful [getNetworkConfig] on an update with a [net] map, the OS
    configuration has one section per request, in the order of the
    requests. The section of a request is an [interface] section named
    after the host-side interface (the chute name cut as
    [make_externalIntf] does, a dot, the request's [intfName]); its
    options are exactly [type], [proto], [ipaddr], [netmask] and [ifname]:
    a static bridge on that interface with the first address and the
    netmask of the subnet drawn for the request, the chute-side address
    appearing nowhere in it. *)
Theorem getOSNetworkConfig_after_getNetworkConfig
    (update update' : Network.Update) (p p' : Network.pool) (w w' : world)
    (items : list (string * Network.NetCfg)) :
  Network.net update = Some items ->
  Network.getNetworkConfig update p w = (Ok update', p', w') ->
  exists used sections,
    p = used ++ p'
    /\ OSNetwork.getOSNetworkConfig update' = Some sections
    /\ Forall3
         (fun item subnet sec =>
            exists intf,
              Network.intfName (snd item) = Some intf
              /\ let ext :=
                   Network.make_externalIntf
                     (Network.chute_name (Network.new update)) intf in
                 fst sec = {[ "type" := "interface"; "name" := ext ]}
                 /\ snd sec
                    = {[ "type" := "bridge"; "proto" := "static";
                         "ipaddr" :=
                           ipaddress.str (ipaddress.network_address subnet + 1);
                         "netmask" := ipaddress.str (ipaddress.netmask subnet);
                         "ifname" := ext ]})
         items used sections.
Proof.
  intros Hnet. unfold Network.getNetworkConfig. rewrite Hnet.
  destruct (Network.loop _ _ _) as [[ifaces|e] s'] eqn:Hl; [|discriminate].
  intros [= <- <- <-].
  destruct (loop_addresses _ _ _ _ _ Hl) as (used & Hp & _ & HF).
  exists used, (map OSNetwork.bridge_section ifaces).
  split; [exact Hp|]. split; [reflexivity|].
  clear Hl Hp Hnet. induction HF as [|item subnet iface la lb lc H HF IH];
    cbn [map]; [constructor|].
  constructor; [|exact IH].
  destruct H as (_ & _ & Hi & He & Hm & Hx & _).
  exists (Network.internalIntf iface). split; [exact Hi|].
  unfold OSNetwork.bridge_section. cbn [fst snd].
  rewrite He, Hm, Hx. split; reflexivity.
Qed.

Lemma getOSNetworkConfig_after_getNetworkConfig_witness :
  exists update' sections,
    Network.getNetworkConfig (Examples.wifi_update Examples.two_radios)
                             Examples.three_subnets Examples.empty_world
    = (Ok update', [], Examples.empty_world)
    /\ OSNetwork.getOSNetworkConfig update' = Some sections
    /\ (fun sec => snd sec !! "ipaddr") <$> sections
       = [Some "192.168.0.1"; Some "192.168.1.1"; Some "192.168.2.1"].
Proof.
  destruct (Network.getNetworkConfig (Examples.wifi_update Examples.two_radios)
              Examples.three_subnets Examples.empty_world)
    as [[[update'|e] p'] w'] eqn:E; [|vm_compute in E; discriminate].
  destruct (getOSNetworkConfig_after_getNetworkConfig
              (Examples.wifi_update Examples.two_radios) update' _ _ _ _
              Examples.wifi_items eq_refl E)
    as (used & sections & Hp & Hs & HF).
  assert (Hpw : p' = [] /\ w' = Examples.empty_world).
  { vm_compute in E. injection E as _ <- <-. split; reflexivity. }
  destruct Hpw as [-> ->].
  rewrite app_nil_r in Hp. subst used.
  exists update', sections. split; [reflexivity|]. split; [exact Hs|].
  unfold Examples.wifi_items, Examples.three_subnets in HF.
  repeat match goal with
         | H : Forall3 _ (_ :: _) _ _ |- _ => inversion H; subst; clear H
         | H : Forall3 _ [] _ _ |- _ => inversion H; subst; clear H
         end.
  repeat match goal with
         | H : exists _, _ |- _ => destruct H as (? & _ & _ & H)
         end.
  cbn [fmap list_fmap].
  repeat match goal with
         | H : snd ?c = _ |- _ => rewrite H; clear H
         end.
  repeat f_equal; by simplify_map_eq.
Defined.

(** ** Pulling and building images *)

Lemma count_status_cons (what : string) (data : Dockerapi.pull_line)
      (rest : list Dockerapi.pull_line) :
  count_status what (data :: rest)
  = ((if has_status what data then 1 else 0) + count_status what rest)%nat.
Proof.
  unfold count_status. cbn [List.filter]. by destruct (has_status what data).
Qed.

Lemma pull_messages_cons (data : Dockerapi.pull_line)
      (rest : list Dockerapi.pull_line) :
  pull_messages (data :: rest)
  = match reported data with
    | Some r => [Dockerapi.EvProgress (fst r +:+ ": " +:+ snd r)]
    | None => []
    end ++ pull_messages rest.
Proof.
  unfold pull_messages. cbn [omap list_omap]. by destruct (reported data).
Qed.

Lemma pull_loop_counts (output : list Dockerapi.pull_line) (layers complete : nat)
      (s : Dockerapi.engine_state) :
  exists s',
    Dockerapi.pull_loop output layers complete s
    = (Ok ((layers + count_status "pulling fs layer" output)%nat,
           (complete + count_status "pull complete" output)%nat), s')
    /\ Dockerapi.grows_by s s' (pull_messages output).
Proof.
  revert layers complete s.
  induction output as [|data rest IH]; intros layers complete s.
  - exists s. cbn. rewrite !Nat.add_0_r. split; [reflexivity|apply grows_by_refl].
  - cbn [Dockerapi.pull_loop]. rewrite !count_status_cons, pull_messages_cons.
    unfold has_status, reported.
    destruct (Dockerapi.progressDetail_empty data);
      [destruct (Dockerapi.status data) as [st|];
       [destruct (Dockerapi.id data) as [i|]|]|].
    2-4: destruct (IH layers complete s) as (s' & E & G);
         exists s'; cbn [Nat.add app]; split; [exact E|exact G].
    unfold bind at 1, Dockerapi.progress, Dockerapi.emit.
    cbn [fst snd].
    set (s1 := Dockerapi.EngineState _ _ _).
    assert (G1 : Dockerapi.grows_by s s1
                   [Dockerapi.EvProgress (st +:+ ": " +:+ i)])
      by (by unfold Dockerapi.grows_by).
    destruct (String.eqb (Py.lower (Py.strip st)) "pulling fs layer") eqn:E1.
    + apply String.eqb_eq in E1. rewrite E1.
      change (String.eqb "pulling fs layer" "pull complete") with false.
      destruct (IH (S layers) complete s1) as (s' & E & G).
      exists s'. rewrite E. split; [do 3 f_equal; lia|].
      apply (grows_by_trans _ _ _ _ _ G1 G).
    + destruct (String.eqb (Py.lower (Py.strip st)) "pull complete") eqn:E2.
      * destruct (IH layers (S complete) s1) as (s' & E & G).
        exists s'. rewrite E. split; [do 3 f_equal; lia|].
        apply (grows_by_trans _ _ _ _ _ G1 G).
      * destruct (IH layers complete s1) as (s' & E & G).
        exists s'. rewrite E. split; [reflexivity|].
        apply (grows_by_trans _ _ _ _ _ G1 G).
Qed.

(** X11. The verdict of [_pullImage]. When the registry answers, the call
    reports [Pulling image], asks for the pull, reports each output line
    that has no progress detail and has a status and an id, and then the
    counts; it returns [True] exactly when at least one of those lines
    says [Pull complete] and as many say [Pull complete] as say
    [Pulling fs layer] (blanks and case apart). A pull in which no layer
    completes, such as that of an image already present, counts as
    failed. *)
Theorem pullImage_verdict
    (client : Dockerapi.docker) (update : Dockerapi.Update)
    (s : Dockerapi.engine_state) (image : string)
    (output : list Dockerapi.pull_line) :
  Dockerapi.external_image (Dockerapi.new update) = Some image ->
  Dockerapi.pull client image = Ok output ->
  let layers := count_status "pulling fs layer" output in
  let complete := count_status "pull complete" output in
  exists s',
    Dockerapi._pullImage client update s
    = (Ok ((0 <? complete)%nat && (complete =? layers)%nat)%bool, s')
    /\ Dockerapi.grows_by s s'
         ([Dockerapi.EvProgress ("Pulling image: " +:+ image);
           Dockerapi.EvPull image]
          ++ pull_messages output
          ++ [Dockerapi.EvProgress
                ("Finished pulling " +:+ Py.str_of_int (Z.of_nat complete)
                   +:+ " / " +:+ Py.str_of_int (Z.of_nat layers)
                   +:+ " layers")]).
Proof.
  intros Himg Hpull layers complete. unfold Dockerapi._pullImage.
  rewrite Himg. unfold bind at 1, Dockerapi.progress at 1, Dockerapi.emit at 1.
  unfold bind at 1, Dockerapi.emit at 1.
  rewrite Hpull. unfold bind at 1, lift at 1. unfold bind at 1.
  match goal with
  | |- context [Dockerapi.pull_loop output 0 0 ?s1] =>
      destruct (pull_loop_counts output 0 0 s1) as (s2 & E & G)
  end.
  rewrite E. cbn [Nat.add]. fold layers complete.
  unfold bind at 1, Dockerapi.progress at 1, Dockerapi.emit at 1, ret.
  eexists. split; [reflexivity|].
  destruct G as (Gh & Ge & Go). unfold Dockerapi.grows_by.
  cbn [Dockerapi.host Dockerapi.events Dockerapi.objects] in *.
  rewrite Gh, Ge, Go. repeat split. rewrite <- !app_assoc. reflexivity.
Qed.

Lemma pullImage_verdict_witness :
  exists s',
    Dockerapi._pullImage (Examples.engine Examples.pull_complete)
                         (Examples.update_with None None) Examples.engine_start
    = (Ok true, s')
    /\ Dockerapi.grows_by Examples.engine_start s'
         [Dockerapi.EvProgress "Pulling image: registry.exis.io/seccam";
          Dockerapi.EvPull "registry.exis.io/seccam";
          Dockerapi.EvProgress "Pulling fs layer: 862a3e9af0ae";
          Dockerapi.EvProgress "Pull complete: 862a3e9af0ae";
          Dockerapi.EvProgress "Finished pulling 1 / 1 layers"].
Proof.
  exact (pullImage_verdict (Examples.engine Examples.pull_complete)
           (Examples.update_with None None) Examples.engine_start
           "registry.exis.io/seccam" Examples.pull_complete eq_refl eq_refl).
Defined.

Lemma report_values_messages (vals : list (option string))
      (s : Dockerapi.engine_state) :
  exists s',
    Dockerapi.report_values vals s = (Ok tt, s')
    /\ Dockerapi.grows_by s s'
         (map Dockerapi.EvProgress
              (List.filter build_message_ok (map Py.rstrip (omap id vals)))).
Proof.
  revert s. induction vals as [|[v|] rest IH]; intros s.
  - exists s. split; [reflexivity|apply grows_by_refl].
  - cbn [Dockerapi.report_values omap list_omap id map List.filter].
    fold (build_message_ok (Py.rstrip v)).
    destruct (build_message_ok (Py.rstrip v)).
    + unfold bind at 1, Dockerapi.progress, Dockerapi.emit.
      set (s1 := Dockerapi.EngineState _ _ _).
      destruct (IH s1) as (s' & E & G). exists s'. split; [exact E|].
      cbn [map].
      apply (grows_by_trans s s1 s' [Dockerapi.EvProgress (Py.rstrip v)]);
        [by unfold Dockerapi.grows_by|exact G].
    + unfold bind at 1, ret at 1. apply IH.
  - cbn [Dockerapi.report_values omap list_omap id]. apply IH.
Qed.

Lemma build_messages_cons (line : Dockerapi.build_line)
      (rest : list Dockerapi.build_line) :
  build_messages (line :: rest)
  = List.filter build_message_ok
                (map Py.rstrip (omap id (Dockerapi.values line)))
    ++ build_messages rest.
Proof.
  unfold build_messages. cbn [map concat].
  rewrite omap_app, map_app, List.filter_app. reflexivity.
Qed.

Lemma build_loop_verdict (output : list Dockerapi.build_line) (b : bool)
      (s : Dockerapi.engine_state) :
  exists s',
    Dockerapi.build_loop output b s
    = (Ok (b && forallb (fun line => negb (Dockerapi.has_errorDetail line))
                        output)%bool, s')
    /\ Dockerapi.grows_by s s' (map Dockerapi.EvProgress (build_messages output)).
Proof.
  revert b s. induction output as [|line rest IH]; intros b s.
  - exists s. cbn. rewrite andb_true_r. split; [reflexivity|apply grows_by_refl].
  - cbn [Dockerapi.build_loop forallb]. rewrite build_messages_cons, map_app.
    destruct (report_values_messages (Dockerapi.values line) s)
      as (s1 & E1 & G1).
    unfold bind at 1. rewrite E1.
    destruct (IH (if Dockerapi.has_errorDetail line then false else b) s1)
      as (s' & E & G).
    exists s'. rewrite E. split.
    + do 2 f_equal. by destruct (Dockerapi.has_errorDetail line), b.
    + apply (grows_by_trans _ _ _ _ _ G1 G).
Qed.

Lemma build_messages_ok (output : list Dockerapi.build_line) :
  Forall (fun msg => msg <> "" /\ Dockerapi.suppress_match msg = false)
         (build_messages output).
Proof.
  apply Forall_forall. intros msg Hin. unfold build_messages in Hin.
  apply list_elem_of_In, List.filter_In in Hin as [_ Hok].
  apply andb_true_iff in Hok as [Hlen Hs].
  split; [intros ->; discriminate|by apply negb_true_iff].
Qed.

(** X12. The verdict of [_buildImage]. When the engine answers the build
    request, the call returns [True] exactly when no output line contains
    [errorDetail], whatever else the lines say. It reports the values of
    the lines in order, each with its trailing blanks removed, leaving
    out objects, empty messages and the ones the noise pattern matches:
    no reported message is empty or matched by [suppress_re]. *)
Theorem buildImage_worker_verdict
    (client : Dockerapi.docker) (tag : string) (src : Dockerapi.build_source)
    (s : Dockerapi.engine_state) (output : list Dockerapi.build_line) :
  Dockerapi.build client tag src = Ok output ->
  exists s',
    Dockerapi._buildImage client tag src s
    = (Ok (forallb (fun line => negb (Dockerapi.has_errorDetail line)) output),
       s')
    /\ Dockerapi.grows_by s s'
         (Dockerapi.EvBuild tag src
            :: map Dockerapi.EvProgress (build_messages output))
    /\ Forall (fun msg => msg <> "" /\ Dockerapi.suppress_match msg = false)
              (build_messages output).
Proof.
  intros Hb. unfold Dockerapi._buildImage.
  unfold bind at 1, Dockerapi.emit at 1. rewrite Hb.
  unfold bind at 1, lift at 1.
  match goal with
  | |- context [Dockerapi.build_loop output true ?s1] =>
      destruct (build_loop_verdict output true s1) as (s' & E & G)
  end.
  exists s'. rewrite E. split; [reflexivity|]. split; [|apply build_messages_ok].
  destruct G as (Gh & Ge & Go). unfold Dockerapi.grows_by.
  cbn [Dockerapi.host Dockerapi.events Dockerapi.objects] in *.
  rewrite Gh, Ge, Go. repeat split. rewrite <- app_assoc. reflexivity.
Qed.

Lemma buildImage_worker_verdict_witness :
  exists s',
    Dockerapi._buildImage (engine_offline failed_build) "seccam:2"
                          (Dockerapi.Fileobj "FROM ubuntu")
                          Examples.engine_start
    = (Ok false, s')
    /\ Dockerapi.grows_by Examples.engine_start s'
         [Dockerapi.EvBuild "seccam:2" (Dockerapi.Fileobj "FROM ubuntu");
          Dockerapi.EvProgress "Step 1 : FROM ubuntu";
          Dockerapi.EvProgress "The command returned a non-zero code: 1"].
Proof.
  destruct (buildImage_worker_verdict (engine_offline failed_build) "seccam:2"
              (Dockerapi.Fileobj "FROM ubuntu") Examples.engine_start
              failed_build eq_refl) as (s' & E & G & _).
  exists s'. split; [exact E|exact G].
Defined.

(** X13. [buildImage] has no handler for a failing pull request. When the
    chute names a registry image and the pull request itself raises, the
    exception leaves [buildImage]: there is no fall-back to a local
    build, neither a download nor a build is asked for, and the only
    report is [Pulling image]. The fall-back is taken only when the pull
    returns and its verdict is [False]. *)
Theorem buildImage_pull_exception
    (client : Dockerapi.docker) (update : Dockerapi.Update)
    (s : Dockerapi.engine_state) (image : string) (e : exn) :
  Dockerapi.external_image (Dockerapi.new update) = Some image ->
  Dockerapi.pull client image = Raise e ->
  exists s',
    Dockerapi.buildImage client update s = (Raise e, s')
    /\ Dockerapi.events s'
       = Dockerapi.events s
         ++ [Dockerapi.EvProgress ("Pulling image: " +:+ image);
             Dockerapi.EvPull image]
    /\ log (Dockerapi.host s')
       = log (Dockerapi.host s)
         ++ ["INFO: Building image for "
               +:+ Dockerapi.name (Dockerapi.new update) +:+ Py.nl]
    /\ Dockerapi.objects s' = Dockerapi.objects s.
Proof.
  intros Himg Hpull. unfold Dockerapi.buildImage.
  unfold bind at 1, Dockerapi.liftHost at 1, out_info at 1.
  rewrite Himg. unfold Dockerapi._pullImage. rewrite Himg.
  unfold bind, Dockerapi.progress, Dockerapi.emit, lift.
  cbn [Dockerapi.host Dockerapi.events Dockerapi.objects].
  rewrite Hpull. eexists. split; [reflexivity|].
  cbn [Dockerapi.host Dockerapi.events Dockerapi.objects log].
  rewrite <- app_assoc. done.
Qed.

Lemma buildImage_pull_exception_witness :
  exists s',
    Dockerapi.buildImage (engine_offline []) (Examples.update_with (Some "FROM ubuntu") None)
                         Examples.engine_start
    = (Raise (Exception "registry unreachable"), s')
    /\ Dockerapi.events s'
       = [Dockerapi.EvProgress "Pulling image: registry.exis.io/seccam";
          Dockerapi.EvPull "registry.exis.io/seccam"].
Proof.
  destruct (buildImage_pull_exception (engine_offline [])
              (Examples.update_with (Some "FROM ubuntu") None)
              Examples.engine_start "registry.exis.io/seccam"
              (Exception "registry unreachable") eq_refl eq_refl)
    as (s' & E & Hev & _).
  exists s'. split; [exact E|exact Hev].
Defined.

(** X14. A local build. For a chute without a registry image and an
    update with a Dockerfile, [buildImage] never asks for a pull or a
    download: its one request is the build of the Dockerfile, tagged
    [<name>:<version>], or [<name>:latest] for a chute without a version.
    When the engine answers, it returns normally exactly when no output
    line contains [errorDetail] and raises
    [Building docker image failed] otherwise, after the same reports
    in both cases. *)
Theorem buildImage_local_build
    (client : Dockerapi.docker) (update : Dockerapi.Update)
    (s : Dockerapi.engine_state) (df : string)
    (output : list Dockerapi.build_line) :
  let chute := Dockerapi.new update in
  let tag := Dockerapi.name chute +:+ ":"
               +:+ default "latest" (Dockerapi.version chute) in
  Dockerapi.external_image chute = None ->
  Dockerapi.dockerfile update = Some df ->
  Dockerapi.build client tag (Dockerapi.Fileobj df) = Ok output ->
  exists s',
    Dockerapi.buildImage client update s
    = (if forallb (fun line => negb (Dockerapi.has_errorDetail line)) output
       then Ok tt
       else Raise (Exception
              "Building docker image failed; check your Dockerfile for errors."),
       s')
    /\ Dockerapi.events s'
       = Dockerapi.events s
         ++ Dockerapi.EvBuild tag (Dockerapi.Fileobj df)
            :: map Dockerapi.EvProgress (build_messages output).
Proof.
  intros chute tag Himg Hdf Hb. unfold Dockerapi.buildImage.
  unfold bind at 1, Dockerapi.liftHost at 1, out_info at 1.
  fold chute. rewrite Himg, Hdf. unfold bind at 1, ret at 1.
  assert (Htag : Dockerapi.getImageName chute = tag).
  { unfold Dockerapi.getImageName, tag. rewrite Himg.
    by destruct (Dockerapi.version chute). }
  rewrite Htag. unfold bind at 1.
  match goal with
  | |- context [Dockerapi._buildImage client tag _ ?s1] =>
      destruct (build_loop_verdict output true
                  (Dockerapi.EngineState (Dockerapi.host s1)
                     (Dockerapi.events s1
                        ++ [Dockerapi.EvBuild tag (Dockerapi.Fileobj df)])
                     (Dockerapi.objects s1))) as (s' & E & G);
      assert (Hw : Dockerapi._buildImage client tag (Dockerapi.Fileobj df) s1
                   = (Ok (forallb (fun line => negb (Dockerapi.has_errorDetail line))
                                  output), s'))
  end.
  { unfold Dockerapi._buildImage, bind, Dockerapi.emit, lift.
    rewrite Hb. exact E. }
  rewrite Hw. exists s'.
  destruct G as (_ & Ge & _).
  cbn [Dockerapi.host Dockerapi.events Dockerapi.objects] in Ge.
  split.
  - by destruct (forallb _ output).
  - rewrite Ge, <- app_assoc. reflexivity.
Qed.

Lemma buildImage_local_build_witness :
  exists s',
    Dockerapi.buildImage (engine_offline failed_build)
                         (local_update "FROM ubuntu") Examples.engine_start
    = (Raise (Exception
         "Building docker image failed; check your Dockerfile for errors."), s')
    /\ Dockerapi.events s'
       = [Dockerapi.EvBuild "seccam:2" (Dockerapi.Fileobj "FROM ubuntu");
          Dockerapi.EvProgress "Step 1 : FROM ubuntu";
          Dockerapi.EvProgress "The command returned a non-zero code: 1"].
Proof.
  destruct (buildImage_local_build (engine_offline failed_build)
              (local_update "FROM ubuntu") Examples.engine_start
              "FROM ubuntu" failed_build eq_refl eq_refl eq_refl)
    as (s' & E & Hev).
  exists s'. split; [exact E|exact Hev].
Defined.

(** ** Spawning pipework: every outcome *)

Lemma log_each_frame (f : string -> M unit) (lines : list string) (w : world) :
  (forall l w0, exists w1, f l w0 = (Ok tt, w1) /\ spawned w1 = spawned w0
                           /\ files w1 = files w0) ->
  exists w', Dockerapi.log_each f lines w = (Ok tt, w')
             /\ spawned w' = spawned w /\ files w' = files w.
Proof.
  intros Hf. revert w. induction lines as [|l r IH]; intros w; cbn.
  - by exists w.
  - unfold bind. destruct (Hf l w) as (w1 & -> & H1 & F1).
    destruct (IH w1) as (w2 & -> & H2 & F2).
    exists w2. split; [done|]. split; congruence.
Qed.

Lemma contains_refl (s : string) : Dockerapi.contains s s = true.
Proof.
  destruct s as [|c r]; [reflexivity|].
  cbn [Dockerapi.contains]. apply orb_true_iff. left.
  assert (H : forall t, String.prefix t t = true).
  { induction t as [|a t IH]; [reflexivity|].
    cbn. destruct (ascii_dec a a); [exact IH|congruence]. }
  apply H.
Qed.

Lemma contains_append (needle a b : string) :
  Dockerapi.contains needle b = true ->
  Dockerapi.contains needle (a +:+ b) = true.
Proof.
  intros H. induction a as [|c a IH]; [exact H|].
  rewrite append_cons_l. cbn [Dockerapi.contains].
  rewrite IH. apply orb_true_r.
Qed.

Lemma pipework_PATH_contains (sys : Dockerapi.os) :
  Dockerapi.contains (Dockerapi.DOCKER_BIN_DIR sys) (Dockerapi.pipework_PATH sys)
  = true
  /\ String.prefix (default "" (Dockerapi.environ_PATH sys))
                   (Dockerapi.pipework_PATH sys) = true.
Proof.
  unfold Dockerapi.pipework_PATH.
  destruct (Dockerapi.contains _ (default "" _)) eqn:E.
  - split; [exact E|].
    generalize (default "" (Dockerapi.environ_PATH sys)).
    induction s as [|a t IH]; [reflexivity|].
    cbn. destruct (ascii_dec a a); [exact IH|congruence].
  - split.
    + apply contains_append, (contains_append _ ":"), contains_refl.
    + apply prefix_append.
Qed.

(** One pass through the loop body of [setup_net_interfaces]. *)
Lemma setup_one_run (sys : Dockerapi.os) (chuteName : string)
      (iface : Network.Iface) (w : world) :
  let cmd := Dockerapi.pipework_cmd chuteName iface in
  exists w',
    files w' = files w
    /\ if Network.is_wifi iface then
         spawned w' = spawned w ++ [(cmd, Dockerapi.pipework_PATH sys)]
         /\ match Dockerapi.popen sys cmd with
            | Some _ => Dockerapi.setup_one sys chuteName iface w = (Ok tt, w')
            | None =>
                Dockerapi.setup_one sys chuteName iface w
                = (Raise (OSError "spawn failed"), w')
                /\ log w'
                   = log w
                     ++ ["INFO: Calling: " +:+ Py.join " " cmd +:+ Py.nl;
                         "WARN: Command " +:+ Py.dquote +:+ Py.join " " cmd
                           +:+ Py.dquote +:+ " failed" +:+ Py.nl]
            end
       else Dockerapi.setup_one sys chuteName iface w = (Ok tt, w')
            /\ w' = w.
Proof.
  intros cmd. unfold Dockerapi.setup_one, Network.is_wifi. fold cmd.
  destruct (String.eqb (Network.netType iface) "wifi");
    [|exists w; repeat split].
  unfold bind at 1. cbn [out_info]. unfold bind at 1. cbn [Dockerapi.spawn].
  destruct (Dockerapi.popen sys cmd) as [[out err]|].
  - unfold bind.
    edestruct (log_each_frame
                 (fun line => out_info ("pipework: " +:+ Py.strip line +:+ Py.nl)) out)
      as (w1 & -> & H1 & F1).
    { intros l w0. eexists. repeat split. }
    edestruct (log_each_frame
                 (fun line => out_warn ("pipework: " +:+ Py.strip line +:+ Py.nl)) err)
      as (w2 & -> & H2 & F2).
    { intros l w0. eexists. repeat split. }
    exists w2. rewrite F2, F1, H2, H1. repeat split.
  - unfold bind, raise, out_warn.
    refine (ex_intro _ (World _ _ _ _) _). cbn [files spawned log].
    split; [reflexivity|]. split; [reflexivity|]. split; [reflexivity|].
    cbn [files spawned log]. rewrite <- app_assoc. reflexivity.
Qed.

(** Any run of the loop: the pipework calls made are those of a first part
    of the WiFi records, all of them when the loop ends normally. *)
Lemma setup_each_run (sys : Dockerapi.os) (chuteName : string)
      (interfaces : list Network.Iface) (w w' : world) (r : result unit) :
  Dockerapi.setup_each sys chuteName interfaces w = (r, w') ->
  exists called rest,
    filter (fun i => Network.is_wifi i = true) interfaces = called ++ rest
    /\ spawned w'
       = spawned w
         ++ map (fun i => (Dockerapi.pipework_cmd chuteName i,
                           Dockerapi.pipework_PATH sys)) called
    /\ files w' = files w
    /\ (r = Ok tt -> rest = [])
    /\ (forall e, r = Raise e ->
          e = OSError "spawn failed"
          /\ exists i, last called = Some i
                       /\ Dockerapi.popen sys (Dockerapi.pipework_cmd chuteName i)
                          = None).
Proof.
  revert w. induction interfaces as [|iface rest IH]; intros w;
    cbn [Dockerapi.setup_each].
  - intros [= <- <-]. exists [], []. rewrite app_nil_r.
    repeat split; try done. cbn [map]. by rewrite app_nil_r.
  - unfold bind at 1.
    destruct (setup_one_run sys chuteName iface w) as (w1 & F1 & H1).
    rewrite filter_cons.
    destruct (Network.is_wifi iface) eqn:Ew.
    + rewrite decide_True by done. destruct H1 as [S1 H1].
      destruct (Dockerapi.popen sys _) eqn:Ep.
      * rewrite H1. intros Hrun.
        destruct (IH _ Hrun) as (called & rest' & Hf & Hs & Hfi & Hok & Hraise).
        exists (iface :: called), rest'. rewrite Hf.
        split; [reflexivity|]. split; [by rewrite Hs, S1, <- app_assoc|].
        split; [congruence|]. split; [exact Hok|].
        intros e He. destruct (Hraise e He) as (-> & i & Hl & Hp).
        split; [reflexivity|]. exists i. split; [|exact Hp].
        destruct called; [discriminate|exact Hl].
      * destruct H1 as [H1 _]. rewrite H1. intros [= <- <-].
        exists [iface], (filter (fun i => Network.is_wifi i = true) rest).
        split; [reflexivity|]. split; [exact S1|]. split; [exact F1|].
        split; [discriminate|]. intros e [= <-]. split; [reflexivity|].
        exists iface. split; [reflexivity|exact Ep].
    + rewrite decide_False by (cbv beta; congruence).
      destruct H1 as [H1 ->]. rewrite H1. intros Hrun. apply IH, Hrun.
Qed.

(** X15. Every outcome of [setup_net_interfaces]. Whether the call ends
    normally or not, the processes it has spawned are the pipework calls
    for a first part of the chute's WiFi records, in cache order, and no
    file is touched. The [PATH] of each call contains the directory of the
    docker client and begins with the caller's [PATH]. The call ends
    normally only when that first part is all WiFi records; otherwise it
    raises [OSError], the last call made is one that could not be
    spawned, and the WiFi records after it get no pipework call. *)
Theorem setup_net_interfaces_outcome
    (sys : Dockerapi.os) (chute : Dockerapi.Chute)
    (interfaces : list Network.Iface) (w w' : world) (r : result unit) :
  Dockerapi.cache_networkInterfaces chute = Some interfaces ->
  Dockerapi.setup_net_interfaces sys chute w = (r, w') ->
  exists called rest,
    filter (fun i => Network.is_wifi i = true) interfaces = called ++ rest
    /\ spawned w'
       = spawned w
         ++ map (fun i => (Dockerapi.pipework_cmd (Dockerapi.name chute) i,
                           Dockerapi.pipework_PATH sys)) called
    /\ files w' = files w
    /\ Dockerapi.contains (Dockerapi.DOCKER_BIN_DIR sys)
                          (Dockerapi.pipework_PATH sys) = true
    /\ String.prefix (default "" (Dockerapi.environ_PATH sys))
                     (Dockerapi.pipework_PATH sys) = true
    /\ match r with
       | Ok _ => rest = []
       | Raise e =>
           e = OSError "spawn failed"
           /\ exists i,
               last called = Some i
               /\ Dockerapi.popen sys
                    (Dockerapi.pipework_cmd (Dockerapi.name chute) i) = None
       end.
Proof.
  intros Hc. unfold Dockerapi.setup_net_interfaces. rewrite Hc. intros Hrun.
  destruct (setup_each_run _ _ _ _ _ _ Hrun)
    as (called & rest & Hf & Hs & Hfi & Hok & Hraise).
  destruct (pipework_PATH_contains sys) as [Hp1 Hp2].
  exists called, rest. repeat (split; [assumption|]).
  destruct r as [[]|e]; [by apply Hok|by apply Hraise].
Qed.

Lemma setup_net_interfaces_outcome_witness :
  exists w',
    Dockerapi.setup_net_interfaces failing_os
      (Examples.chute_with None None None
         [Examples.lan_record; Examples.wifi_record0; Examples.wifi_record1])
      Examples.empty_world
    = (Raise (OSError "spawn failed"), w')
    /\ exists called rest,
        [Examples.wifi_record0; Examples.wifi_record1] = called ++ rest
        /\ spawned w'
           = map (fun i => (Dockerapi.pipework_cmd "seccam" i,
                            Dockerapi.pipework_PATH failing_os)) called
        /\ exists i, last called = Some i
                     /\ Dockerapi.popen failing_os
                          (Dockerapi.pipework_cmd "seccam" i) = None.
Proof.
  destruct (Dockerapi.setup_net_interfaces failing_os
              (Examples.chute_with None None None
                 [Examples.lan_record; Examples.wifi_record0;
                  Examples.wifi_record1]) Examples.empty_world)
    as [r w'] eqn:E.
  destruct (setup_net_interfaces_outcome failing_os
              (Examples.chute_with None None None
                 [Examples.lan_record; Examples.wifi_record0;
                  Examples.wifi_record1])
              [Examples.lan_record; Examples.wifi_record0;
               Examples.wifi_record1] _ _ _ eq_refl E)
    as (called & rest & Hf & Hs & _ & _ & _ & Hr).
  assert (Hraise : r = Raise (OSError "spawn failed")).
  { vm_compute in E. by injection E as <- _. }
  subst r. destruct Hr as (_ & i & Hl & Hp).
  exists w'. split; [reflexivity|].
  exists called, rest. split; [exact Hf|]. split; [exact Hs|].
  exists i. split; [exact Hl|exact Hp].
Defined.

(** ** Starting a container: failures of the engine *)

(** X16. No pipework without a started container. When the engine refuses
    to create the chute's container, [_startChute] raises the engine's
    exception with no start request made; when the container is created
    and the engine refuses to start it, [_startChute] raises that
    exception after the start request. In both cases no process is
    spawned, so no interface is moved, no success is logged, and the
    environment map built for the container stays allocated. *)
Theorem startChute_engine_failure
    (client : Dockerapi.docker) (sys : Dockerapi.os) (pdid : pyval)
    (chute : Dockerapi.Chute) (s : Dockerapi.engine_state)
    (env : Dockerapi.loc) (h : Dockerapi.heap) (e : exn) :
  let repo := Dockerapi.getImageName chute in
  let name := Dockerapi.name chute in
  let created := Dockerapi.create_container client repo name env in
  Dockerapi.prepare_environment pdid chute (Dockerapi.objects s) = (Ok env, h) ->
  (created = Raise e
   \/ exists container,
       created = Ok container /\ Dockerapi.start client container = Raise e) ->
  exists s',
    Dockerapi._startChute client sys pdid chute s = (Raise e, s')
    /\ spawned (Dockerapi.host s') = spawned (Dockerapi.host s)
    /\ files (Dockerapi.host s') = files (Dockerapi.host s)
    /\ log (Dockerapi.host s')
       = log (Dockerapi.host s)
         ++ ["INFO: Attempting to start new Chute " +:+ name +:+ " " +:+ Py.nl]
    /\ Dockerapi.objects s' = h
    /\ Dockerapi.events s'
       = Dockerapi.events s
         ++ Dockerapi.EvCreate repo name env
            :: match created with
               | Ok container => [Dockerapi.EvStart container]
               | Raise _ => []
               end.
Proof.
  intros repo name created Henv Hfail. unfold Dockerapi._startChute.
  unfold bind at 1, Dockerapi.liftHost at 1, out_info at 1.
  unfold bind at 1. cbn [Dockerapi.objects Dockerapi.host Dockerapi.events].
  rewrite Henv. unfold bind at 1, Dockerapi.emit at 1.
  cbn [Dockerapi.objects Dockerapi.host Dockerapi.events].
  fold repo name created. unfold bind at 1, lift at 1.
  destruct Hfail as [Hc | (container & Hc & Hs)]; rewrite Hc.
  - eexists. split; [reflexivity|].
    cbn [Dockerapi.objects Dockerapi.host Dockerapi.events files log spawned].
    repeat split.
  - unfold bind at 1, Dockerapi.emit at 1.
    cbn [Dockerapi.objects Dockerapi.host Dockerapi.events].
    unfold bind at 1, lift at 1. rewrite Hs.
    eexists. split; [reflexivity|].
    cbn [Dockerapi.objects Dockerapi.host Dockerapi.events files log spawned].
    rewrite <- app_assoc. repeat split.
Qed.

Lemma startChute_engine_failure_witness :
  exists s',
    Dockerapi._startChute engine_no_start Examples.quiet_os (VStr "router")
      (Examples.chute_with (Some "2") None None [Examples.wifi_record0])
      Examples.engine_start
    = (Raise (Exception "cannot start"), s')
    /\ spawned (Dockerapi.host s') = [].
Proof.
  destruct (Dockerapi.prepare_environment (VStr "router")
              (Examples.chute_with (Some "2") None None [Examples.wifi_record0])
              (Dockerapi.objects Examples.engine_start)) as [[env|e0] h] eqn:E;
    [|vm_compute in E; discriminate].
  destruct (startChute_engine_failure engine_no_start Examples.quiet_os
              (VStr "router")
              (Examples.chute_with (Some "2") None None [Examples.wifi_record0])
              Examples.engine_start env h (Exception "cannot start") E)
    as (s' & Hrun & Hsp & _).
  - right. exists "0123abcd". split; reflexivity.
  - exists s'. split; [exact Hrun|exact Hsp].
Defined.

(** ** Removing and restarting chutes *)


Lemma liftHost_run {A} (m : M A) (s : Lifecycle.state) :
  Lifecycle.liftHost m s
  = (fst (m (Lifecycle.host s)),
     Lifecycle.State (snd (m (Lifecycle.host s))) (Lifecycle.events s)).
Proof. unfold Lifecycle.liftHost. by destruct (m (Lifecycle.host s)). Qed.

(** X18. [restartChute]. The call asks the engine to start the container
    named after the update. When that request raises, the exception
    leaves the call and nothing is spawned. When it returns, the call
    ends as [setup_net_interfaces] on the new chute does: the pipework
    calls made are those of a first part of the chute's WiFi records, all
    of them when the call returns normally. *)
Theorem restartChute_outcome
    (c : Lifecycle.client) (sys : Dockerapi.os) (update : Lifecycle.Update)
    (interfaces : list Network.Iface) (s s' : Lifecycle.state)
    (r : result unit) :
  let chute := Lifecycle.new update in
  Dockerapi.cache_networkInterfaces chute = Some interfaces ->
  Lifecycle.restartChute c sys update s = (r, s') ->
  Lifecycle.events s'
  = Lifecycle.events s ++ [Lifecycle.EvStart (Lifecycle.name update)]
  /\ match Lifecycle.start c (Lifecycle.name update) with
     | Lifecycle.Raised e =>
         r = Raise (Exception e)
         /\ spawned (Lifecycle.host s') = spawned (Lifecycle.host s)
     | Lifecycle.Returned =>
         exists called rest,
           filter (fun i => Network.is_wifi i = true) interfaces
           = called ++ rest
           /\ spawned (Lifecycle.host s')
              = spawned (Lifecycle.host s)
                ++ map (fun i => (Dockerapi.pipework_cmd (Dockerapi.name chute) i,
                                  Dockerapi.pipework_PATH sys)) called
           /\ (r = Ok tt -> rest = [])
     end.
Proof.
  intros chute Hc. unfold Lifecycle.restartChute.
  unfold bind at 1, Lifecycle.liftHost at 1, out_info at 1.
  unfold bind at 1, Lifecycle.emit at 1.
  cbn [Lifecycle.host Lifecycle.events].
  unfold bind at 1, Lifecycle.request.
  destruct (Lifecycle.start c (Lifecycle.name update)) as [|e].
  - unfold ret at 1. rewrite liftHost_run.
    cbn [Lifecycle.host Lifecycle.events]. fold chute.
    destruct (Dockerapi.setup_net_interfaces sys chute _) as [r0 w0] eqn:Hrun.
    cbn [fst snd]. intros [= <- <-]. cbn [Lifecycle.host Lifecycle.events].
    split; [reflexivity|].
    unfold Dockerapi.setup_net_interfaces in Hrun. rewrite Hc in Hrun.
    destruct (setup_each_run _ _ _ _ _ _ Hrun)
      as (called & rest & Hf & Hs & _ & Hok & _).
    exists called, rest. cbn [spawned] in Hs. done.
  - unfold raise. intros [= <- <-]. cbn [Lifecycle.host Lifecycle.events spawned].
    done.
Qed.

Lemma restartChute_outcome_witness :
  exists s',
    Lifecycle.restartChute stubborn_client Examples.quiet_os seccam_update
                           (Lifecycle.State Examples.empty_world [])
    = (Ok tt, s')
    /\ Lifecycle.events s' = [Lifecycle.EvStart "seccam"]
    /\ exists called,
        [Examples.wifi_record0; Examples.wifi_record1] = called
        /\ spawned (Lifecycle.host s')
           = map (fun i => (Dockerapi.pipework_cmd "seccam" i,
                            Dockerapi.pipework_PATH Examples.quiet_os)) called.
Proof.
  destruct (Lifecycle.restartChute stubborn_client Examples.quiet_os
              seccam_update (Lifecycle.State Examples.empty_world []))
    as [r s'] eqn:E.
  destruct (restartChute_outcome stubborn_client Examples.quiet_os
              seccam_update
              [Examples.lan_record; Examples.wifi_record0; Examples.wifi_record1]
              _ _ _ eq_refl E) as (Hev & called & rest & Hf & Hs & Hok).
  assert (Hr : r = Ok tt) by (vm_compute in E; by injection E as <- _).
  subst r. rewrite (Hok eq_refl), app_nil_r in Hf.
  exists s'. split; [reflexivity|]. split; [exact Hev|].
  exists called. split; [exact Hf|exact Hs].
Defined.

(** ** Routing of the portal *)

Lemma no_char_append (sep : ascii) (a b : string) :
  no_char sep a -> no_char sep b -> no_char sep (a +:+ b).
Proof.
  unfold no_char. induction a as [|c a IH]; [done|].
  rewrite append_cons_l. cbn [Py.all_chars].
  rewrite !andb_true_iff. intros [Hc Ha] Hb. split; [exact Hc|by apply IH].
Qed.

Lemma endswith_append (suffix a : string) :
  Portal.endswith suffix (a +:+ suffix) = true.
Proof.
  induction a as [|c a IH].
  - rewrite append_nil_l. destruct suffix; cbn [Portal.endswith];
      rewrite String.eqb_refl; reflexivity.
  - rewrite append_cons_l. cbn [Portal.endswith]. rewrite IH.
    apply orb_true_r.
Qed.

(** The name part of a [Host] header for a chute, with or without a
    port. *)
Lemma chute_host_name (chute host : string) :
  no_char ":" chute ->
  (host = chute +:+ ".home.paradrop.org"
   \/ exists port, host = chute +:+ ".home.paradrop.org" +:+ ":" +:+ port) ->
  hd "" (Py.split_on ":" host) = chute +:+ ".home.paradrop.org".
Proof.
  intros Hc Hh.
  assert (Hn : no_char ":" (chute +:+ ".home.paradrop.org"))
    by (apply no_char_append; [exact Hc|reflexivity]).
  destruct Hh as [-> | (port & ->)].
  - by rewrite split_on_no_sep.
  - replace (chute +:+ ".home.paradrop.org" +:+ ":" +:+ port)
      with ((chute +:+ ".home.paradrop.org") +:+ String ":" port).
    + by rewrite split_on_app_sep.
    + clear. induction chute as [|c r IH]; [reflexivity|].
      rewrite !append_cons_l, IH. reflexivity.
Qed.

(** X19. Routing of the portal. A request whose [Host] header is
    [<chute>.home.paradrop.org], with or without a port, where the chute
    name has no dot and no colon, is answered from what the engine says
    about the container of that name: a reverse proxy to the container's
    address on port 80, with the path behind a slash, when it is
    running; the page of [ChuteNotRunning] or of [ChuteNotFound] when it
    is stopped or unknown; any other exception of the engine leaves
    [getChild]. Conversely, [getChild] answers with a reverse proxy only
    for a host name that ends in [.home.paradrop.org], only on port 80,
    and only to the address of a container the engine reports as
    running. *)
Theorem getChild_routing
    (inspect_container : string -> Portal.inspection) (path : string) :
  (forall chute host,
      no_char "." chute -> no_char ":" chute ->
      (host = chute +:+ ".home.paradrop.org"
       \/ exists port, host = chute +:+ ".home.paradrop.org" +:+ ":" +:+ port) ->
      Portal.getChild inspect_container (Some host) path
      = match inspect_container chute with
        | Portal.Info true ip =>
            Portal.Return (Portal.ReverseProxyResource ip 80 ("/" +:+ path))
        | Portal.Info false _ =>
            Portal.Return (Portal.ChuteErrorPage
                             (Portal.ChuteNotRunning "The chute is not running."))
        | Portal.NotFound =>
            Portal.Return (Portal.ChuteErrorPage
                             (Portal.ChuteNotFound "The chute could not be found."))
        | Portal.Failed e => Portal.RaiseOther e
        end)
  /\ (forall host ip port p,
        Portal.getChild inspect_container host path
        = Portal.Return (Portal.ReverseProxyResource ip port p) ->
        port = 80 /\ p = "/" +:+ path
        /\ exists h name chute,
            host = Some h
            /\ name = hd "" (Py.split_on ":" h)
            /\ Portal.endswith ".home.paradrop.org" name = true
            /\ chute = hd "" (Py.split_on "." name)
            /\ inspect_container chute = Portal.Info true ip).
Proof.
  split.
  - intros chute host Hdot Hcolon Hhost. unfold Portal.getChild.
    rewrite (chute_host_name chute host Hcolon Hhost).
    assert (String.eqb (chute +:+ ".home.paradrop.org") "home.paradrop.org"
            = false) as ->.
    { apply String.eqb_neq. intros H. apply (f_equal String.length) in H.
      rewrite string_length_append in H. cbn in H. lia. }
    rewrite endswith_append.
    change (chute +:+ ".home.paradrop.org")
      with (chute +:+ String "." "home.paradrop.org").
    rewrite split_on_app_sep by exact Hdot. cbn [hd].
    unfold Portal.getChuteIP.
    destruct (inspect_container chute) as [|e|[] ip]; reflexivity.
  - intros host ip port p. unfold Portal.getChild.
    destruct host as [h|]; [|discriminate].
    destruct (String.eqb _ "home.paradrop.org"); [discriminate|].
    destruct (Portal.endswith _ _) eqn:Hend; [|discriminate].
    unfold Portal.getChuteIP.
    destruct (inspect_container _) as [|e|[] ip0] eqn:Hi; try discriminate.
    cbn [negb]. intros [= <- <- <-]. split; [reflexivity|].
    split; [reflexivity|]. do 3 eexists. repeat split; try eassumption.
Qed.

Lemma getChild_routing_witness :
  Portal.getChild two_chutes (Some "seccam.home.paradrop.org:8080") "video"
  = Portal.Return (Portal.ReverseProxyResource "172.17.0.2" 80 "/video")
  /\ Portal.getChild two_chutes (Some "old.home.paradrop.org") "video"
     = Portal.Return (Portal.ChuteErrorPage
                        (Portal.ChuteNotRunning "The chute is not running.")).
Proof.
  split.
  - exact (proj1 (getChild_routing two_chutes "video") "seccam"
             "seccam.home.paradrop.org:8080" eq_refl eq_refl
             (or_intror (ex_intro _ "8080" eq_refl))).
  - exact (proj1 (getChild_routing two_chutes "video") "old"
             "old.home.paradrop.org" eq_refl eq_refl (or_introl eq_refl)).
Defined.

(** ** Decimal numerals *)

Lemma int_of_digits_uint_acc (u : Decimal.uint) (p : positive) :
  Py.int_of_digits (Z.pos p) (NilEmpty.string_of_uint u)
  = Z.pos (Pos.of_uint_acc u p).
Proof.
  revert p. induction u; intros p; cbn [NilEmpty.string_of_uint Py.int_of_digits
                                         Pos.of_uint_acc];
    [reflexivity|..];
    match goal with
    | |- Py.int_of_digits ?a _ = Z.pos (Pos.of_uint_acc _ ?q) =>
        replace a with (Z.pos q)
          by (rewrite ?Pos2Z.inj_add, ?Pos2Z.inj_mul;
              match goal with
              | |- context [Z.of_nat (nat_of_ascii ?c)] =>
                  let v := eval vm_compute in (Z.of_nat (nat_of_ascii c)) in
                  change (Z.of_nat (nat_of_ascii c)) with v
              end; lia)
    end; apply IHu.
Qed.

Lemma int_of_digits_uint (u : Decimal.uint) :
  Py.int_of_digits 0 (NilEmpty.string_of_uint u) = Z.of_N (Pos.of_uint u).
Proof.
  induction u; cbn [NilEmpty.string_of_uint Py.int_of_digits Pos.of_uint];
    [reflexivity|exact IHu|..];
    match goal with
    | |- Py.int_of_digits ?a _ = Z.of_N (N.pos (Pos.of_uint_acc _ ?q)) =>
        change a with (Z.pos q)
    end; apply int_of_digits_uint_acc.
Qed.

Lemma string_of_uint_digits (u : Decimal.uint) :
  Py.all_chars Py.is_digit (NilEmpty.string_of_uint u) = true
  /\ no_char "/" (NilEmpty.string_of_uint u).
Proof.
  unfold no_char.
  induction u; cbn [NilEmpty.string_of_uint Py.all_chars]; [done|..];
    destruct IHu as [-> ->]; split; reflexivity.
Qed.

(** [str(n)] of a natural number is a non-empty string of decimal digits
    that reads back as [n]. *)
Lemma str_of_int_decimal (n : Z) :
  0 <= n ->
  let s := Py.str_of_int n in
  s <> "" /\ Py.all_chars Py.is_digit s = true
  /\ Py.int_of_digits 0 s = n /\ no_char "/" s.
Proof.
  intros Hn. unfold Py.str_of_int. destruct n as [|p|p]; [|clear Hn|lia].
  - cbn. repeat split. discriminate.
  - cbn [Z.to_int NilZero.string_of_int].
    pose proof (DecimalPos.Unsigned.to_uint_nonnil p) as Hnil.
    pose proof (DecimalPos.Unsigned.of_to p) as Hof.
    assert (E : NilZero.string_of_uint (Pos.to_uint p)
                = NilEmpty.string_of_uint (Pos.to_uint p))
      by (destruct (Pos.to_uint p); [done|reflexivity..]).
    cbv zeta. rewrite E.
    destruct (string_of_uint_digits (Pos.to_uint p)) as [Hd Hs].
    split; [|split; [exact Hd|split; [|exact Hs]]].
    + destruct (Pos.to_uint p); [done|discriminate..].
    + rewrite int_of_digits_uint, Hof. reflexivity.
Qed.

(** X20. The port list of declared bindings. When the keys of
    [port_bindings] are written as [<port>] or [<port>/<protocol>], with
    a port that is a natural number in decimal and a protocol without a
    slash, [getPortList] returns, in the order of the keys, the port for
    the first form and the pair of port and protocol for the second: the
    numbers and protocols read back are the declared ones. This needs of
    [int] only that it reads a string of decimal digits as its value. *)
Theorem getPortList_declared
    (int : string -> result Z) (ds : list Ports.declared) :
  (forall s, s <> "" -> Py.all_chars Py.is_digit s = true ->
             int s = Ok (Py.int_of_digits 0 s)) ->
  Forall (fun d => 0 <= fst d
                   /\ match snd d with
                      | Some proto => no_char "/" proto
                      | None => True
                      end) ds ->
  Ports.getPortList int (Some (Ports.Bindings (map Ports.key_of ds)))
  = Ok (map Ports.port_of ds).
Proof.
  intros Hint Hds. cbn [Ports.getPortList].
  induction Hds as [|[n proto] ds [Hn Hp] _ IH]; [reflexivity|].
  cbn [map Ports.ports_of_keys]. rewrite IH. cbn [fst snd] in Hn, Hp.
  destruct (str_of_int_decimal n Hn) as (Hne & Hd & Hv & Hs).
  destruct proto as [proto|]; cbn [Ports.key_of Ports.port_of Ports.port_of_key].
  - change (Py.str_of_int n +:+ "/" +:+ proto)
      with (Py.str_of_int n +:+ String "/" proto).
    rewrite split_on_app_sep by exact Hs.
    rewrite (split_on_no_sep _ _ Hp), (Hint _ Hne Hd), Hv. reflexivity.
  - rewrite (split_on_no_sep _ _ Hs), (Hint _ Hne Hd), Hv. reflexivity.
Qed.

Lemma getPortList_declared_witness :
  Ports.getPortList Ports.int_of_decimal
    (Some (Ports.Bindings [Ports.KStr "1111/udp"; Ports.KStr "2222"]))
  = Ok [Ports.PortProto 1111 "udp"; Ports.Port 2222].
Proof.
  apply (getPortList_declared Ports.int_of_decimal
           [(1111, Some "udp"); (2222, None)]).
  - intros s Hne Hd. unfold Ports.int_of_decimal. rewrite Hd.
    destruct s; [done|reflexivity].
  - repeat constructor; cbn; lia.
Defined.
